(** * Interview coach (V2): dialogue-phase controller, progress trackers,
      intent recognition, response parsing, clients and libraries

    A shallow embedding of
      - [src/models.py]          (SessionPhase, UserIntent, Problem, Message,
                                  GuidanceState, FollowUpState, Session),
      - [src/coach_engine.py]    (CoachEngine and its phase handlers),
      - [src/llm_client.py]      (BaseLLMClient; [_parse_json] of the three
                                  real clients; QwenClient.call_json;
                                  MockLLMClient),
      - [src/prompt_library.py]  (the system instruction and
                                  [_format_conversation]),
      - [src/problem_library.py] (ProblemLibrary's dictionary operations),
    followed by the properties proved about them.

    Conventions.
      - A Python [str] is a sequence of Unicode code points: [list N].
        String literals of the source are written as UTF-8 literals and
        decoded by [py].
      - Python [int] is [Z].
      - A value that comes out of [json.loads] is a [pyval]; a [Dict] is a
        finite map from [str] keys to [pyval]s; a dictionary whose iteration
        order matters is an association list ([odict]).
      - What a function returns or raises is a value of [exn + A]. The
        annotation [-> Dict] of [call_json] and [_parse_json] is not
        enforced by Python: these return whatever value the text decodes
        to, and the model gives them the type [pyval].
      - Handlers mutate the session in place and may raise: they are
        computations in a state-and-exception monad [M] whose state survives
        an exception, as the mutated Python object does.
      - [datetime.now()] stamps ([Message.timestamp], [created_at],
        [updated_at]) are not modelled; [Message.metadata] is always empty
        in the engine and is left out of the record. *)

From Stdlib Require Import ZArith NArith List String Ascii Bool Lia Floats ZifyBool
  DecimalString.
From stdpp Require Import base option list gmap.
Import ListNotations.

#[local] Open Scope Z_scope.
#[local] Set Default Proof Using "Type".

(* ===================================================================== *)
(** * Python strings *)
(* ===================================================================== *)

Abbreviation str := (list N).

(** UTF-8 decoding of a source literal into code points. *)
Fixpoint utf8_decode (bs : list N) : str :=
  match bs with
  | [] => []
  | b0 :: r0 =>
    if (b0 <? 128)%N then b0 :: utf8_decode r0
    else match r0 with
    | [] => []
    | b1 :: r1 =>
      if (b0 <? 224)%N then ((b0 - 192) * 64 + (b1 - 128))%N :: utf8_decode r1
      else match r1 with
      | [] => []
      | b2 :: r2 =>
        if (b0 <? 240)%N
        then ((b0 - 224) * 4096 + (b1 - 128) * 64 + (b2 - 128))%N :: utf8_decode r2
        else match r2 with
        | [] => []
        | b3 :: r3 =>
          ((b0 - 240) * 262144 + (b1 - 128) * 4096 + (b2 - 128) * 64 + (b3 - 128))%N
            :: utf8_decode r3
        end
      end
    end
  end.

Definition py (s : string) : str :=
  utf8_decode (List.map N_of_ascii (list_ascii_of_string s)).

Definition NL : N := 10%N.

(** [str.isspace] on one code point; the regular-expression class [\s] of a
    [str] pattern is the same set. *)
Definition is_space (c : N) : bool :=
  ((9 <=? c) && (c <=? 13) || (28 <=? c) && (c <=? 32)
   || (c =? 133) || (c =? 160) || (c =? 5760)
   || (8192 <=? c) && (c <=? 8202)
   || (c =? 8232) || (c =? 8233) || (c =? 8239) || (c =? 8287) || (c =? 12288))%N.

Definition str_eqb (a b : str) : bool := bool_decide (a = b).

(** [s.startswith(p)] *)
Fixpoint starts_with (p s : str) : bool :=
  match p, s with
  | [], _ => true
  | _ :: _, [] => false
  | a :: p', b :: s' => (a =? b)%N && starts_with p' s'
  end.

(** [sub in s] *)
Fixpoint contains (sub s : str) : bool :=
  starts_with sub s ||
  match s with
  | [] => false
  | _ :: s' => contains sub s'
  end.

(** [s.find(sub)]: the lowest index where [sub] occurs, [-1] if none. *)
Fixpoint find (sub s : str) : Z :=
  if starts_with sub s then 0
  else match s with
       | [] => -1
       | _ :: s' => let i := find sub s' in if i <? 0 then -1 else i + 1
       end.

(** [s.rfind(sub)]: the highest index where [sub] occurs, [-1] if none. *)
Fixpoint rfind (sub s : str) : Z :=
  match s with
  | [] => if starts_with sub [] then 0 else -1
  | _ :: s' =>
    let i := rfind sub s' in
    if 0 <=? i then i + 1 else if starts_with sub s then 0 else -1
  end.

(** [s[a:b]] for indices [0 <= a], [0 <= b]. *)
Definition slice (s : str) (a b : Z) : str :=
  take (Z.to_nat (b - a)) (drop (Z.to_nat a) s).

(** [s.lstrip()], [s.rstrip()], [s.strip()] *)
Fixpoint lstrip (s : str) : str :=
  match s with
  | c :: s' => if is_space c then lstrip s' else s
  | [] => []
  end.

Definition rstrip (s : str) : str := rev (lstrip (rev s)).

Definition strip (s : str) : str := rstrip (lstrip s).

(** [str(n)] of an [int], as an f-string renders it. *)
Definition str_of_int (n : Z) : str := py (NilZero.string_of_int (Z.to_int n)).

(** [l[a:]] for any integer [a]: a negative index counts from the end and is
    clamped at the start of the list. *)
Definition slice_from {A} (a : Z) (l : list A) : list A :=
  drop (Z.to_nat (if a <? 0 then Z.max 0 (a + Z.of_nat (length l)) else a)) l.

(** [sep.join(parts)] *)
Fixpoint join (sep : str) (parts : list str) : str :=
  match parts with
  | [] => []
  | [p] => p
  | p :: parts' => p ++ sep ++ join sep parts'
  end.

(** [s.replace(" ", "_")] *)
Definition underscored (s : str) : str :=
  (fun c => if (c =? 32)%N then 95%N else c) <$> s.

(** [s.split(sep)[-1]] for a separator that is not empty: the text after the
    last of the occurrences of [sep] found from left to right without
    overlap; [skip] counts the characters of an occurrence still to pass. *)
Fixpoint last_piece (sep s : str) (skip : nat) (piece : str) : str :=
  match s with
  | [] => piece
  | c :: s' =>
    match skip with
    | S k => last_piece sep s' k piece
    | O =>
      if starts_with sep s then last_piece sep s' (length sep - 1) []
      else last_piece sep s' 0 (piece ++ [c])
    end
  end.

(** The double quote, which a string literal of this file cannot hold. *)
Definition QUOTE : N := 34%N.

Definition backtick : str := Eval vm_compute in py "`".

(* ===================================================================== *)
(** * Values decoded from JSON *)
(* ===================================================================== *)

#[local] Unset Elimination Schemes.
Inductive pyval :=
| PNone
| PBool (b : bool)
| PInt (z : Z)
| PFloat (f : PrimFloat.float)
| PStr (s : str)
| PList (l : list pyval)
| PDict (d : gmap str pyval).
#[local] Set Elimination Schemes.

Abbreviation Dict := (gmap str pyval).

(** [d.get(key, default)] *)
Definition dict_get (d : Dict) (key : str) (default : pyval) : pyval :=
  match d !! key with
  | Some v => v
  | None => default
  end.

(** Python truth value, as tested by [if v:]. *)
Definition truthy (v : pyval) : bool :=
  match v with
  | PNone => false
  | PBool b => b
  | PInt z => negb (z =? 0)
  | PFloat f => negb (PrimFloat.eqb f 0%float)
  | PStr s => negb (bool_decide (s = []))
  | PList l => negb (bool_decide (length l = 0%nat))
  | PDict d => negb (bool_decide (size d = 0%nat))
  end.

(** [v == s] for a string literal [s]: only an equal [str] compares equal. *)
Definition eq_str (v : pyval) (s : str) : bool :=
  match v with
  | PStr s' => str_eqb s' s
  | _ => false
  end.

(** A Python [dict] whose order matters: the entries in insertion order,
    with pairwise distinct keys. *)
Abbreviation odict V := (list (str * V)).


(** [d[key] = value]: an existing key keeps its place. *)
Fixpoint odict_set {V} (key : str) (value : V) (d : odict V) : odict V :=
  match d with
  | [] => [(key, value)]
  | (k, v) :: d' =>
    if str_eqb k key then (k, value) :: d' else (k, v) :: odict_set key value d'
  end.

(* ===================================================================== *)
(** * Exceptions *)
(* ===================================================================== *)

(** An exception object: an instance of one of three built-in classes, or of
    another class given by its name. *)
Inductive exn :=
| ValueError (msg : str)
| AttributeError (msg : str)
| TypeError (msg : str)
| PyException (kind msg : str).

(** [except json.JSONDecodeError] catches [e]: the class has no subclass in
    the library, and it is not the class of a plain [ValueError]. *)
Definition is_JSONDecodeError (e : exn) : bool :=
  match e with
  | PyException kind _ => str_eqb kind (py "JSONDecodeError")
  | _ => false
  end.

(* ===================================================================== *)
(** * llm_client.py: [_parse_json] *)
(* ===================================================================== *)

Module Regex.

Definition fence : str := Eval vm_compute in py "```".
Definition fence_json : str := Eval vm_compute in py "```json".

(** [\s*```] matches at the head of [s]. *)
Fixpoint closes (s : str) : bool :=
  match s with
  | [] => false
  | c :: s' => (is_space c && closes s') || starts_with fence s
  end.

(** [(.*?)\s*```] at the head of [s], with [re.DOTALL]: the lazy group takes
    the fewest characters after which the rest of the pattern matches. *)
Fixpoint lazy_group (s : str) : option str :=
  match s with
  | [] => None
  | c :: s' => if closes s then Some [] else option_map (cons c) (lazy_group s')
  end.

(** [\s*(.*?)\s*```] at the head of [s]: the greedy [\s*] first takes as
    much white space as it can and gives it back one character at a time
    while the rest of the pattern fails. *)
Fixpoint open_group (s : str) : option str :=
  match s with
  | [] => None
  | c :: s' =>
    if is_space c
    then match open_group s' with
         | Some g => Some g
         | None => lazy_group s
         end
    else lazy_group s
  end.

(** [re.search(opener + r'\s*(.*?)\s*```', s, re.DOTALL)], returning
    [group(1)] of the leftmost match. *)
Fixpoint search (opener : str) (s : str) : option str :=
  match (if starts_with opener s then open_group (drop (length opener) s) else None) with
  | Some g => Some g
  | None => match s with
            | [] => None
            | _ :: s' => search opener s'
            end
  end.

End Regex.

Section ParseJson.

(** [json.loads]: the decoded value, or the exception it raises. That is
    [json.JSONDecodeError] on text that is not JSON; on some texts it is
    another one ([RecursionError] on deeply nested text, [ValueError] on an
    integer literal with too many digits). *)
Variable json_loads : str -> exn + pyval.

Definition open_brace : str := Eval vm_compute in py "{".
Definition close_brace : str := Eval vm_compute in py "}".

Definition parse_failed_dict (text : str) : Dict :=
  {[ py "reply" := PStr text; py "error" := PStr (py "json_parse_failed") ]}.

(** One attempt,
    [try: return json.loads(text)] / [except json.JSONDecodeError: pass]:
    [inr (Some v)] when [v] is returned, [inr None] when the method goes on,
    [inl e] when [e] is not caught. *)
Definition try_loads (text : str) : exn + option pyval :=
  match json_loads text with
  | inr v => inr (Some v)
  | inl e => if is_JSONDecodeError e then inr None else inl e
  end.

(** The same attempt under [if match:], on [group(1)] of a search. *)
Definition try_loads_at (found : option str) : exn + option pyval :=
  match found with
  | Some text => try_loads text
  | None => inr None
  end.

(** [QwenClient._parse_json] *)
Definition _parse_json (text : str) : exn + pyval :=
  match try_loads text with
  | inl e => inl e
  | inr (Some v) => inr v
  | inr None =>
    let json_match := Regex.search Regex.fence_json text in
    match try_loads_at json_match with
    | inl e => inl e
    | inr (Some v) => inr v
    | inr None =>
      let code_match := Regex.search Regex.fence text in
      match try_loads_at code_match with
      | inl e => inl e
      | inr (Some v) => inr v
      | inr None =>
        let start := find open_brace text in
        let end_ := rfind close_brace text in
        match (if negb (start =? -1) && negb (end_ =? -1)
               then try_loads (slice text start (end_ + 1)) else inr None) with
        | inl e => inl e
        | inr (Some v) => inr v
        | inr None => inr (PDict (parse_failed_dict text))
        end
      end
    end
  end.

End ParseJson.

(* ===================================================================== *)
(** * models.py *)
(* ===================================================================== *)

Inductive SessionPhase :=
| WAITING_PROBLEM | WAITING_CODE | GUIDING | FOLLOWUP | TEACHING | COMPLETED.

Inductive UserIntent :=
| SUBMIT_CODE | ASK_FOR_HELP | ANSWER_QUESTION | ASK_QUESTION | SKIP_PROBLEM | OTHER.

#[global] Instance SessionPhase_eq_dec : EqDecision SessionPhase.
Proof. solve_decision. Defined.
#[global] Instance UserIntent_eq_dec : EqDecision UserIntent.
Proof. solve_decision. Defined.

(** The enum's values, in declaration order. *)
Definition UserIntent_values : list (str * UserIntent) :=
  [ (py "submit_code", SUBMIT_CODE); (py "ask_for_help", ASK_FOR_HELP);
    (py "answer_question", ANSWER_QUESTION); (py "ask_question", ASK_QUESTION);
    (py "skip_problem", SKIP_PROBLEM); (py "other", OTHER) ].

(** [UserIntent(v)]: the member whose value equals [v]; [None] stands for the
    [ValueError] of a value that names no member. *)
Definition UserIntent_of (v : pyval) : option UserIntent :=
  snd <$> List.find (fun m => eq_str v (fst m)) UserIntent_values.

(** [SessionPhase.value] *)
Definition SessionPhase_value (p : SessionPhase) : str :=
  match p with
  | WAITING_PROBLEM => py "waiting_problem"
  | WAITING_CODE => py "waiting_code"
  | GUIDING => py "guiding"
  | FOLLOWUP => py "followup"
  | TEACHING => py "teaching"
  | COMPLETED => py "completed"
  end.

Record Problem := {
  title : str;
  description : str;
  difficulty : str;
  expected_complexity : option str;
  test_cases : list Dict;
  solution_hints : list str
}.

Record Message := {
  role : str;
  content : pyval
}.

Record GuidanceState := {
  attempt_count : Z;
  max_attempts : Z;
  current_hint_level : Z;
  topics_covered : list str
}.

Record FollowUpState := {
  questions_asked : Z;
  total_questions : Z;
  questions_history : list pyval
}.

Record Session := {
  session_id : str;
  problem : option Problem;
  phase : SessionPhase;
  messages : list Message;
  user_code : option str;
  guidance_state : GuidanceState;
  followup_state : FollowUpState
}.

(** The methods of each dataclass are gathered in a module that bears its
    name; a method that mutates [self] returns the updated record. *)

Module GuidanceState_.

(** The dataclass defaults. *)
Definition new : GuidanceState :=
  {| attempt_count := 0; max_attempts := 5; current_hint_level := 1;
     topics_covered := [] |}.

(** Returns the updated record and the method's result. *)
Definition increment_attempt (self : GuidanceState) : GuidanceState * bool :=
  let attempt_count' := attempt_count self + 1 in
  let level' :=
    if 3 <=? attempt_count' then Z.min 3 (current_hint_level self + 1)
    else current_hint_level self in
  ({| attempt_count := attempt_count'; max_attempts := max_attempts self;
      current_hint_level := level'; topics_covered := topics_covered self |},
   attempt_count' <? max_attempts self).

Definition is_exhausted (self : GuidanceState) : bool :=
  max_attempts self <=? attempt_count self.

Definition reset (self : GuidanceState) : GuidanceState :=
  {| attempt_count := 0; max_attempts := max_attempts self;
     current_hint_level := 1; topics_covered := [] |}.

End GuidanceState_.

Module FollowUpState_.

Definition new : FollowUpState :=
  {| questions_asked := 0; total_questions := 3; questions_history := [] |}.

Definition add_question (question : pyval) (self : FollowUpState) : FollowUpState :=
  {| questions_asked := questions_asked self + 1;
     total_questions := total_questions self;
     questions_history := questions_history self ++ [question] |}.

Definition is_complete (self : FollowUpState) : bool :=
  total_questions self <=? questions_asked self.

Definition reset (self : FollowUpState) : FollowUpState :=
  {| questions_asked := 0; total_questions := total_questions self;
     questions_history := [] |}.

End FollowUpState_.

Module Problem_.

Definition to_dict (self : Problem) : Dict :=
  {[ py "title" := PStr (title self);
     py "description" := PStr (description self);
     py "difficulty" := PStr (difficulty self);
     py "expected_complexity" := match expected_complexity self with
                                 | Some c => PStr c
                                 | None => PNone
                                 end;
     py "test_cases" := PList (PDict <$> test_cases self) ]}.

End Problem_.

Module Message_.

Section Stamp.

(** [msg.timestamp.isoformat()]: the model of a message carries no time
    stamp, so its rendering is a parameter. *)
Variable isoformat : Message -> str.

Definition to_dict (self : Message) : Dict :=
  {[ py "role" := PStr (role self);
     py "content" := content self;
     py "timestamp" := PStr (isoformat self);
     py "metadata" := PDict ∅ ]}.

End Stamp.

End Message_.

Module Session_.

Definition set_phase (p : SessionPhase) (self : Session) : Session :=
  {| session_id := session_id self; problem := problem self; phase := p;
     messages := messages self; user_code := user_code self;
     guidance_state := guidance_state self; followup_state := followup_state self |}.

Definition set_problem (p : option Problem) (self : Session) : Session :=
  {| session_id := session_id self; problem := p; phase := phase self;
     messages := messages self; user_code := user_code self;
     guidance_state := guidance_state self; followup_state := followup_state self |}.

Definition set_messages (m : list Message) (self : Session) : Session :=
  {| session_id := session_id self; problem := problem self; phase := phase self;
     messages := m; user_code := user_code self;
     guidance_state := guidance_state self; followup_state := followup_state self |}.

Definition set_user_code (c : option str) (self : Session) : Session :=
  {| session_id := session_id self; problem := problem self; phase := phase self;
     messages := messages self; user_code := c;
     guidance_state := guidance_state self; followup_state := followup_state self |}.

Definition set_guidance_state (g : GuidanceState) (self : Session) : Session :=
  {| session_id := session_id self; problem := problem self; phase := phase self;
     messages := messages self; user_code := user_code self;
     guidance_state := g; followup_state := followup_state self |}.

Definition set_followup_state (f : FollowUpState) (self : Session) : Session :=
  {| session_id := session_id self; problem := problem self; phase := phase self;
     messages := messages self; user_code := user_code self;
     guidance_state := guidance_state self; followup_state := f |}.

(** [Session(session_id=...)] with the dataclass defaults. *)
Definition new (sid : str) : Session :=
  {| session_id := sid; problem := None; phase := WAITING_PROBLEM; messages := [];
     user_code := None; guidance_state := GuidanceState_.new;
     followup_state := FollowUpState_.new |}.

Definition add_message (role_ : str) (content_ : pyval) (self : Session) : Session :=
  set_messages (messages self ++ [ {| role := role_; content := content_ |} ]) self.

Definition transition_to (new_phase : SessionPhase) (self : Session) : Session :=
  set_phase new_phase self.

Definition start_guidance (self : Session) : Session :=
  transition_to GUIDING
    (set_guidance_state (GuidanceState_.reset (guidance_state self)) self).

Definition start_followup (self : Session) : Session :=
  transition_to FOLLOWUP
    (set_followup_state (FollowUpState_.reset (followup_state self)) self).

Definition start_teaching (self : Session) : Session := transition_to TEACHING self.

Definition complete (self : Session) : Session := transition_to COMPLETED self.

(** [self.guidance_state.increment_attempt()] and
    [self.followup_state.add_question(question)]: the tracker is an object
    owned by the session and is mutated in place. *)
Definition guidance_increment (self : Session) : Session :=
  set_guidance_state (fst (GuidanceState_.increment_attempt (guidance_state self))) self.

Definition followup_add (question : pyval) (self : Session) : Session :=
  set_followup_state (FollowUpState_.add_question question (followup_state self)) self.

Definition reset_for_new_problem (self : Session) : Session :=
  transition_to WAITING_PROBLEM
    (set_followup_state (FollowUpState_.reset (followup_state self))
      (set_guidance_state (GuidanceState_.reset (guidance_state self))
        (set_user_code None (set_problem None self)))).

Section Views.

Variable isoformat : Message -> str.

(** [get_conversation_history(last_n)]; [None] is the default argument. *)
Definition get_conversation_history (last_n : option Z) (self : Session) : list Dict :=
  let messages_ :=
    match last_n with
    | Some n => if n =? 0 then messages self else slice_from (- n) (messages self)
    | None => messages self
    end in
  Message_.to_dict isoformat <$> messages_.

Definition get_context_for_llm (self : Session) : Dict :=
  {[ py "problem" := match problem self with
                     | Some p => PDict (Problem_.to_dict p)
                     | None => PNone
                     end;
     py "phase" := PStr (SessionPhase_value (phase self));
     py "user_code" := match user_code self with
                       | Some c => PStr c
                       | None => PNone
                       end;
     py "guidance_attempts" := PInt (attempt_count (guidance_state self));
     py "guidance_remaining" :=
       PInt (max_attempts (guidance_state self) - attempt_count (guidance_state self));
     py "hint_level" := PInt (current_hint_level (guidance_state self));
     py "followup_progress" :=
       PStr (str_of_int (questions_asked (followup_state self)) ++ py "/"
             ++ str_of_int (total_questions (followup_state self)));
     py "conversation_history" :=
       PList (PDict <$> get_conversation_history (Some 10) self) ]}.

End Views.

End Session_.

(* ===================================================================== *)
(** * The collaborator interface *)
(* ===================================================================== *)

(** [BaseLLMClient]: the two abstract methods, over the client's own state [L].
    A call either returns or raises, and leaves the client in a new state.
    The engine never passes a [system_prompt]. [call_json] is annotated
    [-> Dict], but what the clients return is the value their answer decodes
    to, which may be a list, a string, a number or [None] as well. *)
Class BaseLLMClient (L : Type) := {
  call : str -> L -> (exn + str) * L;
  call_json : str -> L -> (exn + pyval) * L
}.

(** [PromptLibrary]: the prompt builders the engine calls. Their wording is
    not modelled; a builder reads the session and may raise (for instance on
    [session.problem.title] when no problem is set). *)
Record PromptLibrary := {
  get_intent_recognition_prompt : Session -> str -> exn + str;
  get_code_evaluation_prompt : Session -> str -> exn + str;
  get_guidance_prompt : Session -> str -> exn + str;
  get_followup_prompt : Session -> Z -> exn + str;
  get_followup_evaluation_prompt : Session -> pyval -> str -> Z -> exn + str;
  get_teaching_prompt : Session -> exn + str;
  get_help_request_prompt : Session -> str -> exn + str
}.

(* ===================================================================== *)
(** * The handler monad *)
(* ===================================================================== *)

(** What one turn works on: the session object, the collaborator, and a
    record of the calls made to the collaborator so far (oldest first): the
    prompt sent, and the exception if the call raised. *)
Record World (L : Type) := {
  w_session : Session;
  w_llm : L;
  w_calls : list (str * option exn)
}.
Arguments w_session {L}.
Arguments w_llm {L}.
Arguments w_calls {L}.

Definition M (L A : Type) : Type := World L -> (exn + A) * World L.

Definition ret {L A} (a : A) : M L A := fun w => (inr a, w).

Definition bind {L A B} (m : M L A) (k : A -> M L B) : M L B :=
  fun w => match m w with
           | (inl e, w') => (inl e, w')
           | (inr a, w') => k a w'
           end.

Declare Scope py_scope.
Delimit Scope py_scope with py.
Notation "x <- m ;; k" := (bind m (fun x => k))
  (at level 100, m at next level, right associativity) : py_scope.
Notation "m ;;; k" := (bind m (fun _ => k))
  (at level 100, right associativity) : py_scope.
#[local] Open Scope py_scope.

(** Read the session. *)
Definition get_session_ {L} : M L Session := fun w => (inr (w_session w), w).

(** Mutate the session in place. *)
Definition update {L} (f : Session -> Session) : M L unit :=
  fun w => (inr tt, {| w_session := f (w_session w); w_llm := w_llm w;
                       w_calls := w_calls w |}).

(** The outcome of a pure step that may raise. *)
Definition lift {L A} (r : exn + A) : M L A :=
  fun w => (r, w).

(** The exception of an outcome, if it is one. *)
Definition raised {A} (r : exn + A) : option exn :=
  match r with
  | inl e => Some e
  | inr _ => None
  end.

(** [self.llm.call(prompt)] *)
Definition llm_call {L} `{BaseLLMClient L} (prompt : str) : M L str :=
  fun w => let '(r, l') := call prompt (w_llm w) in
           (r, {| w_session := w_session w; w_llm := l';
                  w_calls := w_calls w ++ [(prompt, raised r)] |}).

(** [self.llm.call_json(prompt)] *)
Definition llm_call_json {L} `{BaseLLMClient L} (prompt : str) : M L pyval :=
  fun w => let '(r, l') := call_json prompt (w_llm w) in
           (r, {| w_session := w_session w; w_llm := l';
                  w_calls := w_calls w ++ [(prompt, raised r)] |}).

(* ===================================================================== *)
(** * Python operators on decoded values *)
(* ===================================================================== *)

(** [type(v).__name__] *)
Definition type_name (v : pyval) : str :=
  match v with
  | PNone => py "NoneType"
  | PBool _ => py "bool"
  | PInt _ => py "int"
  | PFloat _ => py "float"
  | PStr _ => py "str"
  | PList _ => py "list"
  | PDict _ => py "dict"
  end.

Definition is_dict (v : pyval) : bool :=
  match v with
  | PDict _ => true
  | _ => false
  end.

(** The message of the [AttributeError] for [v.get]. *)
Definition no_get (v : pyval) : str :=
  py "'" ++ type_name v ++ py "' object has no attribute 'get'".

(** [v.get(key, default)]: a method of [dict]; no other decoded value has
    it. *)
Definition py_get (v : pyval) (key : str) (default : pyval) : exn + pyval :=
  match v with
  | PDict d => inr (dict_get d key default)
  | _ => inl (AttributeError (no_get v))
  end.

(** [item in v] for a [str] item: substring test on a [str], element test on
    a list, key test on a dict; the other values are not containers. *)
Definition py_in (item : str) (v : pyval) : exn + bool :=
  match v with
  | PStr s => inr (contains item s)
  | PList l => inr (existsb (fun x => eq_str x item) l)
  | PDict d => inr (bool_decide (is_Some (d !! item)))
  | _ => inl (TypeError (py "argument is not iterable"))
  end.

(** [v += s] for a [str] [s]: concatenation on a [str], extension by the
    characters of [s] on a list. *)
Definition py_iadd (v : pyval) (s : str) : exn + pyval :=
  match v with
  | PStr s0 => inr (PStr (s0 ++ s))
  | PList l => inr (PList (l ++ List.map (fun c => PStr [c]) s))
  | _ => inl (TypeError (py "unsupported operand type(s) for +="))
  end.

(** [d[key]] *)
Definition dict_item (d : Dict) (key : str) : exn + pyval :=
  match d !! key with
  | Some v => inr v
  | None => inl (PyException (py "KeyError") key)
  end.

(** [len(v)] *)
Definition py_len (v : pyval) : exn + Z :=
  match v with
  | PStr s => inr (Z.of_nat (length s))
  | PList l => inr (Z.of_nat (length l))
  | PDict d => inr (Z.of_nat (size d))
  | _ => inl (TypeError (py "object has no len()"))
  end.

(** [v[:200] + "..."]: defined on a [str] only. A list cannot be joined to a
    [str]; a dict cannot be sliced (the slice is unhashable, a [TypeError], up
    to Python 3.11); the other values have no length and never get here. *)
Definition clipped (v : pyval) : exn + pyval :=
  match v with
  | PStr s => inr (PStr (take 200 s ++ py "..."))
  | PList _ => inl (TypeError (py "can only concatenate list to list"))
  | _ => inl (TypeError (py "object is not subscriptable"))
  end.

(* ===================================================================== *)
(** * coach_engine.py *)
(* ===================================================================== *)

Definition skip_keywords : list str :=
  List.map py ["跳过"; "换题"; "skip"; "next"; "下一题"]%string.

Definition help_keywords : list str :=
  List.map py ["帮助"; "提示"; "hint"; "help"; "不会"; "不知道"; "给我提示"; "怎么做"]%string.

Definition code_indicators : list str :=
  List.map py ["def "; "function"; "class "; "for "; "while "; "if "; "return"; "=>"; "```"]%string.

Definition closing_remark : str :=
  [NL; NL] ++ py "太棒了！你已经完成了这道题的所有挑战。做得很好！".

Definition completed_reply : str := py "这道题我们已经讨论完了。你想继续练习下一道题吗？".

Definition default_followup_question : str := py "你能解释一下你的算法的时间复杂度吗？".

Section CoachEngine.

Context {L : Type} `{BaseLLMClient L}.

(** [str.lower], the Unicode lower-casing of the Python runtime. *)
Variable lower : str -> str.

(** [str(v)] of the Python runtime, used on values that are not a [str]. *)
Variable builtin_str : pyval -> str.

Variable prompts : PromptLibrary.

(** A replacement field [{v}] of an f-string. *)
Definition format_value (v : pyval) : str :=
  match v with
  | PStr s => s
  | _ => builtin_str v
  end.

(** [session.problem.title] *)
Definition problem_title (session : Session) : exn + str :=
  match problem session with
  | Some p => inr (title p)
  | None => inl (AttributeError (py "'NoneType' object has no attribute 'title'"))
  end.

Definition _generate_opening (session : Session) : exn + str :=
  match problem session with
  | Some p =>
    inr (py "好的，让我们来看这道题：" ++ [NL; NL] ++ py "**" ++ title p ++ py "**"
         ++ [NL; NL] ++ description p ++ [NL; NL]
         ++ py "你可以先想一想，然后把你的代码或思路告诉我。如果需要提示，随时可以问我！")
  | None => inl (AttributeError (py "'NoneType' object has no attribute 'title'"))
  end.

Definition _recognize_intent (user_input : str) : M L (UserIntent * pyval) :=
  let input_lower := strip (lower user_input) in
  if existsb (fun kw => contains kw input_lower) skip_keywords
  then ret (SKIP_PROBLEM, PStr [])
  else if existsb (fun kw => contains kw input_lower) help_keywords
  then ret (ASK_FOR_HELP, PStr [])
  else if existsb (fun ind => contains ind user_input) code_indicators
  then ret (SUBMIT_CODE, PStr [])
  else
    session <- get_session_ ;;
    prompt <- lift (get_intent_recognition_prompt prompts session user_input) ;;
    response <- llm_call_json prompt ;;
    intent_str <- lift (py_get response (py "intent") (PStr (py "other"))) ;;
    reply <- lift (py_get response (py "reply") (PStr [])) ;;
    let intent := match UserIntent_of intent_str with
                  | Some i => i
                  | None => OTHER
                  end in
    ret (intent, reply).

Definition _generate_followup_question : M L pyval :=
  session <- get_session_ ;;
  let q_num := questions_asked (followup_state session) + 1 in
  prompt <- lift (get_followup_prompt prompts session q_num) ;;
  response <- llm_call_json prompt ;;
  question <- lift (py_get response (py "question") (PStr default_followup_question)) ;;
  update (Session_.followup_add question) ;;;
  ret question.

Definition _evaluate_and_respond (user_input : str) : M L pyval :=
  update (Session_.set_user_code (Some user_input)) ;;;
  session <- get_session_ ;;
  prompt <- lift (get_code_evaluation_prompt prompts session user_input) ;;
  response <- llm_call_json prompt ;;
  evaluation <- lift (py_get response (py "evaluation") (PStr (py "incorrect"))) ;;
  reply <- lift (py_get response (py "reply") (PStr [])) ;;
  if eq_str evaluation (py "correct") then
    update Session_.start_followup ;;;
    first_followup <- _generate_followup_question ;;
    ret (if truthy reply
         then PStr (format_value reply ++ [NL; NL] ++ format_value first_followup)
         else first_followup)
  else
    update Session_.start_guidance ;;;
    ret reply.

Definition _generate_teaching : M L str :=
  session <- get_session_ ;;
  prompt <- lift (get_teaching_prompt prompts session) ;;
  llm_call prompt.

Definition _generate_completion : str :=
  py "🎉 太棒了！你已经完成了这道题！" ++ [NL; NL] ++ py "**你的表现：**" ++ [NL]
  ++ py "- 代码正确" ++ [NL] ++ py "- 完成了所有追问" ++ [NL; NL]
  ++ py "继续保持！准备好下一道题了吗？".

Definition _handle_help_request (user_input : str) : M L pyval :=
  session <- get_session_ ;;
  prompt <- lift (get_help_request_prompt prompts session user_input) ;;
  response <- llm_call_json prompt ;;
  update Session_.guidance_increment ;;;
  lift (py_get response (py "reply")
          (PStr (py "让我们一步步来。首先，你对这道题的第一反应是什么？"))).

Definition _handle_skip : M L pyval :=
  update Session_.start_teaching ;;;
  teaching <- _generate_teaching ;;
  update Session_.complete ;;;
  ret (PStr (py "没问题，让我先给你讲解一下这道题：" ++ [NL; NL] ++ teaching ++ [NL; NL]
             ++ py "准备好下一道题了吗？")).

(** The prompt [_answer_post_teaching_question] builds in place. *)
Definition post_teaching_prompt (title_ user_input : str) : str :=
  py "用户刚刚学习了一道算法题，现在有后续问题：" ++ [NL; NL]
  ++ py "题目：" ++ title_ ++ [NL]
  ++ py "用户问题：" ++ user_input ++ [NL; NL]
  ++ py "请简洁地回答用户的问题。".

Definition _answer_post_teaching_question (user_input : str) : M L pyval :=
  session <- get_session_ ;;
  title_ <- lift (problem_title session) ;;
  let prompt := post_teaching_prompt title_ user_input in
  response <- llm_call prompt ;;
  ret (PStr response).

Definition _handle_waiting_problem (user_input : str) : M L pyval :=
  ret (PStr (py "请先选择一道题目开始练习。")).

Definition _handle_waiting_code (user_input : str) : M L pyval :=
  r <- _recognize_intent user_input ;;
  let '(intent, intent_reply) := r in
  match intent with
  | SUBMIT_CODE => _evaluate_and_respond user_input
  | ASK_FOR_HELP =>
    update Session_.start_guidance ;;;
    _handle_help_request user_input
  | SKIP_PROBLEM => _handle_skip
  | _ => ret intent_reply
  end.

Definition _handle_guiding (user_input : str) : M L pyval :=
  session <- get_session_ ;;
  if GuidanceState_.is_exhausted (guidance_state session) then
    update Session_.start_teaching ;;;
    teaching <- _generate_teaching ;;
    ret (PStr teaching)
  else
    r <- _recognize_intent user_input ;;
    let intent := fst r in
    if bool_decide (intent = SUBMIT_CODE) then _evaluate_and_respond user_input
    else if bool_decide (intent = SKIP_PROBLEM) then _handle_skip
    else
      session <- get_session_ ;;
      prompt <- lift (get_guidance_prompt prompts session user_input) ;;
      response <- llm_call_json prompt ;;
      reply <- lift (py_get response (py "reply") (PStr (py "让我们换个角度想想..."))) ;;
      on_track <- lift (py_get response (py "user_on_right_track") (PBool false)) ;;
      session <- get_session_ ;;
      let has_attempts := snd (GuidanceState_.increment_attempt (guidance_state session)) in
      update Session_.guidance_increment ;;;
      if truthy on_track then ret reply
      else if negb has_attempts then
        update Session_.start_teaching ;;;
        teaching <- _generate_teaching ;;
        ret (PStr teaching)
      else ret reply.

Definition _handle_followup (user_input : str) : M L pyval :=
  session <- get_session_ ;;
  let current_q_num := questions_asked (followup_state session) in
  if FollowUpState_.is_complete (followup_state session) then
    update Session_.complete ;;;
    ret (PStr _generate_completion)
  else
    let last_question := match last (questions_history (followup_state session)) with
                         | Some q => q
                         | None => PStr []
                         end in
    if current_q_num =? 0 then _generate_followup_question
    else
      prompt <- lift (get_followup_evaluation_prompt prompts session last_question
                        user_input current_q_num) ;;
      response <- llm_call_json prompt ;;
      reply <- lift (py_get response (py "reply") (PStr [])) ;;
      (if current_q_num <? total_questions (followup_state session) then
         next_q <- lift (py_get response (py "next_question") (PStr [])) ;;
         if truthy next_q
         then update (Session_.followup_add next_q)
         else ret tt
       else ret tt) ;;;
      session <- get_session_ ;;
      if FollowUpState_.is_complete (followup_state session) then
        update Session_.complete ;;;
        has1 <- lift (py_in (py "恭喜") reply) ;;
        if negb has1 then
          has2 <- lift (py_in (py "完成") reply) ;;
          if negb has2 then lift (py_iadd reply closing_remark)
          else ret reply
        else ret reply
      else ret reply.

Definition _handle_teaching (user_input : str) : M L pyval :=
  _answer_post_teaching_question user_input.

Definition _handle_completed (user_input : str) : M L pyval :=
  ret (PStr completed_reply).

(** The body of [process_input] once the session has been found. The phase
    is one of the six members of the enumeration, so the final [else] of the
    source (an apology and [reset_for_new_problem]) is never taken. *)
Definition process_turn (user_input : str) : M L pyval :=
  update (Session_.add_message (py "user") (PStr user_input)) ;;;
  session <- get_session_ ;;
  reply <- match phase session with
           | WAITING_PROBLEM => _handle_waiting_problem user_input
           | WAITING_CODE => _handle_waiting_code user_input
           | GUIDING => _handle_guiding user_input
           | FOLLOWUP => _handle_followup user_input
           | TEACHING => _handle_teaching user_input
           | COMPLETED => _handle_completed user_input
           end ;;
  update (Session_.add_message (py "assistant") reply) ;;;
  ret reply.

(** The engine object: its collaborator, the prompts sent so far, and the
    [sessions] dictionary. *)
Record CoachEngine := {
  llm : L;
  calls : list (str * option exn);
  sessions : gmap str Session
}.

Definition not_found (sid : str) : exn :=
  ValueError (py "Session " ++ sid ++ py " not found").

(** Run a handler on the session stored under [sid] and write the (possibly
    mutated) session object back, whether the handler returned or raised. *)
Definition on_session {A} (sid : str) (m : M L A) (self : CoachEngine)
  : (exn + A) * CoachEngine :=
  match sessions self !! sid with
  | None => (inl (not_found sid), self)
  | Some session =>
    let '(r, w) := m {| w_session := session; w_llm := llm self; w_calls := calls self |} in
    (r, {| llm := w_llm w; calls := w_calls w;
           sessions := <[ sid := w_session w ]> (sessions self) |})
  end.

(** [create_session(session_id)]; [fresh] stands for [str(uuid.uuid4())], used
    when no identifier is given (an empty one counts as none). *)
Definition create_session (sid fresh : str) (self : CoachEngine) : Session * CoachEngine :=
  let session := Session_.new (if bool_decide (sid = []) then fresh else sid) in
  (session, {| llm := llm self; calls := calls self;
               sessions := <[ session_id session := session ]> (sessions self) |}).

Definition get_session (sid : str) (self : CoachEngine) : option Session :=
  sessions self !! sid.

Definition set_problem (sid : str) (p : Problem) (self : CoachEngine)
  : (exn + str) * CoachEngine :=
  on_session sid
    (update (Session_.set_problem (Some p)) ;;;
     update (Session_.transition_to WAITING_CODE) ;;;
     session <- get_session_ ;;
     opening <- lift (_generate_opening session) ;;
     update (Session_.add_message (py "assistant") (PStr opening)) ;;;
     ret opening) self.

Definition process_input (sid user_input : str) (self : CoachEngine)
  : (exn + pyval) * CoachEngine :=
  on_session sid (process_turn user_input) self.

End CoachEngine.

(* ===================================================================== *)
(** * A scripted collaborator *)
(* ===================================================================== *)

(** A stand-in collaborator that plays back a script, one entry per call, as
    a test stub does: a text, a JSON object, another JSON value, or an
    exception. A text entry asked for JSON is wrapped as [{"reply": text}];
    an exhausted script, or a JSON entry asked for text, raises. *)
Inductive canned :=
| Text (s : str)
| Json (d : Dict)
| Decoded (v : pyval)
| Fails (e : exn).

Definition script_exhausted : exn := PyException (py "RuntimeError") (py "no scripted response").

#[global] Instance Stub_client : BaseLLMClient (list canned) := {
  call _ l :=
    match l with
    | Text s :: l' => (inr s, l')
    | Json _ :: l' => (inl script_exhausted, l')
    | Decoded _ :: l' => (inl script_exhausted, l')
    | Fails e :: l' => (inl e, l')
    | [] => (inl script_exhausted, [])
    end;
  call_json _ l :=
    match l with
    | Text s :: l' => (inr (PDict {[ py "reply" := PStr s ]}), l')
    | Json d :: l' => (inr (PDict d), l')
    | Decoded v :: l' => (inr v, l')
    | Fails e :: l' => (inl e, l')
    | [] => (inl script_exhausted, [])
    end
}.

(** Lower-casing of the ASCII letters only: it agrees with [str.lower] on
    every string whose other characters have no lower-case mapping. *)
Definition ascii_lower (s : str) : str :=
  List.map (fun c => if ((65 <=? c) && (c <=? 90))%N then (c + 32)%N else c) s.

(** Prompt builders for the examples: they only need a problem to be set. *)
Definition stub_prompt (tag : str) (session : Session) : exn + str :=
  match problem session with
  | Some p => inr (tag ++ title p)
  | None => inl (AttributeError (py "'NoneType' object has no attribute 'title'"))
  end.

Definition stub_prompts : PromptLibrary := {|
  get_intent_recognition_prompt s _ := stub_prompt (py "intent:") s;
  get_code_evaluation_prompt s _ := stub_prompt (py "evaluate:") s;
  get_guidance_prompt s _ := stub_prompt (py "guide:") s;
  get_followup_prompt s _ := stub_prompt (py "followup:") s;
  get_followup_evaluation_prompt s _ _ _ := stub_prompt (py "followup-eval:") s;
  get_teaching_prompt s := stub_prompt (py "teach:") s;
  get_help_request_prompt s _ := stub_prompt (py "help:") s
|}.

Definition TWO_SUM : Problem := {|
  title := py "两数之和 (Two Sum)";
  description := py "给定一个整数数组 nums 和一个目标值 target";
  difficulty := py "easy";
  expected_complexity := Some (py "O(n)");
  test_cases := [];
  solution_hints := []
|}.

(** A session on [TWO_SUM] in a given phase with given trackers. *)
Definition session_in (p : SessionPhase) (g : GuidanceState) (f : FollowUpState) : Session := {|
  session_id := py "s1"; problem := Some TWO_SUM; phase := p; messages := [];
  user_code := None; guidance_state := g; followup_state := f
|}.

Definition engine_with (script : list canned) (s : Session) : CoachEngine := {|
  llm := script; calls := []; sessions := {[ session_id s := s ]}
|}.

(** [process_input] with the example instances. *)
Definition stub_process_input := process_input ascii_lower (fun _ => []) stub_prompts.

(* ===================================================================== *)
(** * prompt_library.py: the system instruction and the conversation digest *)
(* ===================================================================== *)

(** [PromptLibrary._build_system_instruction]: the text every prompt of the
    library starts with. *)
Definition _build_system_instruction : str :=
  py "你是一位经验丰富的算法面试教练。你的角色是通过对话帮助用户提升算法能力。"
  ++ [NL; NL]
  ++ py "【核心原则】"
  ++ [NL]
  ++ py "1. 苏格拉底式教学：通过提问引导用户发现答案，而非直接告知"
  ++ [NL]
  ++ py "2. 自然对话：像朋友聊天一样交流，不要显得机械或程序化"
  ++ [NL]
  ++ py "3. 积极鼓励：认可用户的每一步进展，保持正面态度"
  ++ [NL]
  ++ py "4. 绝不给答案：永远不要直接给出完整代码或解决方案"
  ++ [NL; NL]
  ++ py "【对话风格】"
  ++ [NL]
  ++ py "- 友好、简洁、自然"
  ++ [NL]
  ++ py "- 每次只问一个问题"
  ++ [NL]
  ++ py "- 根据用户回答灵活调整方向"
  ++ [NL]
  ++ py "- 用户卡住时提供适当提示，但不能直接给答案".

Section PromptHelpers.

Variable builtin_str : pyval -> str.

(** The body of the loop of [_format_conversation]: the line of one message. *)
Definition conversation_line (msg : Dict) : exn + str :=
  match dict_item msg (py "role") with
  | inl e => inl e
  | inr r =>
    let role_ := if eq_str r (py "user") then py "用户" else py "教练" in
    match dict_item msg (py "content") with
    | inl e => inl e
    | inr c =>
      match py_len c with
      | inl e => inl e
      | inr n =>
        match (if 200 <? n then clipped c else inr c) with
        | inl e => inl e
        | inr content_ => inr (role_ ++ py ": " ++ format_value builtin_str content_)
        end
      end
    end
  end.

Fixpoint conversation_lines (messages_ : list Dict) : exn + list str :=
  match messages_ with
  | [] => inr []
  | msg :: rest =>
    match conversation_line msg with
    | inl e => inl e
    | inr line =>
      match conversation_lines rest with
      | inl e => inl e
      | inr lines => inr (line :: lines)
      end
    end
  end.

Definition _format_conversation (messages_ : list Dict) : exn + str :=
  match messages_ with
  | [] => inr (py "（无历史对话）")
  | _ =>
    match conversation_lines messages_ with
    | inl e => inl e
    | inr lines => inr (join [NL] lines)
    end
  end.

End PromptHelpers.

(* ===================================================================== *)
(** * problem_library.py *)
(* ===================================================================== *)

Module ProblemLibrary.

Section Lower.

(** [str.lower] *)
Variable lower : str -> str.

(** The [problems] dictionary of a library, keyed by normalised title. *)
Definition t := odict Problem.

Definition add_problem (problem_ : Problem) (self : t) : t :=
  let key := underscored (lower (title problem_)) in
  odict_set key problem_ self.


Definition get_problem_by_title (title_ : str) (self : t) : option Problem :=
  snd <$> List.find (fun kp => contains (lower title_) (lower (title (snd kp)))) self.

End Lower.

End ProblemLibrary.

(* ===================================================================== *)
(** * llm_client.py: the clients *)
(* ===================================================================== *)

Module OpenAIClient.

Section Loads.

Variable json_loads : str -> exn + pyval.

(** [OpenAIClient._parse_json]; [AnthropicClient._parse_json] has the same
    body. Unlike [QwenClient._parse_json] it does not look for a fenced block
    without the [json] tag. *)
Definition _parse_json (text : str) : exn + pyval :=
  match try_loads json_loads text with
  | inl e => inl e
  | inr (Some v) => inr v
  | inr None =>
    let json_match := Regex.search Regex.fence_json text in
    match try_loads_at json_loads json_match with
    | inl e => inl e
    | inr (Some v) => inr v
    | inr None =>
      let start := find open_brace text in
      let end_ := rfind close_brace text in
      match (if negb (start =? -1) && negb (end_ =? -1)
             then try_loads json_loads (slice text start (end_ + 1)) else inr None) with
      | inl e => inl e
      | inr (Some v) => inr v
      | inr None => inr (PDict (parse_failed_dict text))
      end
    end
  end.

End Loads.

End OpenAIClient.

Module QwenClient.

Definition json_reminder : str := [NL; NL] ++ py "请确保返回有效的JSON格式。".

(** The prompt [call_json] sends: [json_prompt] in the source. *)
Definition json_prompt (prompt : str) : str :=
  if negb (contains (py "JSON") prompt) && negb (contains (py "json") prompt)
  then prompt ++ json_reminder
  else prompt.

Section Transport.

Context {T : Type}.

(** [QwenClient.call]: one request over whichever transport the client was
    set up with; it returns the text of the answer or raises. *)
Variable call : str -> option str -> T -> (exn + str) * T.

Variable json_loads : str -> exn + pyval.

Definition call_json (prompt : str) (system_prompt : option str) (t : T)
  : (exn + pyval) * T :=
  let '(response, t') := call (json_prompt prompt) system_prompt t in
  (match response with
   | inl e => inl e
   | inr text => _parse_json json_loads text
   end, t').

End Transport.

End QwenClient.

Module MockLLMClient.

(** The entries of [_build_default_responses]. *)

Definition intent_recognition : pyval :=
  PDict {[ py "intent" := PStr (py "answer_question");
     py "reply" := PStr (py "我理解你的想法。让我们继续探讨一下...");
     py "reasoning" := PStr (py "用户在回答问题") ]}.

Definition code_evaluation_correct : pyval :=
  PDict {[ py "evaluation" := PStr (py "correct");
     py "reply" := PStr (py "代码看起来是正确的！让我问你一个深入的问题：这个算法的时间复杂度是多少？");
     py "issues" := PList [];
     py "test_result" := PStr (py "测试用例验证通过") ]}.

Definition code_evaluation_incorrect : pyval :=
  PDict {[ py "evaluation" := PStr (py "incorrect");
     py "reply" := PStr (py "我看了你的代码，有些地方值得再想想。如果输入是空数组，会发生什么？你能用第一个测试用例在脑中运行一下你的代码吗？");
     py "issues" := PList [PStr (py "边界条件处理"); PStr (py "逻辑可能有误")];
     py "test_result" := PStr (py "测试用例验证未通过") ]}.

Definition guidance : pyval :=
  PDict {[ py "user_on_right_track" := PBool false;
     py "user_current_understanding" := PStr (py "用户还在探索中");
     py "what_user_is_missing" := PStr (py "核心数据结构的选择");
     py "reply" := PStr (py "你的思路很有意思。让我问你一个问题：有没有什么数据结构可以帮助我们快速查找？");
     py "hint_used" := PStr (py "暗示数据结构方向") ]}.

Definition guidance_correct : pyval :=
  PDict {[ py "user_on_right_track" := PBool true;
     py "user_current_understanding" := PStr (py "用户理解了核心思路");
     py "what_user_is_missing" := PStr (py "需要将思路转化为代码");
     py "reply" := PStr (py "对！你抓住了关键点。那你能把这个思路转化为代码吗？");
     py "hint_used" := PStr (py "肯定正确方向") ]}.

Definition followup : pyval :=
  PDict {[ py "question" := PStr (py "如果输入数组非常大，有上百万个元素，你的解法还能高效工作吗？");
     py "expected_direction" := PStr (py "讨论空间复杂度和大数据处理");
     py "difficulty" := PStr (py "medium") ]}.

Definition followup_evaluation_good : pyval :=
  PDict {[ py "answer_quality" := PStr (py "good");
     py "correct_answer" := PStr (py "时间复杂度O(n)，空间复杂度O(n)");
     py "user_understanding" := PStr (py "用户正确理解了复杂度");
     py "reply" := PStr (py "很好的分析！确实是这样。那么，有没有办法优化空间复杂度呢？");
     py "next_question" := PStr (py "空间复杂度优化") ]}.

Definition followup_evaluation_incorrect : pyval :=
  PDict {[ py "answer_quality" := PStr (py "incorrect");
     py "correct_answer" := PStr (py "时间复杂度O(n)，空间复杂度O(n)");
     py "user_understanding" := PStr (py "用户对复杂度分析有误解");
     py "reply" := PStr (py "这个分析不太对哦。让我给你一个提示：哈希表的查找操作是什么复杂度？整个数组我们遍历了几次？");
     py "next_question" := PStr (py "重新思考时间复杂度") ]}.

Definition followup_evaluation_partial : pyval :=
  PDict {[ py "answer_quality" := PStr (py "partial");
     py "correct_answer" := PStr (py "时间复杂度O(n)，空间复杂度O(n)");
     py "user_understanding" := PStr (py "用户部分理解");
     py "reply" := PStr (py "你说对了一部分！时间复杂度确实是O(n)。那空间复杂度呢？我们用了什么额外空间？");
     py "next_question" := PStr (py "空间复杂度分析") ]}.

Definition teaching : pyval :=
  PStr (py "没关系，这道题确实有一定难度。让我来帮你梳理一下："
        ++ [NL; NL]
        ++ py "**解题思路：**"
        ++ [NL]
        ++ py "这道题的关键是使用哈希表来优化查找。对于每个数字，我们检查目标值减去当前数字是否已经在哈希表中。"
        ++ [NL; NL]
        ++ py "**参考代码：**"
        ++ [NL]
        ++ py "```python"
        ++ [NL]
        ++ py "def two_sum(nums, target):"
        ++ [NL]
        ++ py "    seen = {}"
        ++ [NL]
        ++ py "    for i, num in enumerate(nums):"
        ++ [NL]
        ++ py "        complement = target - num"
        ++ [NL]
        ++ py "        if complement in seen:"
        ++ [NL]
        ++ py "            return [seen[complement], i]"
        ++ [NL]
        ++ py "        seen[num] = i"
        ++ [NL]
        ++ py "    return []"
        ++ [NL]
        ++ py "```"
        ++ [NL; NL]
        ++ py "**关键点：**"
        ++ [NL]
        ++ py "1. 用空间换时间，O(n)复杂度"
        ++ [NL]
        ++ py "2. 边界条件：空数组、无解情况"
        ++ [NL]
        ++ py "3. 这个"
        ++ [QUOTE]
        ++ py "哈希表记录已见元素"
        ++ [QUOTE]
        ++ py "的技巧可以用于很多类似问题"
        ++ [NL; NL]
        ++ py "继续加油！这类题目多练几道就会有感觉了。").

Definition help_request : pyval :=
  PDict {[ py "reply" := PStr (py "没问题，让我给你一些提示。这道题的关键是思考：如何快速判断一个数是否存在？有什么数据结构可以帮助我们？");
     py "hint_type" := PStr (py "引导数据结构思考") ]}.

Definition _build_default_responses : Dict :=
  {[ py "intent_recognition" := intent_recognition;
     py "code_evaluation_correct" := code_evaluation_correct;
     py "code_evaluation_incorrect" := code_evaluation_incorrect;
     py "guidance" := guidance;
     py "guidance_correct" := guidance_correct;
     py "followup" := followup;
     py "followup_evaluation_good" := followup_evaluation_good;
     py "followup_evaluation_incorrect" := followup_evaluation_incorrect;
     py "followup_evaluation_partial" := followup_evaluation_partial;
     py "teaching" := teaching;
     py "help_request" := help_request ]}.

(** [self.default_responses[key]] for a key of the table. *)
Definition default_response (key : str) : pyval :=
  dict_get _build_default_responses key PNone.

(** The client: the custom responses in insertion order, and the calls
    recorded so far, each a prompt and a system prompt. *)
Record t := {
  responses : odict pyval;
  call_history : list (str * option str)
}.

(** [MockLLMClient(responses)] *)
Definition new (responses_ : odict pyval) : t :=
  {| responses := responses_; call_history := [] |}.

Section Runtime.

(** [str.lower] *)
Variable lower : str -> str.

(** The text after the last [marker] of the prompt, or the empty string when
    the prompt has no [marker]: [prompt.split(marker)[-1]] under the test
    [marker in prompt]. *)
Definition section_after (marker prompt : str) : str :=
  if contains marker prompt then last_piece marker prompt 0 [] else [].

Definition _get_mock_response (self : t) (prompt : str) : pyval :=
  let prompt_lower := lower prompt in
  match List.find (fun kr => contains (lower (fst kr)) prompt_lower) (responses self) with
  | Some (_, response) => response
  | None =>
    if contains (py "严格评估代码") prompt || contains (py "评估代码") prompt
       || contains (py "逻辑正确性") prompt
    then
      if (contains (py "seen") prompt || contains (py "hash") prompt_lower
          || contains (py "字典") prompt)
         && (contains (py "complement") prompt || contains (py "target - ") prompt
             || contains (py "target-") prompt)
      then default_response (py "code_evaluation_correct")
      else default_response (py "code_evaluation_incorrect")
    else if contains (py "严格评估回答") prompt
            || (contains (py "追问") prompt && contains (py "评估") prompt)
    then
      let user_answer_section := section_after (py "【用户回答】") prompt in
      if contains (py "o(n)") (lower user_answer_section)
         || contains (py "O(n)") user_answer_section
      then
        if contains (py "o(1)") (lower user_answer_section)
           || contains (py "O(1)") user_answer_section
        then default_response (py "followup_evaluation_partial")
        else default_response (py "followup_evaluation_good")
      else default_response (py "followup_evaluation_incorrect")
    else if contains (py "追问") prompt
            && (contains (py "/3") prompt || contains (py "个追问") prompt)
    then default_response (py "followup")
    else if contains (py "教学") prompt || contains (py "给出答案") prompt
            || contains (py "需要给出答案和教学") prompt
    then default_response (py "teaching")
    else if contains (py "引导状态") prompt || contains (py "严格评估并引导") prompt
    then
      let user_input_section := section_after (py "【用户最新输入】") prompt in
      if contains (py "哈希") user_input_section
         || contains (py "hash") (lower user_input_section)
         || contains (py "字典") user_input_section
         || contains (py "dict") (lower user_input_section)
      then default_response (py "guidance_correct")
      else default_response (py "guidance")
    else if contains (py "帮助") prompt || contains (py "help") prompt_lower
            || contains (py "请求帮助") prompt
    then default_response (py "help_request")
    else if contains (py "意图") prompt || contains (py "intent") prompt_lower
            || contains (py "理解用户意图") prompt
    then default_response (py "intent_recognition")
    else default_response (py "intent_recognition")
  end.

Definition set_response (key : str) (response : pyval) (self : t) : t :=
  {| responses := odict_set key response (responses self);
     call_history := call_history self |}.

Definition get_call_history (self : t) : list (str * option str) := call_history self.

Definition clear_history (self : t) : t :=
  {| responses := responses self; call_history := [] |}.

(** [json.dumps(d, ensure_ascii=False)] and [json.loads]. *)
Variable json_dumps : Dict -> str.
Variable json_loads : str -> exn + pyval.

(** [call]: the answer is a [str], unless a custom response is neither a
    [dict] nor a [str], in which case that value comes back as it is. *)
Definition call (prompt : str) (system_prompt : option str) (self : t) : pyval * t :=
  let self' := {| responses := responses self;
                  call_history := call_history self ++ [(prompt, system_prompt)] |} in
  let response := _get_mock_response self' prompt in
  (match response with
   | PDict d => PStr (json_dumps d)
   | _ => response
   end, self').

(** [call_json]: what [json.loads] rejects with [json.JSONDecodeError] is
    wrapped as [{"reply": response}], any other exception of [json.loads] is
    not caught; [json.loads] raises [TypeError] on what is not text. *)
Definition call_json (prompt : str) (system_prompt : option str) (self : t)
  : (exn + pyval) * t :=
  let '(response, self') := call prompt system_prompt self in
  (match response with
   | PStr text =>
     match try_loads json_loads text with
     | inl e => inl e
     | inr (Some v) => inr v
     | inr None => inr (PDict {[ py "reply" := response ]})
     end
   | _ => inl (TypeError (py "the JSON object must be str, bytes or bytearray"))
   end, self').

End Runtime.

End MockLLMClient.

(* ===================================================================== *)
(** * Notions used to state the properties *)
(* ===================================================================== *)

(** ** Keywords *)

(** A keyword whose first character is not white space. *)
Definition head_solid (kw : str) : bool :=
  match kw with
  | [] => true
  | c :: _ => negb (is_space c)
  end.

(** [mentions kws s]: some keyword of [kws] occurs in [s]. *)
Definition mentions (kws : list str) (s : str) : bool :=
  existsb (fun kw => contains kw s) kws.

(** ** Tracker invariants *)

Definition guidance_inv (g : GuidanceState) : Prop :=
  0 <= attempt_count g <= max_attempts g /\ max_attempts g = 5 /\
  1 <= current_hint_level g <= 3.

Definition followup_inv (f : FollowUpState) : Prop :=
  0 <= questions_asked f <= total_questions f /\ total_questions f = 3 /\
  questions_asked f = Z.of_nat (length (questions_history f)).

(** The session accepts a code submission or a skip: it waits for code, or it
    is being guided with attempts left. *)
Definition open_for_code (s : Session) : Prop :=
  phase s = WAITING_CODE \/
  (phase s = GUIDING /\ GuidanceState_.is_exhausted (guidance_state s) = false).

(** [handles u s s']: what a phase handler may do to the session [s] on the
    input [u], whatever the collaborator answers and whether or not the
    handler returns. *)
Inductive handles (u : str) (s : Session) : Session -> Prop :=
| H_none :
    handles u s s
| H_code_saved :
    open_for_code s ->
    handles u s (Session_.set_user_code (Some u) s)
| H_code_correct_pending :
    open_for_code s ->
    handles u s (Session_.start_followup (Session_.set_user_code (Some u) s))
| H_code_correct q :
    open_for_code s ->
    handles u s (Session_.followup_add q
                   (Session_.start_followup (Session_.set_user_code (Some u) s)))
| H_code_rejected :
    open_for_code s ->
    handles u s (Session_.start_guidance (Session_.set_user_code (Some u) s))
| H_help_pending :
    phase s = WAITING_CODE ->
    handles u s (Session_.start_guidance s)
| H_help :
    phase s = WAITING_CODE ->
    handles u s (Session_.guidance_increment (Session_.start_guidance s))
| H_skip_pending :
    open_for_code s ->
    handles u s (Session_.start_teaching s)
| H_skip :
    open_for_code s ->
    handles u s (Session_.complete (Session_.start_teaching s))
| H_exhausted :
    phase s = GUIDING ->
    GuidanceState_.is_exhausted (guidance_state s) = true ->
    handles u s (Session_.start_teaching s)
| H_guided :
    phase s = GUIDING ->
    GuidanceState_.is_exhausted (guidance_state s) = false ->
    handles u s (Session_.guidance_increment s)
| H_guided_out :
    phase s = GUIDING ->
    GuidanceState_.is_exhausted (guidance_state s) = false ->
    snd (GuidanceState_.increment_attempt (guidance_state s)) = false ->
    handles u s (Session_.start_teaching (Session_.guidance_increment s))
| H_followup_closed :
    phase s = FOLLOWUP ->
    FollowUpState_.is_complete (followup_state s) = true ->
    handles u s (Session_.complete s)
| H_followup_asked q :
    phase s = FOLLOWUP ->
    FollowUpState_.is_complete (followup_state s) = false ->
    handles u s (Session_.followup_add q s)
| H_followup_last q :
    phase s = FOLLOWUP ->
    FollowUpState_.is_complete (followup_state s) = false ->
    FollowUpState_.is_complete (followup_state (Session_.followup_add q s)) = true ->
    handles u s (Session_.complete (Session_.followup_add q s)).

(** The session a turn leaves behind: the handler's effect on the session
    that already holds the user's message, and the reply appended when the
    handler returned one. *)
Definition turn_result (u : str) (s : Session) (r : exn + pyval) (s' : Session) : Prop :=
  exists s2,
    handles u (Session_.add_message (py "user") (PStr u) s) s2 /\
    s' = match r with
         | inl _ => s2
         | inr reply => Session_.add_message (py "assistant") reply s2
         end.

(** What one turn does to the guidance tracker of a session. *)
Definition guidance_turn (s s' : Session) : Prop :=
  let g := guidance_state s in
  let g' := guidance_state s' in
  guidance_inv g' /\
  ((phase s' = GUIDING /\ attempt_count g' <= 1 /\ current_hint_level g' = 1) \/
   (attempt_count g' = attempt_count g /\ current_hint_level g' = current_hint_level g) \/
   (phase s = GUIDING /\ attempt_count g' = attempt_count g + 1 /\
    current_hint_level g <= current_hint_level g' <= current_hint_level g + 1 /\
    current_hint_level g' =
      if 3 <=? attempt_count g' then Z.min 3 (current_hint_level g + 1)
      else current_hint_level g)) /\
  (phase s <> GUIDING -> phase s' = GUIDING ->
   attempt_count g' <= 1 /\ current_hint_level g' = 1).

(** What one turn does to the follow-up tracker of a session. *)
Definition followup_turn (s s' : Session) : Prop :=
  let f := followup_state s in
  let f' := followup_state s' in
  followup_inv f' /\
  ((phase s' = FOLLOWUP /\
    (questions_history f' = [] \/ exists q, questions_history f' = [q])) \/
   f' = f \/
   (phase s = FOLLOWUP /\ exists q, f' = FollowUpState_.add_question q f)) /\
  (phase s <> FOLLOWUP -> phase s' = FOLLOWUP ->
   questions_history f' = [] \/ exists q, questions_history f' = [q]) /\
  (phase s = FOLLOWUP -> questions_asked f <= questions_asked f').

(** ** Failures of the collaborator *)

Definition call_ok (c : str * option exn) : Prop := snd c = None.

(** The calls [new] made during a computation and its outcome [r] agree:
    either every call returned, or the last call raised [e], every call
    before it returned and the outcome is that same [e]. *)
Definition outcome_ok {A} (r : exn + A) (new : list (str * option exn)) : Prop :=
  Forall call_ok new \/
  exists new0 p e, new = new0 ++ [(p, Some e)] /\ Forall call_ok new0 /\ r = inl e.

Section Notions.

Context {L : Type}.

(** No handler catches what the collaborator raises. *)
Definition propagates {A} (m : M L A) : Prop :=
  forall w, exists new,
    w_calls (snd (m w)) = w_calls w ++ new /\ outcome_ok (fst (m w)) new.

(** ** Postconditions of handlers *)

(** [post m w Q]: running [m] from [w] ends in an outcome and a world that
    satisfy [Q]. Handlers are total functions, so this is a statement about
    the one outcome there is. *)
Definition post {A} (m : M L A) (w : World L) (Q : exn + A -> World L -> Prop) : Prop :=
  Q (fst (m w)) (snd (m w)).

(** The world a turn on the stored session [s] starts from. *)
Definition world_of (eng : CoachEngine) (s : Session) : World L :=
  {| w_session := s; w_llm := llm eng; w_calls := calls eng |}.

(** Every stored session satisfies [P]. *)
Definition all_sessions (P : Session -> Prop) (eng : @CoachEngine L) : Prop :=
  forall sid s, sessions eng !! sid = Some s -> P s.

End Notions.

(** The text that follows the first occurrence of [opener] in [s]. *)
Fixpoint after (opener s : str) : option str :=
  if starts_with opener s then Some (drop (length opener) s)
  else match s with
       | [] => None
       | _ :: s' => after opener s'
       end.

(** The text that precedes the first occurrence of [sub] in [s]. *)
Fixpoint before (sub s : str) : option str :=
  if starts_with sub s then Some []
  else match s with
       | [] => None
       | c :: s' => cons c <$> before sub s'
       end.

(** The interior of the first fenced block opened by [opener]: what stands
    between the opener and the next fence, without the white space around
    it. *)
Definition fenced_interior (opener text : str) : option str :=
  rest ← after opener text; rstrip <$> before Regex.fence (lstrip rest).

(** The span from the first opening brace to the last closing brace. *)
Definition brace_span (text : str) : option str :=
  let start := find open_brace text in
  let end_ := rfind close_brace text in
  if (0 <=? start) && (0 <=? end_) then Some (slice text start (end_ + 1)) else None.

(** The four places where a payload is looked for, in order. *)
Definition candidates (text : str) : list (option str) :=
  [ Some text;
    fenced_interior Regex.fence_json text;
    fenced_interior Regex.fence text;
    brace_span text ].

Section Normalizer.

Variable json_loads : str -> exn + pyval.

(** The first candidate that exists and parses: candidates are tried in
    order; one that is missing or is rejected as not being JSON is passed
    over; any other exception of the parser ends the search. *)
Fixpoint first_success (cands : list (option str)) : exn + option pyval :=
  match cands with
  | [] => inr None
  | c :: cands' =>
    match try_loads_at json_loads c with
    | inl e => inl e
    | inr (Some v) => inr (Some v)
    | inr None => first_success cands'
    end
  end.

Definition normalize (text : str) : exn + pyval :=
  match first_success (candidates text) with
  | inl e => inl e
  | inr (Some v) => inr v
  | inr None => inr (PDict (parse_failed_dict text))
  end.

(** [json.loads] raises nothing but [json.JSONDecodeError]. *)
Definition only_decode_errors : Prop :=
  forall text e, json_loads text = inl e -> is_JSONDecodeError e = true.

End Normalizer.

(** ** Data of the worked instances *)

(** A follow-up tracker with two questions asked out of three. *)
Definition two_asked : FollowUpState :=
  {| questions_asked := 2; total_questions := 3;
     questions_history := [PStr (py "Q1"); PStr (py "Q2")] |}.

(** A follow-up evaluation with no [next_question], and one with it. *)
Definition good_answer : Dict :=
  {[ py "answer_quality" := PStr (py "good"); py "reply" := PStr (py "Good.") ]}.

Definition good_answer_next : Dict :=
  <[ py "next_question" := PStr (py "And the space?") ]> good_answer.

(** What a failing collaborator raises in the instances. *)
Definition timeout_error : exn := PyException (py "TimeoutError") (py "timed out").

(** A text of opening brackets nested deeper than [json.loads] goes. *)
Definition deep_text : str := repeat 91%N (N.to_nat 100000).

Definition recursion_error : exn :=
  PyException (py "RecursionError")
    (py "maximum recursion depth exceeded while decoding a JSON array from a unicode string").

Definition decode_error : exn :=
  PyException (py "JSONDecodeError") (py "Expecting value").

(** A stand-in for [json.loads] on the texts of the examples: it decodes the
    empty array and the empty object and raises [RecursionError] on
    [deep_text], as [json.loads] does, and rejects with
    [json.JSONDecodeError] the other texts used below, none of which is
    JSON. *)
Definition tiny_loads (text : str) : exn + pyval :=
  if str_eqb text (py "[]") then inr (PList [])
  else if str_eqb text (py "{}") then inr (PDict ∅)
  else if str_eqb text deep_text then inl recursion_error
  else inl decode_error.

(** An engine with no session yet. *)
Definition empty_engine (script : list canned) : @CoachEngine (list canned) :=
  {| llm := script; calls := []; sessions := ∅ |}.

(** Several turns in a row on the session [sid]: the replies, oldest first,
    and the engine they leave. *)
Fixpoint stub_turns (sid : str) (inputs : list str) (eng : @CoachEngine (list canned))
  : list (exn + pyval) * @CoachEngine (list canned) :=
  match inputs with
  | [] => ([], eng)
  | u :: inputs' =>
    let '(r, eng') := stub_process_input sid u eng in
    let '(rs, eng'') := stub_turns sid inputs' eng' in
    (r :: rs, eng'')
  end.

(** The text of a reply, empty when the turn raised or the reply is no text. *)
Definition reply_text (r : exn + pyval) : str :=
  match r with
  | inr (PStr s) => s
  | _ => []
  end.

(** ** The phases a turn may move between *)

(** [phase_step p p']: a turn that starts in phase [p] may end in [p']. *)
Definition phase_step (p p' : SessionPhase) : bool :=
  match p, p' with
  | WAITING_PROBLEM, WAITING_PROBLEM => true
  | WAITING_CODE, (WAITING_CODE | GUIDING | FOLLOWUP | TEACHING | COMPLETED) => true
  | GUIDING, (GUIDING | FOLLOWUP | TEACHING | COMPLETED) => true
  | FOLLOWUP, (FOLLOWUP | COMPLETED) => true
  | TEACHING, TEACHING => true
  | COMPLETED, COMPLETED => true
  | _, _ => false
  end.

(** The most collaborator calls a turn that starts in a phase makes. *)
Definition max_calls (p : SessionPhase) : nat :=
  match p with
  | WAITING_PROBLEM | COMPLETED => 0
  | FOLLOWUP | TEACHING => 1
  | WAITING_CODE | GUIDING => 3
  end.

(** ** Well-formed sessions *)

(** A session past [WAITING_PROBLEM] has a problem. *)
Definition problem_known (s : Session) : Prop :=
  phase s <> WAITING_PROBLEM -> is_Some (problem s).

(** A session in [FOLLOWUP] still has a question to ask, and holds the code
    that was judged correct. *)
Definition followup_open (s : Session) : Prop :=
  total_questions (followup_state s) = 3 /\
  (phase s = FOLLOWUP ->
   questions_asked (followup_state s) < total_questions (followup_state s) /\
   is_Some (user_code s)).

(** Every message of the transcript holds text. *)
Definition text_only (s : Session) : Prop :=
  Forall (fun m => exists t, content m = PStr t) (messages s).

Section Reachability.

Context {L : Type} `{BaseLLMClient L}.
Variable lower : str -> str.
Variable builtin_str : pyval -> str.
Variable prompts : PromptLibrary.

(** The engines that [CoachEngine(llm_client)] followed by any sequence of
    [create_session], [set_problem] and [process_input] calls can be in. *)
Inductive reachable : CoachEngine -> Prop :=
| R_init (client : L) :
    reachable {| llm := client; calls := []; sessions := ∅ |}
| R_create_session eng sid fresh :
    reachable eng -> reachable (snd (create_session sid fresh eng))
| R_set_problem eng sid p :
    reachable eng -> reachable (snd (set_problem sid p eng))
| R_process_input eng sid u :
    reachable eng -> reachable (snd (process_input lower builtin_str prompts sid u eng)).

End Reachability.

(** ** The guidance tracker over several attempts *)

(** The tracker after [n] calls of [increment_attempt]. *)
Fixpoint attempts_made (n : nat) (g : GuidanceState) : GuidanceState :=
  match n with
  | O => g
  | S n' => fst (GuidanceState_.increment_attempt (attempts_made n' g))
  end.

(** ** Failures of a turn *)



Section Failures.

Context {L : Type} `{BaseLLMClient L}.


End Failures.

(** A follow-up tracker with one question asked out of three. *)
Definition one_asked : FollowUpState :=
  {| questions_asked := 1; total_questions := 3;
     questions_history := [PStr (py "Why O(n)?")] |}.

(** ** Payloads and canned responses *)

(** The places where [OpenAIClient._parse_json] looks for a payload. *)
Definition candidates_tagged_only (text : str) : list (option str) :=
  [ Some text; fenced_interior Regex.fence_json text; brace_span text ].

(** The default responses of the mock client that a prompt which mentions
    teaching can get. *)
Definition teaching_or_earlier : list pyval :=
  MockLLMClient.default_response <$>
    [ py "code_evaluation_correct"; py "code_evaluation_incorrect";
      py "followup_evaluation_partial"; py "followup_evaluation_good";
      py "followup_evaluation_incorrect"; py "followup"; py "teaching" ].

(** The default responses that are looked up after the teaching one. *)
Definition after_teaching : list pyval :=
  MockLLMClient.default_response <$>
    [ py "guidance_correct"; py "guidance"; py "help_request"; py "intent_recognition" ].

(* ===================================================================== *)
(** * Properties *)
(* ===================================================================== *)

(** ** The model computes *)

Example ex_py : py "a跳过" = [97%N; 36339%N; 36807%N].
Proof. reflexivity. Qed.

Example ex_search1 :
  Regex.search Regex.fence_json (py "x ```json  {1}  ``` y") = Some (py "{1}").
Proof. vm_compute. reflexivity. Qed.

Example ex_find : find (py "{") (py "ab{c}{}") = 2 /\ rfind (py "}") (py "ab{c}{}") = 6
  /\ slice (py "ab{c}{}") 2 7 = py "{c}{}" /\ find (py "{") (py "abc") = -1.
Proof. vm_compute. repeat split. Qed.

Arguments py : simpl never.
Arguments dict_get : simpl never.
Arguments truthy : simpl never.
Arguments eq_str : simpl never.
Arguments UserIntent_of : simpl never.
Arguments strip : simpl never.
Arguments contains : simpl never.
Arguments py_in : simpl never.
Arguments py_iadd : simpl never.

(** ** Facts about Python strings *)

Lemma starts_with_iff (p s : str) :
  starts_with p s = true <-> exists post, s = p ++ post.
Proof.
  revert s. induction p as [|a p IH]; intros s; cbn.
  - split; [ intros _; exists s; reflexivity | reflexivity ].
  - destruct s as [|b s]; cbn.
    + split; [ discriminate | intros [post Hp]; discriminate Hp ].
    + rewrite andb_true_iff, N.eqb_eq, IH. split.
      * intros [-> [post ->]]. exists post. reflexivity.
      * intros [post [= -> ->]]. split; [ reflexivity | exists post; reflexivity ].
Qed.

Lemma contains_nil (sub : str) : contains sub [] = starts_with sub [] || false.
Proof. reflexivity. Qed.

Lemma contains_cons (sub : str) c (s : str) :
  contains sub (c :: s) = starts_with sub (c :: s) || contains sub s.
Proof. reflexivity. Qed.

Lemma contains_iff (sub s : str) :
  contains sub s = true <-> exists pre post, s = pre ++ sub ++ post.
Proof.
  induction s as [|c s IH]; rewrite ?contains_nil, ?contains_cons;
    rewrite orb_true_iff, starts_with_iff.
  - split.
    + intros [[post Hp] | Hf]; [ exists [], post; exact Hp | discriminate Hf ].
    + intros (pre & post & Hp). left. destruct pre; [ exists post; exact Hp | discriminate Hp ].
  - rewrite IH. split.
    + intros [[post Hp] | (pre & post & ->)].
      * exists [], post. exact Hp.
      * exists (c :: pre), post. reflexivity.
    + intros (pre & post & Hp). destruct pre as [|c' pre].
      * left. exists post. exact Hp.
      * right. injection Hp as -> ->. exists pre, post. reflexivity.
Qed.

Lemma contains_rev (sub s : str) : contains (rev sub) (rev s) = contains sub s.
Proof.
  apply eq_true_iff_eq. rewrite !contains_iff. split.
  - intros (pre & post & Hp). exists (rev post), (rev pre).
    apply (f_equal (@rev N)) in Hp.
    rewrite rev_involutive, !rev_app_distr, rev_involutive, <- app_assoc in Hp. exact Hp.
  - intros (pre & post & ->). exists (rev post), (rev pre).
    rewrite !rev_app_distr, <- app_assoc. reflexivity.
Qed.

Lemma contains_empty (s : str) : contains [] s = true.
Proof. destruct s; reflexivity. Qed.

Lemma contains_lstrip (kw s : str) :
  head_solid kw = true -> contains kw (lstrip s) = contains kw s.
Proof.
  intros Hk. destruct kw as [|k kw]; [ rewrite !contains_empty; reflexivity | ].
  induction s as [|c s IH]; [ reflexivity | ].
  cbn [lstrip]. destruct (is_space c) eqn:Hc; [ | reflexivity ].
  rewrite IH, contains_cons. cbn [starts_with].
  destruct (N.eqb_spec k c) as [->|_]; [ | reflexivity ].
  cbn in Hk. rewrite Hc in Hk. discriminate Hk.
Qed.

(** Stripping removes no occurrence of a keyword that neither starts nor ends
    with white space. *)
Lemma contains_strip (kw s : str) :
  head_solid kw = true -> head_solid (rev kw) = true ->
  contains kw (strip s) = contains kw s.
Proof.
  intros Hk Hrk. unfold strip, rstrip.
  rewrite <- (rev_involutive kw) at 1. rewrite contains_rev.
  rewrite (contains_lstrip _ _ Hrk).
  rewrite <- (contains_lstrip kw s Hk).
  rewrite <- (rev_involutive (lstrip s)) at 2. rewrite contains_rev.
  rewrite rev_involutive. reflexivity.
Qed.

Lemma existsb_contains_strip (kws : list str) (s : str) :
  forallb (fun kw => head_solid kw && head_solid (rev kw)) kws = true ->
  existsb (fun kw => contains kw (strip s)) kws = existsb (fun kw => contains kw s) kws.
Proof.
  induction kws as [|kw kws IH]; [ reflexivity | ].
  cbn [forallb existsb]. rewrite !andb_true_iff. intros [[Hk Hrk] Hall].
  rewrite (contains_strip _ _ Hk Hrk), (IH Hall). reflexivity.
Qed.

Lemma contains_drop (sub : str) n (s : str) :
  contains sub (drop n s) = true -> contains sub s = true.
Proof.
  rewrite !contains_iff. intros (pre & post & Hd).
  exists (take n s ++ pre), post. rewrite <- app_assoc, <- Hd, take_drop. reflexivity.
Qed.

Lemma lstrip_all_space (ws : str) : forallb is_space ws = true -> lstrip ws = [].
Proof.
  induction ws as [|c ws IH]; [ reflexivity | ].
  cbn. intros [-> Hws]%andb_true_iff. exact (IH Hws).
Qed.

Lemma rstrip_all_space (ws : str) : forallb is_space ws = true -> rstrip ws = [].
Proof.
  intros Hws. unfold rstrip. rewrite lstrip_all_space; [ reflexivity | ].
  rewrite forallb_forall in *. intros c Hc. apply Hws. apply in_rev. exact Hc.
Qed.

Lemma lstrip_app_solid (l : str) c :
  lstrip (l ++ [c]) =
    if forallb is_space l then (if is_space c then [] else [c]) else lstrip l ++ [c].
Proof.
  induction l as [|a l IH]; [ reflexivity | ].
  cbn. destruct (is_space a); [ exact IH | reflexivity ].
Qed.

Lemma forallb_rev (f : N -> bool) (l : str) : forallb f (rev l) = forallb f l.
Proof.
  apply eq_true_iff_eq. rewrite !forallb_forall. split; intros Hl x Hx; apply Hl.
  - apply in_rev in Hx. exact Hx.
  - apply in_rev. exact Hx.
Qed.

Lemma rstrip_cons c (t : str) :
  rstrip (c :: t) =
    if forallb is_space t then (if is_space c then [] else [c]) else c :: rstrip t.
Proof.
  unfold rstrip. cbn [rev]. rewrite lstrip_app_solid, forallb_rev.
  destruct (forallb is_space t); [ destruct (is_space c); reflexivity | ].
  rewrite rev_app_distr. reflexivity.
Qed.

Lemma find_none (sub s : str) : (find sub s =? -1) = negb (0 <=? find sub s).
Proof.
  induction s as [|c s IH]; cbn [find].
  - destruct (starts_with sub []); reflexivity.
  - destruct (starts_with sub (c :: s)); [ reflexivity | ].
    cbv zeta. destruct (find sub s <? 0) eqn:Hf; [ reflexivity | ].
    lia.
Qed.

Lemma rfind_none (sub s : str) : (rfind sub s =? -1) = negb (0 <=? rfind sub s).
Proof.
  induction s as [|c s IH]; cbn [rfind].
  - destruct (starts_with sub []); reflexivity.
  - cbv zeta. destruct (0 <=? rfind sub s) eqn:Hf; [ lia | ].
    destruct (starts_with sub (c :: s)); reflexivity.
Qed.

(** ** Intent recognition *)

Section Intent.

Context {L : Type} `{BaseLLMClient L}.
Variable lower : str -> str.
Variable prompts : PromptLibrary.

(** C3 (amended). The keyword tiers are tried in the order skip, help, code,
    each a substring test that decides the intent with no collaborator call
    (the world, and with it the record of calls, is left as it was). The skip
    and help tiers are case-insensitive: they look at the lower-cased input.
    The code tier is case-sensitive: it looks at the input as typed. *)
Theorem keyword_tiers (u : str) (w : World L) :
  (mentions skip_keywords (lower u) = true ->
   _recognize_intent lower prompts u w = (inr (SKIP_PROBLEM, PStr []), w)) /\
  (mentions skip_keywords (lower u) = false ->
   mentions help_keywords (lower u) = true ->
   _recognize_intent lower prompts u w = (inr (ASK_FOR_HELP, PStr []), w)) /\
  (mentions skip_keywords (lower u) = false ->
   mentions help_keywords (lower u) = false ->
   mentions code_indicators u = true ->
   _recognize_intent lower prompts u w = (inr (SUBMIT_CODE, PStr []), w)).
Proof.
  unfold mentions, _recognize_intent.
  rewrite (existsb_contains_strip skip_keywords) by (vm_compute; reflexivity).
  rewrite (existsb_contains_strip help_keywords) by (vm_compute; reflexivity).
  split; [ | split ].
  - intros ->. reflexivity.
  - intros -> ->. reflexivity.
  - intros -> -> ->. reflexivity.
Qed.

End Intent.

(** C3, as stated, fails for the code tier: the input below contains the
    code indicators "def " and "return" when case is ignored, and no skip or
    help keyword, yet the intent is left to the collaborator, which is
    called and here answers "other". *)
Lemma uppercase_code_is_not_recognised :
  mentions code_indicators (ascii_lower (py "DEF F(X): RETURN X")) = true /\
  mentions skip_keywords (ascii_lower (py "DEF F(X): RETURN X")) = false /\
  mentions help_keywords (ascii_lower (py "DEF F(X): RETURN X")) = false /\
  fst (_recognize_intent ascii_lower stub_prompts (py "DEF F(X): RETURN X")
         {| w_session := session_in WAITING_CODE GuidanceState_.new FollowUpState_.new;
            w_llm := [Json {[ py "intent" := PStr (py "other") ]}];
            w_calls := [] |})
    = inr (OTHER, PStr []) /\
  w_calls (snd (_recognize_intent ascii_lower stub_prompts (py "DEF F(X): RETURN X")
         {| w_session := session_in WAITING_CODE GuidanceState_.new FollowUpState_.new;
            w_llm := [Json {[ py "intent" := PStr (py "other") ]}];
            w_calls := [] |}))
    = [ (py "intent:两数之和 (Two Sum)", None) ].
Proof.
  split; [ | split; [ | split; [ | split ] ] ]; vm_compute; reflexivity.
Qed.

(** ** The response normalizer *)

Lemma space_not_fence c (t : str) :
  is_space c = true -> starts_with Regex.fence (c :: t) = false.
Proof.
  intros Hc. unfold Regex.fence. cbn [starts_with].
  destruct (N.eqb_spec 96 c) as [<-|_]; [ | reflexivity ].
  vm_compute in Hc. discriminate Hc.
Qed.

Lemma before_spaces_closes (t b : str) :
  before Regex.fence t = Some b -> forallb is_space b = true -> Regex.closes t = true.
Proof.
  revert b. induction t as [|c t IH]; intros b; [ discriminate | ].
  cbn [before Regex.closes].
  destruct (starts_with Regex.fence (c :: t)); [ intros; apply orb_true_r | ].
  destruct (before Regex.fence t) as [b'|]; [ | discriminate ].
  cbn. intros [= <-]. cbn. intros [Hc Hb]%andb_true_iff.
  rewrite Hc, (IH b' eq_refl Hb). reflexivity.
Qed.

Lemma closes_before (s : str) :
  Regex.closes s = true ->
  exists ws, before Regex.fence s = Some ws /\ forallb is_space ws = true.
Proof.
  induction s as [|c s IH]; [ discriminate | ].
  cbn [Regex.closes before].
  destruct (starts_with Regex.fence (c :: s)) eqn:Hf.
  - intros _. exists []. split; reflexivity.
  - rewrite orb_false_r. intros [Hc Hcl]%andb_true_iff.
    destruct (IH Hcl) as (ws & -> & Hws). exists (c :: ws). cbn.
    rewrite Hc, Hws. split; reflexivity.
Qed.

Lemma lazy_group_spec (s : str) :
  Regex.lazy_group s = rstrip <$> before Regex.fence s.
Proof.
  induction s as [|c s IH]; [ reflexivity | ].
  cbn [Regex.lazy_group]. destruct (Regex.closes (c :: s)) eqn:Hcl.
  - destruct (closes_before _ Hcl) as (ws & -> & Hws).
    cbn [fmap option_fmap option_map].
    rewrite (rstrip_all_space _ Hws). reflexivity.
  - assert (Hf : starts_with Regex.fence (c :: s) = false).
    { cbn [Regex.closes] in Hcl. apply orb_false_iff in Hcl. apply Hcl. }
    cbn [before]. rewrite Hf, IH.
    destruct (before Regex.fence s) as [b|] eqn:Hb; [ | reflexivity ].
    cbn [fmap option_fmap option_map]. rewrite rstrip_cons.
    destruct (forallb is_space b) eqn:Hall; [ | reflexivity ].
    rewrite (rstrip_all_space _ Hall).
    destruct (is_space c) eqn:Hc; [ | reflexivity ].
    exfalso. cbn [Regex.closes] in Hcl.
    rewrite Hc, (before_spaces_closes _ _ Hb Hall) in Hcl. discriminate Hcl.
Qed.

Lemma before_none_iff (sub s : str) :
  before sub s = None <-> contains sub s = false.
Proof.
  induction s as [|c s IH]; rewrite ?contains_nil, ?contains_cons; cbn [before].
  - destruct (starts_with sub []); split; intros; try reflexivity; discriminate.
  - destruct (starts_with sub (c :: s)); [ split; discriminate | ].
    cbn [orb]. rewrite <- IH.
    destruct (before sub s); split; intros; try reflexivity; discriminate.
Qed.

Lemma fence_head_solid : head_solid Regex.fence = true.
Proof. reflexivity. Qed.

Lemma open_group_none_iff (s : str) :
  Regex.lazy_group (lstrip s) = None <-> contains Regex.fence s = false.
Proof.
  rewrite lazy_group_spec, <- (contains_lstrip _ s fence_head_solid), <- before_none_iff.
  destruct (before Regex.fence (lstrip s)); split; intros; try reflexivity; discriminate.
Qed.

Lemma lazy_group_none_iff (s : str) :
  Regex.lazy_group s = None <-> contains Regex.fence s = false.
Proof.
  rewrite lazy_group_spec, <- before_none_iff.
  destruct (before Regex.fence s); split; intros; try reflexivity; discriminate.
Qed.

Lemma open_group_spec (s : str) :
  Regex.open_group s = Regex.lazy_group (lstrip s).
Proof.
  induction s as [|c s IH]; [ reflexivity | ].
  cbn [Regex.open_group lstrip]. destruct (is_space c) eqn:Hc; [ | reflexivity ].
  rewrite IH. destruct (Regex.lazy_group (lstrip s)) eqn:Hl; [ reflexivity | ].
  apply open_group_none_iff in Hl. apply lazy_group_none_iff.
  rewrite contains_cons, Hl, (space_not_fence _ _ Hc). reflexivity.
Qed.

Lemma open_group_is_interior (rest : str) :
  Regex.open_group rest = rstrip <$> before Regex.fence (lstrip rest).
Proof. rewrite open_group_spec. apply lazy_group_spec. Qed.

Lemma after_is_drop (opener s rest : str) :
  after opener s = Some rest -> exists k, rest = drop (k + length opener) s.
Proof.
  induction s as [|c s IH]; cbn [after].
  - destruct (starts_with opener []); [ | discriminate ].
    intros [= <-]. exists 0%nat. reflexivity.
  - destruct (starts_with opener (c :: s)).
    + intros [= <-]. exists 0%nat. reflexivity.
    + intros Ha. destruct (IH Ha) as [k ->]. exists (S k). reflexivity.
Qed.

(** The regular-expression search finds the interior of the first fenced
    block: the backtracking over [\s*] and over later occurrences of the
    opener never changes the outcome. *)
Lemma search_is_fenced_interior (opener s : str) :
  Regex.search opener s = fenced_interior opener s.
Proof.
  unfold fenced_interior.
  induction s as [|c s IH]; cbn [Regex.search after].
  - destruct (starts_with opener []); [ | reflexivity ].
    cbn [mbind option_bind]. rewrite <- open_group_is_interior.
    destruct (Regex.open_group (drop (length opener) [])); reflexivity.
  - destruct (starts_with opener (c :: s)); [ | exact IH ].
    cbn [mbind option_bind]. rewrite <- open_group_is_interior.
    destruct (Regex.open_group (drop (length opener) (c :: s))) eqn:Hg; [ reflexivity | ].
    rewrite IH. destruct (after opener s) as [rest|] eqn:Ha; [ | reflexivity ].
    cbn [mbind option_bind]. rewrite <- open_group_is_interior.
    rewrite open_group_spec in Hg |- *.
    apply open_group_none_iff in Hg. apply open_group_none_iff.
    destruct (after_is_drop _ _ _ Ha) as [k ->].
    destruct (contains Regex.fence (drop (k + length opener) s)) eqn:Hc; [ | reflexivity ].
    rewrite <- Hg. symmetry.
    apply (contains_drop _ (S k)). rewrite drop_drop.
    replace (length opener + S k)%nat with (S (k + length opener)) by lia.
    exact Hc.
Qed.

Section NormalizerFacts.

Variable json_loads : str -> exn + pyval.

Lemma parse_json_is_normalize (text : str) :
  _parse_json json_loads text = normalize json_loads text.
Proof.
  unfold _parse_json, normalize, candidates, first_success, brace_span.
  rewrite !search_is_fenced_interior.
  cbn [try_loads_at].
  destruct (try_loads json_loads text) as [e|[v|]]; try reflexivity.
  destruct (try_loads_at json_loads (fenced_interior Regex.fence_json text))
    as [e|[v|]]; try reflexivity.
  destruct (try_loads_at json_loads (fenced_interior Regex.fence text))
    as [e|[v|]]; try reflexivity.
  rewrite find_none, rfind_none, !negb_involutive.
  destruct ((0 <=? find open_brace text) && (0 <=? rfind close_brace text));
    cbn [try_loads_at]; [ | reflexivity ].
  destruct (try_loads json_loads (slice text (find open_brace text)
                                    (rfind close_brace text + 1))) as [e|[v|]];
    reflexivity.
Qed.

Lemma try_loads_decodes (text : str) :
  only_decode_errors json_loads -> exists r, try_loads json_loads text = inr r.
Proof.
  intros Honly. unfold try_loads.
  destruct (json_loads text) as [e|v] eqn:Hl; [ | eexists; reflexivity ].
  rewrite (Honly _ _ Hl). eexists. reflexivity.
Qed.

Lemma first_success_decodes (cands : list (option str)) :
  only_decode_errors json_loads -> exists r, first_success json_loads cands = inr r.
Proof.
  intros Honly. induction cands as [|[c|] cands IH]; cbn [first_success try_loads_at].
  - eexists. reflexivity.
  - destruct (try_loads_decodes c Honly) as [[v|] ->]; [ eexists; reflexivity | exact IH ].
  - exact IH.
Qed.

(** C4 (amended). [_parse_json] tries, in order, (a) the whole text, (b) the
    interior of the first fenced block opened by a fence tagged [json], (c)
    the interior of the first fenced block whatever follows its opening
    fence, (d) the span from the first opening brace to the last closing
    brace. It returns the first value decoded, as it is. When [json.loads]
    rejects every candidate there is as not being JSON, it returns exactly
    the mapping [{reply: text, error: "json_parse_failed"}]. It is not total:
    the first exception of [json.loads] that is no [JSONDecodeError] ends the
    search and is raised to the caller; for one raised on the whole text not
    even the other candidates are tried. It returns a value for every text
    on condition that [json.loads] raises nothing but [JSONDecodeError]. *)
Theorem parse_json_first_success (text : str) :
  _parse_json json_loads text = normalize json_loads text /\
  (first_success json_loads (candidates text) = inr None ->
   _parse_json json_loads text =
     inr (PDict {[ py "reply" := PStr text; py "error" := PStr (py "json_parse_failed") ]})) /\
  (forall v, first_success json_loads (candidates text) = inr (Some v) ->
   _parse_json json_loads text = inr v) /\
  (forall e, first_success json_loads (candidates text) = inl e ->
   _parse_json json_loads text = inl e) /\
  (forall e, json_loads text = inl e -> is_JSONDecodeError e = false ->
   _parse_json json_loads text = inl e) /\
  (only_decode_errors json_loads -> exists v, _parse_json json_loads text = inr v).
Proof.
  split; [ apply parse_json_is_normalize | ].
  rewrite parse_json_is_normalize. unfold normalize.
  split; [ intros ->; reflexivity | ].
  split; [ intros v ->; reflexivity | ].
  split; [ intros e ->; reflexivity | ].
  split.
  - intros e Hl He. unfold candidates. cbn [first_success try_loads_at].
    unfold try_loads. rewrite Hl, He. reflexivity.
  - intros Honly. destruct (first_success_decodes (candidates text) Honly) as [[v|] ->];
      eexists; reflexivity.
Qed.

(** What every parser that rejects the text [hello] and decodes [[]] as the
    empty list, as [json.loads] does, makes of these two texts. *)
Lemma parse_json_on_plain_text e :
  json_loads (py "hello") = inl e -> is_JSONDecodeError e = true ->
  _parse_json json_loads (py "hello") =
    inr (PDict {[ py "reply" := PStr (py "hello");
                  py "error" := PStr (py "json_parse_failed") ]}).
Proof.
  intros Hl He. rewrite parse_json_is_normalize. unfold normalize.
  change (candidates (py "hello")) with [Some (py "hello"); None; None; None].
  cbn [first_success try_loads_at]. unfold try_loads. rewrite Hl, He. reflexivity.
Qed.

Lemma parse_json_on_array :
  json_loads (py "[]") = inr (PList []) ->
  _parse_json json_loads (py "[]") = inr (PList []).
Proof. intros Hl. unfold _parse_json, try_loads. rewrite Hl. reflexivity. Qed.

End NormalizerFacts.

(** C4, as stated, fails on five counts.
    - A text that is not JSON comes back tagged ["json_parse_failed"], not
      ["parse_failed"].
    - A text that is a JSON array comes back as that array, which is no
      mapping.
    - On a text that makes [json.loads] raise [RecursionError] the method
      raises it: it is not total.
    - Step (b) looks at the first block tagged [json] only: when that one
      does not parse, a later block tagged [json] that holds a payload is
      not tried.
    - Step (c) looks at the first fence of the text only, with whatever
      follows it taken as part of the interior: with a block tagged [python]
      first, the untagged block after it that holds a payload is not
      tried.
    In the last two texts the payload [[]] has no braces around it, and the
    method falls back. *)
Lemma normalizer_deviations :
  (_parse_json tiny_loads (py "hello") =
     inr (PDict {[ py "reply" := PStr (py "hello");
                   py "error" := PStr (py "json_parse_failed") ]}) /\
   _parse_json tiny_loads (py "hello") <>
     inr (PDict {[ py "reply" := PStr (py "hello");
                   py "error" := PStr (py "parse_failed") ]})) /\
  _parse_json tiny_loads (py "[]") = inr (PList []) /\
  (tiny_loads deep_text = inl recursion_error /\
   _parse_json tiny_loads deep_text = inl recursion_error) /\
  (let text := py "```json x ``` then ```json [] ```" in
   fenced_interior Regex.fence_json text = Some (py "x") /\
   _parse_json tiny_loads text = inr (PDict (parse_failed_dict text))) /\
  (let text := py "```python x ``` then ``` [] ```" in
   fenced_interior Regex.fence text = Some (py "python x") /\
   _parse_json tiny_loads text = inr (PDict (parse_failed_dict text))).
Proof.
  split; [ split; [ vm_compute; reflexivity | ] | ].
  - intros Heq.
    apply (f_equal (fun r => match r with
                             | inr (PDict d) => d !! py "error"
                             | _ => None
                             end)) in Heq.
    vm_compute in Heq. discriminate Heq.
  - split; [ vm_compute; reflexivity | ].
    split; [ split; vm_compute; reflexivity | ].
    split; (cbv zeta; split; vm_compute; reflexivity).
Qed.

(** ** Reasoning about handlers *)

Section PostFacts.

Context {L : Type} `{BaseLLMClient L}.

Lemma on_session_lookup {A} sid (m : M L A) (eng : CoachEngine) (s : Session) :
  sessions eng !! sid = Some s ->
  on_session sid m eng =
    (fst (m {| w_session := s; w_llm := llm eng; w_calls := calls eng |}),
     {| llm := w_llm (snd (m {| w_session := s; w_llm := llm eng; w_calls := calls eng |}));
        calls := w_calls (snd (m {| w_session := s; w_llm := llm eng; w_calls := calls eng |}));
        sessions := <[ sid := w_session (snd (m {| w_session := s; w_llm := llm eng;
                                                   w_calls := calls eng |})) ]> (sessions eng) |}).
Proof.
  intros Hs. unfold on_session. rewrite Hs.
  destruct (m _) as [r w]. reflexivity.
Qed.

Lemma post_ret {A} (a : A) (w : World L) Q : Q (inr a) w -> post (ret a) w Q.
Proof. exact id. Qed.

Lemma post_bind {A B} (m : M L A) (k : A -> M L B) (w : World L) Q :
  post m w (fun r w' => match r with
                        | inl e => Q (inl e) w'
                        | inr a => post (k a) w' Q
                        end) ->
  post (bind m k) w Q.
Proof.
  unfold post, bind. destruct (m w) as [[e|a] w']; exact id.
Qed.

Lemma post_get (w : World L) (Q : exn + Session -> World L -> Prop) :
  Q (inr (w_session w)) w -> post get_session_ w Q.
Proof. exact id. Qed.

Lemma post_update f (w : World L) (Q : exn + unit -> World L -> Prop) :
  Q (inr tt) {| w_session := f (w_session w); w_llm := w_llm w; w_calls := w_calls w |} ->
  post (update f) w Q.
Proof. exact id. Qed.

Lemma post_lift {A} (r : exn + A) (w : World L) Q : Q r w -> post (lift r) w Q.
Proof. exact id. Qed.

Lemma post_llm_call (prompt : str) (w : World L) (Q : exn + str -> World L -> Prop) :
  (forall r l', call prompt (w_llm w) = (r, l') ->
     Q r {| w_session := w_session w; w_llm := l'; w_calls := w_calls w ++ [(prompt, raised r)] |}) ->
  post (llm_call prompt) w Q.
Proof.
  unfold post, llm_call. intros HQ.
  destruct (call prompt (w_llm w)) as [r l'] eqn:E. apply HQ. reflexivity.
Qed.

Lemma post_llm_call_json (prompt : str) (w : World L) (Q : exn + pyval -> World L -> Prop) :
  (forall r l', call_json prompt (w_llm w) = (r, l') ->
     Q r {| w_session := w_session w; w_llm := l'; w_calls := w_calls w ++ [(prompt, raised r)] |}) ->
  post (llm_call_json prompt) w Q.
Proof.
  unfold post, llm_call_json. intros HQ.
  destruct (call_json prompt (w_llm w)) as [r l'] eqn:E. apply HQ. reflexivity.
Qed.

Lemma post_get_dict (d : Dict) (key : str) (default : pyval) (w : World L) Q :
  Q (inr (dict_get d key default)) w -> post (lift (py_get (PDict d) key default)) w Q.
Proof. exact id. Qed.

Lemma post_py_get (v : pyval) (key : str) (default : pyval) (w : World L) Q :
  (forall d, v = PDict d -> Q (inr (dict_get d key default)) w) ->
  (is_dict v = false -> Q (inl (AttributeError (no_get v))) w) ->
  post (lift (py_get v key default)) w Q.
Proof.
  unfold post, lift. intros Hd Hn.
  destruct v; first [ exact (Hd _ eq_refl) | exact (Hn eq_refl) ].
Qed.

Lemma post_known {A} (m : M L A) (w : World L) r w1 (Q : exn + A -> World L -> Prop) :
  m w = (r, w1) -> Q r w1 -> post m w Q.
Proof. unfold post. intros ->. exact id. Qed.

Lemma post_eq {A} (m : M L A) (w : World L) r w1 :
  post m w (fun r' w' => r' = r /\ w' = w1) -> m w = (r, w1).
Proof. unfold post. destruct (m w). cbn. intros [-> ->]. reflexivity. Qed.

End PostFacts.

Ltac sess_simpl :=
  cbn [session_id problem phase messages user_code guidance_state followup_state
       attempt_count max_attempts current_hint_level topics_covered
       questions_asked total_questions questions_history
       Session_.set_phase Session_.set_problem Session_.set_messages Session_.set_user_code
       Session_.set_guidance_state Session_.set_followup_state Session_.add_message
       Session_.transition_to Session_.start_guidance Session_.start_followup
       Session_.start_teaching Session_.complete Session_.reset_for_new_problem
       Session_.guidance_increment Session_.followup_add
       GuidanceState_.increment_attempt GuidanceState_.is_exhausted GuidanceState_.reset
       FollowUpState_.add_question FollowUpState_.is_complete FollowUpState_.reset
       fst snd] in *.

(** One step of symbolic execution of a handler. *)
Ltac wp_red :=
  cbv beta iota zeta;
  cbn [w_session w_llm w_calls fst snd].

Ltac wp_call :=
  lazymatch goal with
  | |- post (_recognize_intent _ _ _) _ _ => unfold _recognize_intent
  | |- post (_generate_followup_question _) _ _ => unfold _generate_followup_question
  | |- post (_evaluate_and_respond _ _ _) _ _ => unfold _evaluate_and_respond
  | |- post (_generate_teaching _) _ _ => unfold _generate_teaching
  | |- post (_handle_help_request _ _) _ _ => unfold _handle_help_request
  | |- post (_handle_skip _) _ _ => unfold _handle_skip
  | |- post (_answer_post_teaching_question _) _ _ => unfold _answer_post_teaching_question
  | |- post (_handle_waiting_problem _) _ _ => unfold _handle_waiting_problem
  | |- post (_handle_waiting_code _ _ _ _) _ _ => unfold _handle_waiting_code
  | |- post (_handle_guiding _ _ _ _) _ _ => unfold _handle_guiding
  | |- post (_handle_followup _ _) _ _ => unfold _handle_followup
  | |- post (_handle_teaching _) _ _ => unfold _handle_teaching
  | |- post (_handle_completed _) _ _ => unfold _handle_completed
  | |- post (process_turn _ _ _ _) _ _ => unfold process_turn
  end.

Ltac wp_step :=
  lazymatch goal with
  | |- post (bind _ _) _ _ => apply post_bind
  | |- post (ret _) _ _ => apply post_ret
  | |- post get_session_ _ _ => apply post_get
  | |- post (update _) _ _ => apply post_update
  | |- post (lift (py_get (PDict _) _ _)) _ _ => apply post_get_dict
  | |- post (lift (py_get _ _ _)) _ _ => apply post_py_get; [ intros ? -> | intros ? ]
  | |- post (lift ?r) _ _ => apply post_lift; destruct r eqn:?
  | |- post (llm_call _) _ _ => apply post_llm_call; wp_red; intros [?|?] ? ?
  | |- post (llm_call_json _) _ _ => apply post_llm_call_json; wp_red; intros [?|?] ? ?
  | |- post (if ?b then _ else _) _ _ => destruct b eqn:?
  | |- post (match ?x with _ => _ end) _ _ => destruct x eqn:?
  | |- _ => wp_call
  end; wp_red.

Ltac wp := repeat wp_step.

(** Read a goal about the outcome [fst (m w)] and the world [snd (m w)] of a
    handler as a postcondition. *)
Ltac as_post :=
  match goal with
  | |- context [ fst (?m ?w) ] =>
    lazymatch type of w with
    | World _ =>
      pattern (fst (m w)), (snd (m w));
      lazymatch goal with
      | |- ?Q _ _ => change (post m w Q)
      end
    end
  | |- context [ snd (?m ?w) ] =>
    lazymatch type of w with
    | World _ =>
      pattern (fst (m w)), (snd (m w));
      lazymatch goal with
      | |- ?Q _ _ => change (post m w Q)
      end
    end
  end.

(** Use the equations at hand: two hypotheses about the same term are merged,
    and a branch they contradict is closed. *)
Ltac merge_hyps :=
  repeat match goal with
         | H1 : ?t = _, H2 : ?t = _ |- _ => rewrite H1 in H2
         end;
  simplify_eq.

Ltac prune := try solve [ exfalso; sess_simpl; merge_hyps; congruence ].

(** Symbolic execution along the branches the hypotheses allow. *)
Ltac wpx_step :=
  first [ match goal with
          | Hk : ?m ?w = (_, _) |- post ?m ?w _ => apply (post_known _ _ _ _ _ Hk); wp_red
          end
        | wp_step ];
  sess_simpl; merge_hyps; prune.

Ltac wpx := repeat wpx_step.

Ltac solve_open :=
  unfold open_for_code; first [ left; assumption | right; split; assumption ].

(** Pick the constructor of [handles] by the shape of the resulting session. *)
Ltac handles_tac :=
  lazymatch goal with
  | |- handles _ ?s ?s => apply H_none
  | |- handles _ ?s (Session_.set_user_code _ ?s) => apply H_code_saved; solve_open
  | |- handles _ ?s (Session_.start_followup (Session_.set_user_code _ ?s)) =>
    apply H_code_correct_pending; solve_open
  | |- handles _ ?s (Session_.followup_add _ (Session_.start_followup _)) =>
    apply H_code_correct; solve_open
  | |- handles _ ?s (Session_.start_guidance (Session_.set_user_code _ ?s)) =>
    apply H_code_rejected; solve_open
  | |- handles _ ?s (Session_.start_guidance ?s) => apply H_help_pending; assumption
  | |- handles _ ?s (Session_.guidance_increment (Session_.start_guidance ?s)) =>
    apply H_help; assumption
  | |- handles _ ?s (Session_.start_teaching ?s) =>
    first [ apply H_exhausted; assumption | apply H_skip_pending; solve_open ]
  | |- handles _ ?s (Session_.complete (Session_.start_teaching ?s)) =>
    apply H_skip; solve_open
  | |- handles _ ?s (Session_.guidance_increment ?s) => apply H_guided; assumption
  | |- handles _ ?s (Session_.start_teaching (Session_.guidance_increment ?s)) =>
    apply H_guided_out; [ assumption | assumption | apply negb_true_iff; assumption ]
  | |- handles _ ?s (Session_.complete (Session_.followup_add _ ?s)) =>
    apply H_followup_last; assumption
  | |- handles _ ?s (Session_.complete ?s) => apply H_followup_closed; assumption
  | |- handles _ ?s (Session_.followup_add _ ?s) => apply H_followup_asked; assumption
  end.

Ltac open_cases :=
  unfold open_for_code in *;
  repeat match goal with
         | H : _ \/ _ |- _ => destruct H
         | H : _ /\ _ |- _ => destruct H
         end.

(** ** The code refines the step relation *)

Section Refinement.

Context {L : Type} `{BaseLLMClient L}.
Variable lower : str -> str.
Variable builtin_str : pyval -> str.
Variable prompts : PromptLibrary.

Lemma process_turn_handles (u : str) (w : World L) :
  post (process_turn lower builtin_str prompts u) w
    (fun r w' => turn_result u (w_session w) r (w_session w')).
Proof.
  unfold turn_result.
  wp.
  all: refine (ex_intro _ _ (conj _ eq_refl)).
  all: handles_tac.
Qed.

End Refinement.

Section Turn.

Context {L : Type} `{BaseLLMClient L}.
Variable lower : str -> str.
Variable builtin_str : pyval -> str.
Variable prompts : PromptLibrary.

Abbreviation process_turn' := (process_turn lower builtin_str prompts).
Abbreviation process_input' := (process_input lower builtin_str prompts).

Lemma process_input_post sid u (eng : CoachEngine) s (Q : exn + pyval -> World L -> Prop) :
  sessions eng !! sid = Some s ->
  post (process_turn' u) (world_of eng s) Q ->
  exists w', Q (fst (process_input' sid u eng)) w' /\
    llm (snd (process_input' sid u eng)) = w_llm w' /\
    calls (snd (process_input' sid u eng)) = w_calls w' /\
    sessions (snd (process_input' sid u eng)) = <[ sid := w_session w' ]> (sessions eng).
Proof.
  intros Hs HQ. unfold process_input. rewrite (on_session_lookup _ _ _ _ Hs).
  eexists. split; [ exact HQ | ]. auto.
Qed.

Lemma process_input_turn sid u (eng : CoachEngine) s :
  sessions eng !! sid = Some s ->
  exists s',
    sessions (snd (process_input' sid u eng)) = <[ sid := s' ]> (sessions eng) /\
    turn_result u s (fst (process_input' sid u eng)) s'.
Proof.
  intros Hs.
  destruct (process_input_post sid u eng s _ Hs
              (process_turn_handles _ _ _ u (world_of eng s)))
    as (w' & Ht & _ & _ & Hsess).
  exists (w_session w'). split; assumption.
Qed.

Lemma process_input_unknown sid u (eng : @CoachEngine L) :
  sessions eng !! sid = None ->
  process_input' sid u eng = (inl (not_found sid), eng).
Proof. intros Hs. unfold process_input, on_session. rewrite Hs. reflexivity. Qed.

Lemma handles_messages u s s' : handles u s s' -> messages s' = messages s.
Proof. destruct 1; reflexivity. Qed.

Lemma handles_absorbing u s s' :
  handles u s s' -> phase s = TEACHING \/ phase s = COMPLETED -> s' = s.
Proof.
  destruct 1; intros Hp; try reflexivity; exfalso; unfold open_for_code in *;
    repeat match goal with
           | H : _ \/ _ |- _ => destruct H
           | H : _ /\ _ |- _ => destruct H
           end; congruence.
Qed.

(** ** Absorbing phases *)

(** C9. [TEACHING] and [COMPLETED] are absorbing: a turn on a session in one
    of these phases leaves the phase (and both trackers) as they were,
    whatever the input and whatever the collaborator does. In [COMPLETED] the
    reply is the fixed invitation to start a new topic and the collaborator is
    not called; in [TEACHING] the reply is the collaborator's answer to the
    post-teaching question. *)
Theorem absorbing_phases sid u (eng : CoachEngine) s :
  sessions eng !! sid = Some s ->
  phase s = TEACHING \/ phase s = COMPLETED ->
  exists s',
    sessions (snd (process_input' sid u eng)) !! sid = Some s' /\
    phase s' = phase s /\
    guidance_state s' = guidance_state s /\
    followup_state s' = followup_state s /\
    (phase s = COMPLETED ->
       fst (process_input' sid u eng) = inr (PStr completed_reply) /\
       calls (snd (process_input' sid u eng)) = calls eng) /\
    (phase s = TEACHING ->
       forall p, problem s = Some p ->
       fst (process_input' sid u eng) =
         match fst (call (post_teaching_prompt (title p) u) (llm eng)) with
         | inl e => inl e
         | inr answer => inr (PStr answer)
         end).
Proof.
  intros Hs Hp.
  destruct (process_input_post sid u eng s
              (fun r w' => (turn_result u s r (w_session w')) /\
                 (phase s = COMPLETED ->
                    r = inr (PStr completed_reply) /\ w_calls w' = calls eng) /\
                 (phase s = TEACHING -> forall p, problem s = Some p ->
                    r = match fst (call (post_teaching_prompt (title p) u) (llm eng)) with
                        | inl e => inl e
                        | inr answer => inr (PStr answer)
                        end)) Hs)
    as (w' & (Ht & Hc & Hte) & _ & Hcalls & Hsess).
  { split; [ exact (process_turn_handles _ _ _ u (world_of eng s)) | split ].
    - intros Hc. unfold world_of. as_post. wpx. auto.
    - intros Hte p Hprob. unfold world_of. as_post. wpx.
      all: unfold problem_title in *; sess_simpl;
        match goal with Hpt : match problem _ with _ => _ end = _ |- _ =>
          rewrite Hprob in Hpt end; simplify_eq.
      all: match goal with H : call _ _ = _ |- _ => rewrite H end; reflexivity. }
  destruct Ht as (s2 & Hh & Heq).
  apply handles_absorbing in Hh; [ | exact Hp ]. subst s2.
  exists (w_session w'). split; [ rewrite Hsess; apply lookup_insert_eq | ].
  rewrite Hcalls, Heq.
  split; [ | split; [ | split; [ | split ] ] ]; auto.
  all: destruct (fst (process_input' sid u eng)); reflexivity.
Qed.

(** ** Tracker invariants over the engine's operations *)

Lemma handles_guidance_turn u s s' :
  handles u s s' -> guidance_inv (guidance_state s) -> guidance_turn s s'.
Proof.
  unfold guidance_turn, guidance_inv.
  destruct 1; intros Hinv; open_cases; sess_simpl;
    unfold GuidanceState_.is_exhausted in *.
  all: repeat match goal with
              | |- context [ 3 <=? ?x ] => destruct (Z.leb_spec 3 x)
              end.
  all: split; [ lia | split; [ | intros; first [ congruence | lia ] ] ].
  all: first [ left; split; [ reflexivity | lia ]
             | right; left; lia
             | right; right; split; [ assumption | lia ] ].
Qed.

Lemma handles_followup_turn u s s' :
  handles u s s' -> followup_inv (followup_state s) -> followup_turn s s'.
Proof.
  unfold followup_turn, followup_inv.
  destruct 1; intros Hinv; open_cases; sess_simpl;
    unfold FollowUpState_.is_complete in *; sess_simpl.
  all: rewrite ?length_app, ?Nat2Z.inj_add; cbn [length].
  all: split; [ lia | split; [ | split; intros; first [ congruence | lia | eauto ] ] ].
  all: first [ right; left; reflexivity
             | left; split; [ reflexivity | eauto ]
             | right; right; split; [ assumption | eexists; reflexivity ] ].
Qed.

Lemma all_sessions_insert (P : Session -> Prop) (eng eng' : @CoachEngine L) sid s' :
  all_sessions P eng -> P s' ->
  sessions eng' = <[ sid := s' ]> (sessions eng) ->
  all_sessions P eng'.
Proof.
  intros Hall Hs' Heq sid0 s0. rewrite Heq.
  destruct (decide (sid0 = sid)) as [->|Hne].
  - rewrite lookup_insert_eq. intros [= <-]. exact Hs'.
  - rewrite lookup_insert_ne by congruence. apply Hall.
Qed.

Lemma set_problem_sessions sid p (eng : @CoachEngine L) :
  sessions (snd (set_problem sid p eng)) = sessions eng \/
  exists s s', sessions eng !! sid = Some s /\
    sessions (snd (set_problem sid p eng)) = <[ sid := s' ]> (sessions eng) /\
    phase s' = WAITING_CODE /\ problem s' = Some p /\
    guidance_state s' = guidance_state s /\ followup_state s' = followup_state s.
Proof.
  unfold set_problem.
  destruct (sessions eng !! sid) as [s|] eqn:Hs.
  - right. exists s. rewrite (on_session_lookup _ _ _ _ Hs). cbn [snd sessions].
    eexists. split; [ reflexivity | split; [ reflexivity | ] ].
    as_post. wp; sess_simpl; auto.
  - left. unfold on_session. rewrite Hs. reflexivity.
Qed.

Lemma trackers_inv_operations (I : GuidanceState -> FollowUpState -> Prop)
    (eng : @CoachEngine L) :
  let P := fun s => I (guidance_state s) (followup_state s) in
  I GuidanceState_.new FollowUpState_.new ->
  (forall u s s', handles u s s' -> P s -> P s') ->
  all_sessions P eng ->
  (forall sid fresh, all_sessions P (snd (create_session sid fresh eng))) /\
  (forall sid p, all_sessions P (snd (set_problem sid p eng))) /\
  (forall sid u, all_sessions P (snd (process_input' sid u eng))).
Proof.
  intros P Hnew Hstep Hall. split; [ | split ].
  - intros sid fresh. eapply all_sessions_insert; [ exact Hall | | reflexivity ].
    exact Hnew.
  - intros sid p. destruct (set_problem_sessions sid p eng)
      as [Heq | (s & s' & Hs & Heq & _ & _ & Hg & Hf)].
    + intros sid0 s0. rewrite Heq. apply Hall.
    + eapply all_sessions_insert; [ exact Hall | | exact Heq ].
      unfold P. rewrite Hg, Hf. exact (Hall _ _ Hs).
  - intros sid u. destruct (sessions eng !! sid) as [s|] eqn:Hs.
    + destruct (process_input_turn sid u eng s Hs) as (s' & Heq & s2 & Hh & Hs').
      eapply all_sessions_insert; [ exact Hall | | exact Heq ].
      apply Hstep in Hh; [ | exact (Hall _ _ Hs) ].
      subst s'. destruct (fst (process_input' sid u eng)); exact Hh.
    + rewrite (process_input_unknown _ _ _ Hs). exact Hall.
Qed.

Lemma recognize_intent_session (u : str) (w : World L) :
  w_session (snd (_recognize_intent lower prompts u w)) = w_session w.
Proof. as_post. wp; reflexivity. Qed.

(** A guided turn counts one attempt, whether or not the turn then returns. *)
Lemma guided_turn_counts (sid u : str) (eng : CoachEngine) (s : Session) (intent : UserIntent)
    (intent_reply : pyval) (w2 : World L) (p : str) (response : Dict) (l2 : L) :
  let s1 := Session_.add_message (py "user") (PStr u) s in
  sessions eng !! sid = Some s ->
  phase s = GUIDING ->
  GuidanceState_.is_exhausted (guidance_state s) = false ->
  _recognize_intent lower prompts u (world_of eng s1) = (inr (intent, intent_reply), w2) ->
  intent <> SUBMIT_CODE -> intent <> SKIP_PROBLEM ->
  get_guidance_prompt prompts s1 u = inr p ->
  call_json p (w_llm w2) = (inr (PDict response), l2) ->
  exists s', sessions (snd (process_input' sid u eng)) !! sid = Some s' /\
    guidance_state s' = fst (GuidanceState_.increment_attempt (guidance_state s)).
Proof.
  intros s1 Hs Hph Hex Hrec Hi1 Hi2 Hp Hcall.
  destruct (process_input_post sid u eng s
              (fun _ w' => guidance_state (w_session w')
                           = fst (GuidanceState_.increment_attempt (guidance_state s))) Hs)
    as (w' & Hg & _ & _ & Hsess).
  { pose proof (recognize_intent_session u (world_of eng s1)) as Hsame.
    rewrite Hrec in Hsame. cbn [snd] in Hsame.
    assert (Hd1 : bool_decide (intent = SUBMIT_CODE) = false)
      by (apply bool_decide_eq_false; exact Hi1).
    assert (Hd2 : bool_decide (intent = SKIP_PROBLEM) = false)
      by (apply bool_decide_eq_false; exact Hi2).
    subst s1. unfold world_of in *. cbn [w_session] in Hsame.
    rewrite <- Hsame in Hp.
    assert (Hex2 : GuidanceState_.is_exhausted (guidance_state (w_session w2)) = false)
      by (rewrite Hsame; exact Hex).
    assert (Hg2 : guidance_state (w_session w2) = guidance_state s)
      by (rewrite Hsame; reflexivity).
    wpx.
    all: rewrite ?Hg2; reflexivity. }
  exists (w_session w'). split; [ rewrite Hsess; apply lookup_insert_eq | exact Hg ].
Qed.

Lemma not_correct_tag (response : Dict) :
  response !! py "evaluation" <> Some (PStr (py "correct")) ->
  eq_str (dict_get response (py "evaluation") (PStr (py "incorrect"))) (py "correct") = false.
Proof.
  unfold dict_get. intros Hne.
  destruct (response !! py "evaluation") as [v|]; [ | vm_compute; reflexivity ].
  destruct v; try reflexivity. unfold eq_str, str_eqb.
  apply bool_decide_eq_false. congruence.
Qed.

Lemma correct_tag (response : Dict) :
  response !! py "evaluation" = Some (PStr (py "correct")) ->
  eq_str (dict_get response (py "evaluation") (PStr (py "incorrect"))) (py "correct") = true.
Proof.
  unfold dict_get. intros ->. unfold eq_str, str_eqb.
  apply bool_decide_eq_true. reflexivity.
Qed.

(** A code submission that is not accepted restarts the tracker. *)
Lemma rejected_submission_restarts (sid u : str) (eng : CoachEngine) (s : Session)
    (intent_reply : pyval) (w2 : World L) (p : str) (response : Dict) (l2 : L) :
  let s1 := Session_.add_message (py "user") (PStr u) s in
  sessions eng !! sid = Some s ->
  phase s = GUIDING ->
  GuidanceState_.is_exhausted (guidance_state s) = false ->
  _recognize_intent lower prompts u (world_of eng s1)
    = (inr (SUBMIT_CODE, intent_reply), w2) ->
  get_code_evaluation_prompt prompts (Session_.set_user_code (Some u) s1) u = inr p ->
  call_json p (w_llm w2) = (inr (PDict response), l2) ->
  eq_str (dict_get response (py "evaluation") (PStr (py "incorrect"))) (py "correct") = false ->
  exists s', sessions (snd (process_input' sid u eng)) !! sid = Some s' /\
    phase s' = GUIDING /\
    guidance_state s' = GuidanceState_.reset (guidance_state s).
Proof.
  intros s1 Hs Hph Hex Hrec Hp Hcall Htag.
  destruct (process_input_post sid u eng s
              (fun _ w' => phase (w_session w') = GUIDING /\
                           guidance_state (w_session w')
                           = GuidanceState_.reset (guidance_state s)) Hs)
    as (w' & Hg & _ & _ & Hsess).
  { pose proof (recognize_intent_session u (world_of eng s1)) as Hsame.
    rewrite Hrec in Hsame. cbn [snd] in Hsame.
    subst s1. unfold world_of in *. cbn [w_session] in Hsame.
    rewrite <- Hsame in Hp.
    assert (Hg2 : guidance_state (w_session w2) = guidance_state s)
      by (rewrite Hsame; reflexivity).
    wpx.
    all: rewrite ?Hg2; split; reflexivity. }
  exists (w_session w'). split; [ rewrite Hsess; apply lookup_insert_eq | exact Hg ].
Qed.

(** C5. The guidance tracker's invariant ([attempts <= maxAttempts = 5],
    [hintLevel] in [1..3]) holds for the sessions of the engine after every
    operation ([create_session], [set_problem], [process_input]) once it holds
    before; and on every turn the tracker of the session either restarts
    because guidance mode is entered (attempts at most 1, that is the reset
    and possibly the one help turn, level 1), or is left alone, or records one
    guided turn: attempts grow by one and the level grows by at most one, never
    decreases, and moves to the next tier (capped at 3) once attempts reach 3.
    A turn that enters [GUIDING] from another phase always restarts the
    tracker.

    The two changes are what the turns do, not only what they may do. A
    guided turn (in [GUIDING] with attempts left, the intent neither a code
    submission nor a skip, the guidance request answered with a mapping)
    leaves [attempts + 1] and the level [min(3, level + 1)] once that count
    is 3 or more, the level as it was below that. A submission in [GUIDING]
    that is not accepted re-enters guidance mode and leaves attempts 0 and
    level 1, whatever the tracker held. *)
Theorem guidance_tracker_invariant (eng : @CoachEngine L) :
  all_sessions (fun s => guidance_inv (guidance_state s)) eng ->
  (forall sid fresh,
     all_sessions (fun s => guidance_inv (guidance_state s))
       (snd (create_session sid fresh eng))) /\
  (forall sid p,
     all_sessions (fun s => guidance_inv (guidance_state s))
       (snd (set_problem sid p eng))) /\
  (forall sid u,
     all_sessions (fun s => guidance_inv (guidance_state s))
       (snd (process_input' sid u eng))) /\
  (forall sid u s, sessions eng !! sid = Some s ->
     exists s', sessions (snd (process_input' sid u eng)) !! sid = Some s' /\
                guidance_turn s s') /\
  (forall s, guidance_state (Session_.start_guidance s)
             = GuidanceState_.reset (guidance_state s) /\
             attempt_count (GuidanceState_.reset (guidance_state s)) = 0 /\
             current_hint_level (GuidanceState_.reset (guidance_state s)) = 1) /\
  (forall (sid u : str) (s : Session) (intent : UserIntent) (intent_reply : pyval)
          (w2 : World L) (p : str) (response : Dict) (l2 : L),
     let s1 := Session_.add_message (py "user") (PStr u) s in
     sessions eng !! sid = Some s ->
     phase s = GUIDING ->
     attempt_count (guidance_state s) < max_attempts (guidance_state s) ->
     _recognize_intent lower prompts u (world_of eng s1)
       = (inr (intent, intent_reply), w2) ->
     intent <> SUBMIT_CODE -> intent <> SKIP_PROBLEM ->
     get_guidance_prompt prompts s1 u = inr p ->
     call_json p (w_llm w2) = (inr (PDict response), l2) ->
     exists s', sessions (snd (process_input' sid u eng)) !! sid = Some s' /\
       attempt_count (guidance_state s') = attempt_count (guidance_state s) + 1 /\
       current_hint_level (guidance_state s') =
         (if 3 <=? attempt_count (guidance_state s) + 1
          then Z.min 3 (current_hint_level (guidance_state s) + 1)
          else current_hint_level (guidance_state s)) /\
       current_hint_level (guidance_state s) <= current_hint_level (guidance_state s') /\
       max_attempts (guidance_state s') = max_attempts (guidance_state s)) /\
  (forall (sid u : str) (s : Session) (intent_reply : pyval)
          (w2 : World L) (p : str) (response : Dict) (l2 : L),
     let s1 := Session_.add_message (py "user") (PStr u) s in
     sessions eng !! sid = Some s ->
     phase s = GUIDING ->
     attempt_count (guidance_state s) < max_attempts (guidance_state s) ->
     _recognize_intent lower prompts u (world_of eng s1)
       = (inr (SUBMIT_CODE, intent_reply), w2) ->
     get_code_evaluation_prompt prompts (Session_.set_user_code (Some u) s1) u = inr p ->
     call_json p (w_llm w2) = (inr (PDict response), l2) ->
     response !! py "evaluation" <> Some (PStr (py "correct")) ->
     exists s', sessions (snd (process_input' sid u eng)) !! sid = Some s' /\
       phase s' = GUIDING /\
       attempt_count (guidance_state s') = 0 /\
       current_hint_level (guidance_state s') = 1).
Proof.
  intros Hall.
  destruct (trackers_inv_operations (fun g _ => guidance_inv g) eng) as (Hc & Hp & Hi).
  - unfold guidance_inv. cbn. lia.
  - intros u s s' Hh Hinv. exact (proj1 (handles_guidance_turn u s s' Hh Hinv)).
  - exact Hall.
  - split; [ exact Hc | split; [ exact Hp | split; [ exact Hi | ] ] ].
    split; [ | split; [ intros s; repeat split | split ] ].
    + intros sid u s Hs.
      destruct (process_input_turn sid u eng s Hs) as (s' & Heq & s2 & Hh & Hs').
      exists s'. split; [ rewrite Heq; apply lookup_insert_eq | ].
      apply handles_guidance_turn in Hh; [ | exact (Hall _ _ Hs) ].
      subst s'. destruct (fst (process_input' sid u eng)); exact Hh.
    + intros sid u s intent intent_reply w2 p response l2 s1 Hs Hph Hleft Hrec Hi1 Hi2
             Hprompt Hcall.
      assert (Hex : GuidanceState_.is_exhausted (guidance_state s) = false)
        by (unfold GuidanceState_.is_exhausted; lia).
      destruct (guided_turn_counts sid u eng s intent intent_reply w2 p response l2
                  Hs Hph Hex Hrec Hi1 Hi2 Hprompt Hcall) as (s' & Hs' & Hg).
      exists s'. split; [ exact Hs' | ]. rewrite Hg.
      pose proof (Hall _ _ Hs) as (_ & _ & Hlevel).
      unfold GuidanceState_.increment_attempt.
      cbn [fst attempt_count current_hint_level max_attempts].
      split; [ reflexivity | split; [ reflexivity | split; [ | reflexivity ] ] ].
      destruct (3 <=? attempt_count (guidance_state s) + 1); lia.
    + intros sid u s intent_reply w2 p response l2 s1 Hs Hph Hleft Hrec Hprompt Hcall Htag.
      assert (Hex : GuidanceState_.is_exhausted (guidance_state s) = false)
        by (unfold GuidanceState_.is_exhausted; lia).
      apply not_correct_tag in Htag.
      destruct (rejected_submission_restarts sid u eng s intent_reply w2 p response l2
                  Hs Hph Hex Hrec Hprompt Hcall Htag) as (s' & Hs' & Hphase & Hg).
      exists s'. split; [ exact Hs' | split; [ exact Hphase | ] ].
      rewrite Hg. split; reflexivity.
Qed.

(** C6. The follow-up tracker's invariant ([asked <= total = 3] and
    [asked = len(history)]) holds for the sessions of the engine after every
    operation once it holds before; and on every turn the tracker of the
    session either restarts because [FOLLOWUP] is entered (empty, or holding
    the one question generated on entry), or is left alone, or gains one
    question at the end of its history. A turn that starts in [FOLLOWUP] never
    lowers [asked]; a turn that enters [FOLLOWUP] from another phase always
    restarts the tracker. *)
Theorem followup_tracker_invariant (eng : @CoachEngine L) :
  all_sessions (fun s => followup_inv (followup_state s)) eng ->
  (forall sid fresh,
     all_sessions (fun s => followup_inv (followup_state s))
       (snd (create_session sid fresh eng))) /\
  (forall sid p,
     all_sessions (fun s => followup_inv (followup_state s))
       (snd (set_problem sid p eng))) /\
  (forall sid u,
     all_sessions (fun s => followup_inv (followup_state s))
       (snd (process_input' sid u eng))) /\
  (forall sid u s, sessions eng !! sid = Some s ->
     exists s', sessions (snd (process_input' sid u eng)) !! sid = Some s' /\
                followup_turn s s') /\
  (forall s, followup_state (Session_.start_followup s)
             = FollowUpState_.reset (followup_state s) /\
             questions_asked (FollowUpState_.reset (followup_state s)) = 0 /\
             questions_history (FollowUpState_.reset (followup_state s)) = []).
Proof.
  intros Hall.
  destruct (trackers_inv_operations (fun _ f => followup_inv f) eng) as (Hc & Hp & Hi).
  - unfold followup_inv. cbn. lia.
  - intros u s s' Hh Hinv. exact (proj1 (handles_followup_turn u s s' Hh Hinv)).
  - exact Hall.
  - split; [ exact Hc | split; [ exact Hp | split; [ exact Hi | split ] ] ];
      [ | intros s; repeat split ].
    intros sid u s Hs.
    destruct (process_input_turn sid u eng s Hs) as (s' & Heq & s2 & Hh & Hs').
    exists s'. split; [ rewrite Heq; apply lookup_insert_eq | ].
    apply handles_followup_turn in Hh; [ | exact (Hall _ _ Hs) ].
    subst s'. destruct (fst (process_input' sid u eng)); exact Hh.
Qed.

(** ** Failures of the collaborator *)

Lemma propagates_pure {A} (m : M L A) :
  (forall w, w_calls (snd (m w)) = w_calls w) -> propagates m.
Proof.
  intros Hm w. exists []. rewrite Hm, app_nil_r. split; [ reflexivity | ].
  left. constructor.
Qed.

Lemma propagates_ret {A} (a : A) : propagates (ret (L := L) a).
Proof. apply propagates_pure. reflexivity. Qed.

Lemma propagates_lift {A} (r : exn + A) : propagates (lift (L := L) r).
Proof. apply propagates_pure. reflexivity. Qed.

Lemma propagates_get : propagates (get_session_ (L := L)).
Proof. apply propagates_pure. reflexivity. Qed.

Lemma propagates_update f : propagates (update (L := L) f).
Proof. apply propagates_pure. reflexivity. Qed.

Lemma outcome_ok_call {A} (r : exn + A) p : outcome_ok r [(p, raised r)].
Proof.
  destruct r as [e|a]; cbn.
  - right. exists [], p, e. repeat split. constructor.
  - left. repeat constructor.
Qed.

Lemma propagates_llm_call (p : str) : propagates (llm_call (L := L) p).
Proof.
  intros w. unfold llm_call. destruct (call p (w_llm w)) as [r l'].
  eexists. split; [ reflexivity | ]. apply outcome_ok_call.
Qed.

Lemma propagates_llm_call_json (p : str) : propagates (llm_call_json (L := L) p).
Proof.
  intros w. unfold llm_call_json. destruct (call_json p (w_llm w)) as [r l'].
  eexists. split; [ reflexivity | ]. apply outcome_ok_call.
Qed.

Lemma propagates_bind {A B} (m : M L A) (k : A -> M L B) :
  propagates m -> (forall a, propagates (k a)) -> propagates (bind m k).
Proof.
  intros Hm Hk w. unfold bind.
  destruct (Hm w) as (new1 & Hc1 & Ho1).
  destruct (m w) as [[e|a] w1]; cbn [fst snd] in *.
  - exists new1. split; [ exact Hc1 | ].
    destruct Ho1 as [Hall | (new0 & p & e' & -> & Hall & [= ->])].
    + left. exact Hall.
    + right. exists new0, p, e'. auto.
  - destruct (Hk a w1) as (new2 & Hc2 & Ho2).
    exists (new1 ++ new2). split; [ rewrite Hc2, Hc1, app_assoc; reflexivity | ].
    destruct Ho1 as [Hall1 | (new0 & p & e' & _ & _ & [=])].
    destruct Ho2 as [Hall2 | (new0 & p & e' & -> & Hall2 & ->)].
    + left. apply Forall_app. split; assumption.
    + right. exists (new1 ++ new0), p, e'. rewrite app_assoc.
      repeat split. apply Forall_app. split; assumption.
Qed.

Lemma outcome_ok_failure {A} (r : exn + A) new p e :
  outcome_ok r new -> In (p, Some e) new -> r = inl e.
Proof.
  intros [Hall | (new0 & p' & e' & -> & Hall & ->)] Hin.
  - rewrite List.Forall_forall in Hall. apply Hall in Hin. discriminate Hin.
  - apply in_app_or in Hin as [Hin | [[= _ ->] | []]]; [ | reflexivity ].
    rewrite List.Forall_forall in Hall. apply Hall in Hin. discriminate Hin.
Qed.

End Turn.

Ltac head_of t :=
  lazymatch t with
  | ?f _ => head_of f
  | _ => t
  end.

Ltac propagates_step :=
  lazymatch goal with
  | |- propagates (bind _ _) => apply propagates_bind; [ | intros ? ]
  | |- propagates (ret _) => apply propagates_ret
  | |- propagates (lift _) => apply propagates_lift
  | |- propagates get_session_ => apply propagates_get
  | |- propagates (update _) => apply propagates_update
  | |- propagates (llm_call _) => apply propagates_llm_call
  | |- propagates (llm_call_json _) => apply propagates_llm_call_json
  | |- propagates (if ?b then _ else _) => destruct b
  | |- propagates (match ?x with _ => _ end) => destruct x
  | |- propagates (let _ := _ in _) => cbv zeta
  | |- propagates ?m => let h := head_of m in unfold h
  end.

Section Propagation.

Context {L : Type} `{BaseLLMClient L}.
Variable lower : str -> str.
Variable builtin_str : pyval -> str.
Variable prompts : PromptLibrary.

Lemma process_turn_propagates u :
  propagates (process_turn (L := L) lower builtin_str prompts u).
Proof.
  unfold process_turn.
  repeat propagates_step.
Qed.

Lemma process_input_left_as (sid u : str) (eng : @CoachEngine L) (s s' : Session) (e : exn) :
  sessions eng !! sid = Some s ->
  post (process_turn lower builtin_str prompts u) (world_of eng s)
    (fun r w' => r = inl e /\ w_session w' = s') ->
  fst (process_input lower builtin_str prompts sid u eng) = inl e /\
  sessions (snd (process_input lower builtin_str prompts sid u eng)) !! sid = Some s'.
Proof.
  intros Hs Hpost.
  destruct (process_input_post lower builtin_str prompts sid u eng s _ Hs Hpost)
    as (w' & [Hr Hw] & _ & _ & Hsess).
  split; [ exact Hr | ]. rewrite Hsess, <- Hw. apply lookup_insert_eq.
Qed.

(** What the intent recognition of a turn leaves: the session as it was. *)
Ltac after_intent Hrec Hsame :=
  match type of Hrec with
  | _recognize_intent ?lo ?pr ?u ?w = _ =>
    pose proof (recognize_intent_session lo pr u w) as Hsame;
    rewrite Hrec in Hsame; unfold world_of in Hsame, Hrec; cbn [snd w_session] in Hsame
  end.

(** C2 (amended). A turn on an unknown session raises [ValueError] and changes
    nothing. On a known session, every exception raised by a collaborator
    call is the outcome of [process_input], unchanged: no handler catches it.
    The user's message is appended to the transcript before the handler
    runs and stays there when the turn fails; the reply is appended only
    when the handler returns. What the handler did to the session before the
    failing call is kept, nothing is rolled back. Where a handler changes the
    session before a call, the session stored after the failure is the
    changed one:
    - the evaluation request of a code submission raises: the code is
      stored;
    - the request for the first follow-up question raises, after the code was
      judged correct: the code is stored, the session is in [FOLLOWUP] and
      its follow-up tracker is reset;
    - the help request raises: the session is in [GUIDING] and its guidance
      tracker is reset;
    - the teaching request of a skip, or of a guidance that starts exhausted,
      raises: the session is in [TEACHING];
    - the teaching request after the last guided attempt raises: the attempt
      is counted and the session is in [TEACHING]. *)
Theorem failure_propagates_user_message_kept sid u (eng : @CoachEngine L) :
  let out := process_input lower builtin_str prompts sid u eng in
  (sessions eng !! sid = None -> out = (inl (not_found sid), eng)) /\
  (forall s, sessions eng !! sid = Some s ->
   exists s' new,
     sessions (snd out) !! sid = Some s' /\
     calls (snd out) = calls eng ++ new /\
     (forall p e, In (p, Some e) new -> fst out = inl e) /\
     turn_result u s (fst out) s' /\
     messages s' =
       match fst out with
       | inl _ => messages s ++ [ {| role := py "user"; content := PStr u |} ]
       | inr reply => messages s ++ [ {| role := py "user"; content := PStr u |};
                                      {| role := py "assistant"; content := reply |} ]
       end) /\
  (forall (s : Session) (intent : UserIntent) (intent_reply : pyval) (w2 : World L),
   let s1 := Session_.add_message (py "user") (PStr u) s in
   let left_as e s' := fst out = inl e /\ sessions (snd out) !! sid = Some s' in
   sessions eng !! sid = Some s ->
   open_for_code s ->
   _recognize_intent lower prompts u (world_of eng s1) = (inr (intent, intent_reply), w2) ->
   (forall p e l',
      intent = SUBMIT_CODE ->
      get_code_evaluation_prompt prompts (Session_.set_user_code (Some u) s1) u = inr p ->
      call_json p (w_llm w2) = (inl e, l') ->
      left_as e (Session_.set_user_code (Some u) s1)) /\
   (forall p response l1 p2 e l2,
      intent = SUBMIT_CODE ->
      get_code_evaluation_prompt prompts (Session_.set_user_code (Some u) s1) u = inr p ->
      call_json p (w_llm w2) = (inr (PDict response), l1) ->
      response !! py "evaluation" = Some (PStr (py "correct")) ->
      get_followup_prompt prompts
        (Session_.start_followup (Session_.set_user_code (Some u) s1)) 1 = inr p2 ->
      call_json p2 l1 = (inl e, l2) ->
      left_as e (Session_.start_followup (Session_.set_user_code (Some u) s1))) /\
   (forall p e l',
      intent = ASK_FOR_HELP -> phase s = WAITING_CODE ->
      get_help_request_prompt prompts (Session_.start_guidance s1) u = inr p ->
      call_json p (w_llm w2) = (inl e, l') ->
      left_as e (Session_.start_guidance s1)) /\
   (forall p e l',
      intent = SKIP_PROBLEM ->
      get_teaching_prompt prompts (Session_.start_teaching s1) = inr p ->
      call p (w_llm w2) = (inl e, l') ->
      left_as e (Session_.start_teaching s1)) /\
   (forall p response l2 p3 e l3,
      phase s = GUIDING -> intent <> SUBMIT_CODE -> intent <> SKIP_PROBLEM ->
      get_guidance_prompt prompts s1 u = inr p ->
      call_json p (w_llm w2) = (inr (PDict response), l2) ->
      truthy (dict_get response (py "user_on_right_track") (PBool false)) = false ->
      snd (GuidanceState_.increment_attempt (guidance_state s)) = false ->
      get_teaching_prompt prompts
        (Session_.start_teaching (Session_.guidance_increment s1)) = inr p3 ->
      call p3 l2 = (inl e, l3) ->
      left_as e (Session_.start_teaching (Session_.guidance_increment s1)))) /\
  (forall (s : Session) p e l',
   let s1 := Session_.add_message (py "user") (PStr u) s in
   sessions eng !! sid = Some s ->
   phase s = GUIDING ->
   GuidanceState_.is_exhausted (guidance_state s) = true ->
   get_teaching_prompt prompts (Session_.start_teaching s1) = inr p ->
   call p (llm eng) = (inl e, l') ->
   fst out = inl e /\ sessions (snd out) !! sid = Some (Session_.start_teaching s1)).
Proof.
  intros out. subst out.
  split; [ apply process_input_unknown | ].
  split; [ | split ].
  - intros s Hs.
    destruct (process_input_post lower builtin_str prompts sid u eng s
                (fun r w' => turn_result u s r (w_session w') /\
                   exists new, w_calls w' = calls eng ++ new /\ outcome_ok r new) Hs)
      as (w' & ((s2 & Hh & Hs') & new & Hnew & Hout) & _ & Hcalls & Hsess).
    { split; [ exact (process_turn_handles _ _ _ u (world_of eng s)) | ].
      exact (process_turn_propagates u (world_of eng s)). }
    exists (w_session w'), new.
    split; [ rewrite Hsess; apply lookup_insert_eq | ].
    split; [ congruence | ].
    split; [ intros p e Hin; exact (outcome_ok_failure _ _ _ _ Hout Hin) | ].
    split; [ exists s2; split; assumption | ].
    rewrite Hs'. apply (handles_messages) in Hh.
    destruct (fst (process_input lower builtin_str prompts sid u eng));
      sess_simpl; rewrite Hh; sess_simpl; [ reflexivity | ].
    rewrite <- app_assoc. reflexivity.
  - intros s intent intent_reply w2 s1 left_as Hs Hopen Hrec. subst left_as s1.
    after_intent Hrec Hsame.
    assert (Hg2 : guidance_state (w_session w2) = guidance_state s)
      by (rewrite Hsame; reflexivity).
    split; [ | split; [ | split; [ | split ] ] ].
    + intros p e l' -> Hp Hcall.
      apply (process_input_left_as sid u eng s _ e Hs). unfold world_of.
      rewrite <- Hsame in Hp.
      destruct Hopen as [Hph | [Hph Hex]]; wpx; split; rewrite ?Hsame; reflexivity.
    + intros p response l1 p2 e l2 -> Hp Hcall Htag Hp2 Hcall2.
      apply correct_tag in Htag.
      apply (process_input_left_as sid u eng s _ e Hs). unfold world_of.
      rewrite <- Hsame in Hp, Hp2. change 1 with (0 + 1) in Hp2.
      destruct Hopen as [Hph | [Hph Hex]]; wpx; split; rewrite ?Hsame; reflexivity.
    + intros p e l' -> Hph Hp Hcall.
      apply (process_input_left_as sid u eng s _ e Hs). unfold world_of.
      rewrite <- Hsame in Hp.
      wpx; split; rewrite ?Hsame; reflexivity.
    + intros p e l' -> Hp Hcall.
      apply (process_input_left_as sid u eng s _ e Hs). unfold world_of.
      rewrite <- Hsame in Hp.
      destruct Hopen as [Hph | [Hph Hex]]; wpx; split; rewrite ?Hsame; reflexivity.
    + intros p response l2 p3 e l3 Hph Hi1 Hi2 Hp Hcall Htrack Hleft Hp3 Hcall3.
      destruct Hopen as [Hw | [_ Hex]]; [ congruence | ].
      assert (Hd1 : bool_decide (intent = SUBMIT_CODE) = false)
        by (apply bool_decide_eq_false; exact Hi1).
      assert (Hd2 : bool_decide (intent = SKIP_PROBLEM) = false)
        by (apply bool_decide_eq_false; exact Hi2).
      apply (f_equal negb) in Hleft. cbn [negb] in Hleft.
      apply (process_input_left_as sid u eng s _ e Hs). unfold world_of.
      rewrite <- Hsame in Hp, Hp3. rewrite <- Hg2 in Hleft.
      wpx; split; rewrite ?Hsame; reflexivity.
  - intros s p e l' s1 Hs Hph Hex Hp Hcall. subst s1.
    apply (process_input_left_as sid u eng s _ e Hs). unfold world_of.
    wpx; split; reflexivity.
Qed.

(** ** Code submissions *)

(** C10. When the evaluation of a code submission comes back with any tag
    other than exactly ["correct"] (["partial"], ["cannot_evaluate"], an
    unknown string, a value that is not a string, or no [evaluation] field at
    all), the guidance tracker is reset, the session enters [GUIDING] and the
    reply is the evaluation's [reply] alone. Reset means: whatever the tracker
    held, it now counts no attempt, is at hint level 1 and has no topic
    covered; its limit of attempts is kept. The submitted code stays stored,
    and nothing else of the session changes. *)
Theorem rejected_code_enters_guidance (u : str) (w : World L) (p : str) (response : Dict)
    (l' : L) :
  let out := _evaluate_and_respond builtin_str prompts u w in
  get_code_evaluation_prompt prompts (Session_.set_user_code (Some u) (w_session w)) u
    = inr p ->
  call_json p (w_llm w) = (inr (PDict response), l') ->
  response !! py "evaluation" <> Some (PStr (py "correct")) ->
  out =
    (inr (dict_get response (py "reply") (PStr [])),
     {| w_session := Session_.start_guidance (Session_.set_user_code (Some u) (w_session w));
        w_llm := l';
        w_calls := w_calls w ++ [(p, None)] |}) /\
  phase (w_session (snd out)) = GUIDING /\
  guidance_state (w_session (snd out)) = GuidanceState_.reset (guidance_state (w_session w)) /\
  guidance_state (w_session (snd out))
    = {| attempt_count := 0;
         max_attempts := max_attempts (guidance_state (w_session w));
         current_hint_level := 1;
         topics_covered := [] |} /\
  w_session (snd out)
    = {| session_id := session_id (w_session w);
         problem := problem (w_session w);
         phase := GUIDING;
         messages := messages (w_session w);
         user_code := Some u;
         guidance_state := {| attempt_count := 0;
                              max_attempts := max_attempts (guidance_state (w_session w));
                              current_hint_level := 1;
                              topics_covered := [] |};
         followup_state := followup_state (w_session w) |}.
Proof.
  intros out Hp Hcall Htag. apply not_correct_tag in Htag.
  assert (Hrun : out =
    (inr (dict_get response (py "reply") (PStr [])),
     {| w_session := Session_.start_guidance (Session_.set_user_code (Some u) (w_session w));
        w_llm := l';
        w_calls := w_calls w ++ [(p, None)] |})).
  { subst out. apply post_eq. wpx. split; reflexivity. }
  rewrite Hrun. repeat split.
Qed.

(** C7. When the evaluation of a code submission comes back ["correct"], the
    follow-up tracker is reset and the session enters [FOLLOWUP], whether or
    not the request for the first follow-up question then succeeds. When it
    succeeds, the generated question (the [question] field, or the default
    question when the field is absent) is the single entry of the tracker's
    history and the reply is the evaluation's reply followed by the question,
    the two joined by the blank line of the source's f-string; the question
    alone when the evaluation's reply is empty. *)
Theorem correct_code_enters_followup (u : str) (w : World L) (p : str)
    (response : Dict) (l1 : L) :
  let s1 := Session_.set_user_code (Some u) (w_session w) in
  let reply := dict_get response (py "reply") (PStr []) in
  let out := _evaluate_and_respond builtin_str prompts u w in
  get_code_evaluation_prompt prompts s1 u = inr p ->
  call_json p (w_llm w) = (inr (PDict response), l1) ->
  response !! py "evaluation" = Some (PStr (py "correct")) ->
  phase (w_session (snd out)) = FOLLOWUP /\
  (followup_state (w_session (snd out))
     = FollowUpState_.reset (followup_state (w_session w)) \/
   exists q, followup_state (w_session (snd out))
     = FollowUpState_.add_question q (FollowUpState_.reset (followup_state (w_session w)))) /\
  forall (p2 : str) (response2 : Dict) (l2 : L),
    let question := dict_get response2 (py "question") (PStr default_followup_question) in
    get_followup_prompt prompts (Session_.start_followup s1) 1 = inr p2 ->
    call_json p2 l1 = (inr (PDict response2), l2) ->
    out =
      (inr (if truthy reply
            then PStr (format_value builtin_str reply ++ [NL; NL]
                       ++ format_value builtin_str question)
            else question),
       {| w_session := Session_.followup_add question (Session_.start_followup s1);
          w_llm := l2;
          w_calls := w_calls w ++ [(p, None); (p2, None)] |}) /\
    questions_asked (followup_state (w_session (snd out))) = 1 /\
    questions_history (followup_state (w_session (snd out))) = [question] /\
    (forall r q : str, reply = PStr r -> question = PStr q ->
       fst out = inr (PStr (if bool_decide (r = []) then q else r ++ [NL; NL] ++ q))).
Proof.
  intros s1 reply out Hp Hcall Htag. apply correct_tag in Htag.
  subst s1 reply out.
  split; [ | split ].
  - as_post. wpx; reflexivity.
  - as_post. wpx; first [ left; reflexivity | right; eexists; reflexivity ].
  - intros p2 response2 l2 question Hp2 Hcall2. subst question.
    assert (Hrun : _evaluate_and_respond builtin_str prompts u w =
      (inr (if truthy (dict_get response (py "reply") (PStr []))
            then PStr (format_value builtin_str (dict_get response (py "reply") (PStr []))
                       ++ [NL; NL]
                       ++ format_value builtin_str
                            (dict_get response2 (py "question")
                               (PStr default_followup_question)))
            else dict_get response2 (py "question") (PStr default_followup_question)),
       {| w_session :=
            Session_.followup_add
              (dict_get response2 (py "question") (PStr default_followup_question))
              (Session_.start_followup (Session_.set_user_code (Some u) (w_session w)));
          w_llm := l2;
          w_calls := w_calls w ++ [(p, None); (p2, None)] |})).
    { apply post_eq. change 1 with (0 + 1) in Hp2.
      wpx. rewrite <- app_assoc. split; reflexivity. }
    rewrite Hrun. cbn [fst snd w_session].
    split; [ reflexivity | split; [ reflexivity | split; [ reflexivity | ] ] ].
    intros r q Hr Hq. rewrite Hr, Hq. unfold truthy. cbn [format_value].
    destruct (bool_decide (r = [])); reflexivity.
Qed.

(** ** Guidance turns *)

(** C8. In [GUIDING]:
    (a) with attempts already exhausted at the start of the turn the session
        enters [TEACHING] (whatever the collaborator does) and, when the
        teaching request succeeds, the reply is the teaching content;
    (b) otherwise, on a guided turn (the intent is neither a code submission
        nor a skip) whose answer does not have a true [user_on_right_track]
        and whose attempt increment reports no attempts left, the session
        enters [TEACHING] at once and the reply is the teaching content, not
        the guidance reply;
    (c) on a guided turn whose answer has a true [user_on_right_track] the
        phase is left as it is and the guidance reply is returned, even when
        no attempts are left. The attempt is counted in (b) and (c). *)
Theorem guiding_turn (u : str) (w : World L) :
  (GuidanceState_.is_exhausted (guidance_state (w_session w)) = true ->
   phase (w_session (snd (_handle_guiding lower builtin_str prompts u w))) = TEACHING /\
   forall (p t : str) (l' : L),
     get_teaching_prompt prompts (Session_.start_teaching (w_session w)) = inr p ->
     call p (w_llm w) = (inr t, l') ->
     _handle_guiding lower builtin_str prompts u w =
       (inr (PStr t),
        {| w_session := Session_.start_teaching (w_session w);
           w_llm := l'; w_calls := w_calls w ++ [(p, None)] |})) /\
  (forall (intent : UserIntent) (intent_reply : pyval) (w1 : World L) (p : str)
          (response : Dict) (l2 : L),
     GuidanceState_.is_exhausted (guidance_state (w_session w)) = false ->
     _recognize_intent lower prompts u w = (inr (intent, intent_reply), w1) ->
     intent <> SUBMIT_CODE -> intent <> SKIP_PROBLEM ->
     get_guidance_prompt prompts (w_session w) u = inr p ->
     call_json p (w_llm w1) = (inr (PDict response), l2) ->
     let reply := dict_get response (py "reply") (PStr (py "让我们换个角度想想...")) in
     let on_track := dict_get response (py "user_on_right_track") (PBool false) in
     let counted := Session_.guidance_increment (w_session w) in
     (truthy on_track = true ->
      _handle_guiding lower builtin_str prompts u w =
        (inr reply,
         {| w_session := counted; w_llm := l2; w_calls := w_calls w1 ++ [(p, None)] |}) /\
      phase counted = phase (w_session w)) /\
     (truthy on_track = false ->
      snd (GuidanceState_.increment_attempt (guidance_state (w_session w))) = true ->
      _handle_guiding lower builtin_str prompts u w =
        (inr reply,
         {| w_session := counted; w_llm := l2; w_calls := w_calls w1 ++ [(p, None)] |})) /\
     (truthy on_track = false ->
      snd (GuidanceState_.increment_attempt (guidance_state (w_session w))) = false ->
      phase (w_session (snd (_handle_guiding lower builtin_str prompts u w))) = TEACHING /\
      forall (p3 t : str) (l3 : L),
        get_teaching_prompt prompts (Session_.start_teaching counted) = inr p3 ->
        call p3 l2 = (inr t, l3) ->
        _handle_guiding lower builtin_str prompts u w =
          (inr (PStr t),
           {| w_session := Session_.start_teaching counted; w_llm := l3;
              w_calls := w_calls w1 ++ [(p, None); (p3, None)] |}))).
Proof.
  split.
  - intros Hex. split.
    + as_post. wpx; reflexivity.
    + intros p t l' Hp Hcall. apply post_eq. wpx. split; reflexivity.
  - intros intent intent_reply w1 p response l2 Hex Hrec Hi1 Hi2 Hp Hcall reply on_track counted.
    pose proof (recognize_intent_session lower prompts u w) as Hsame. rewrite Hrec in Hsame.
    cbn [snd] in Hsame.
    assert (Hd1 : bool_decide (intent = SUBMIT_CODE) = false)
      by (apply bool_decide_eq_false; exact Hi1).
    assert (Hd2 : bool_decide (intent = SKIP_PROBLEM) = false)
      by (apply bool_decide_eq_false; exact Hi2).
    rewrite <- Hsame in Hp, Hex. subst reply on_track counted. rewrite <- Hsame.
    split; [ | split ].
    + intros Htrack. split; [ | reflexivity ].
      apply post_eq. wpx. split; reflexivity.
    + intros Htrack Hleft. apply (f_equal negb) in Hleft. cbn [negb] in Hleft.
      apply post_eq. wpx. split; reflexivity.
    + intros Htrack Hleft. apply (f_equal negb) in Hleft. cbn [negb] in Hleft. split.
      * as_post. wpx; reflexivity.
      * intros p3 t l3 Hp3 Hcall3. apply post_eq. wpx.
        rewrite <- app_assoc. split; reflexivity.
Qed.

(** ** The last follow-up answer *)

(** C1 (amended). In [FOLLOWUP] with [asked = 2] and [total = 3], when the
    learner answers and the evaluation succeeds:
    - if the evaluation carries a [next_question] that is not empty, that
      question is appended to the tracker, which becomes complete
      ([asked = 3]), the phase becomes [COMPLETED], and the closing remark is
      appended to a reply that contains neither of the two closing words;
    - if the evaluation carries no [next_question] (or an empty one), the
      tracker and the phase stay as they are ([asked = 2], [FOLLOWUP]) and the
      reply is returned as it is. *)
Theorem followup_answer_at_two_of_three (sid u : str) (eng : @CoachEngine L) (s : Session)
    (p : str) (response : Dict) (l' : L) :
  let s1 := Session_.add_message (py "user") (PStr u) s in
  let last_question := match last (questions_history (followup_state s)) with
                       | Some q => q
                       | None => PStr []
                       end in
  let reply := dict_get response (py "reply") (PStr []) in
  let next_q := dict_get response (py "next_question") (PStr []) in
  let out := process_input lower builtin_str prompts sid u eng in
  sessions eng !! sid = Some s ->
  phase s = FOLLOWUP ->
  questions_asked (followup_state s) = 2 ->
  total_questions (followup_state s) = 3 ->
  get_followup_evaluation_prompt prompts s1 last_question u 2 = inr p ->
  call_json p (llm eng) = (inr (PDict response), l') ->
  exists s', sessions (snd out) !! sid = Some s' /\
    (truthy next_q = true ->
       phase s' = COMPLETED /\
       followup_state s' = FollowUpState_.add_question next_q (followup_state s) /\
       questions_asked (followup_state s') = 3 /\
       forall r : str, reply = PStr r ->
         fst out = inr (PStr (if contains (py "恭喜") r || contains (py "完成") r
                             then r else r ++ closing_remark))) /\
    (truthy next_q = false ->
       phase s' = FOLLOWUP /\
       followup_state s' = followup_state s /\
       fst out = inr reply) /\
    (response !! py "next_question" = None -> truthy next_q = false).
Proof.
  intros s1 last_question reply next_q out Hs Hphase Hasked Htotal Hp Hcall.
  destruct (process_input_post lower builtin_str prompts sid u eng s
    (fun r w' =>
       (truthy next_q = true ->
          phase (w_session w') = COMPLETED /\
          followup_state (w_session w')
            = FollowUpState_.add_question next_q (followup_state s) /\
          questions_asked (followup_state (w_session w')) = 3 /\
          forall r0 : str, reply = PStr r0 ->
            r = inr (PStr (if contains (py "恭喜") r0 || contains (py "完成") r0
                           then r0 else r0 ++ closing_remark))) /\
       (truthy next_q = false ->
          phase (w_session w') = FOLLOWUP /\
          followup_state (w_session w') = followup_state s /\
          r = inr reply)) Hs) as (w' & [Hyes Hno] & _ & _ & Hsess).
  { subst s1 last_question reply next_q out. unfold world_of.
    destruct s as [sid0 pr ph ms uc g [asked total hist]].
    cbn [phase followup_state questions_asked total_questions questions_history] in *.
    subst ph asked total.
    split.
    - intros Hq. as_post. wpx.
      all: split; [ reflexivity | split; [ reflexivity | split; [ reflexivity | ] ] ].
      all: intros r0 Hr; rewrite Hr in *; unfold py_in, py_iadd in *; simplify_eq.
      all: destruct (contains (py "恭喜") r0), (contains (py "完成") r0);
        cbn [negb orb] in *; try discriminate; reflexivity.
    - intros Hq. as_post. wpx. auto. }
  subst out.
  exists (w_session w'). split; [ rewrite Hsess; apply lookup_insert_eq | ].
  split; [ exact Hyes | split; [ exact Hno | ] ].
  intros Hnone. subst next_q. unfold dict_get. rewrite Hnone. reflexivity.
Qed.

End Propagation.

(* ===================================================================== *)
(** * Further properties of the engine *)
(* ===================================================================== *)

Lemma contains_app_l (sub s1 s2 : str) :
  contains sub s1 = true -> contains sub (s1 ++ s2) = true.
Proof.
  rewrite !contains_iff. intros (pre & post & ->).
  exists pre, (post ++ s2). rewrite <- !app_assoc. reflexivity.
Qed.

Lemma contains_app_r (sub s1 s2 : str) :
  contains sub s2 = true -> contains sub (s1 ++ s2) = true.
Proof.
  rewrite !contains_iff. intros (pre & post & ->).
  exists (s1 ++ pre), post. rewrite <- !app_assoc. reflexivity.
Qed.

Lemma contains_refl (s : str) : contains s s = true.
Proof. apply contains_iff. exists [], []. rewrite app_nil_r. reflexivity. Qed.

Section EngineFacts.

Context {L : Type} `{BaseLLMClient L}.
Variable lower : str -> str.
Variable builtin_str : pyval -> str.
Variable prompts : PromptLibrary.

(** X1. [create_session] stores a session with the dataclass defaults under
    its identifier (the one given, or the fresh one when none is given), so
    that [get_session] on that identifier returns it, also when a session of
    that identifier existed before, which is then replaced. The other
    sessions, the collaborator and the record of calls are left as they
    were. *)
Theorem created_session_is_stored (sid fresh : str) (eng : @CoachEngine L) :
  let s := fst (create_session sid fresh eng) in
  let eng' := snd (create_session sid fresh eng) in
  session_id s = (if bool_decide (sid = []) then fresh else sid) /\
  s = Session_.new (session_id s) /\
  get_session (session_id s) eng' = Some s /\
  (forall sid', sid' <> session_id s -> get_session sid' eng' = get_session sid' eng) /\
  llm eng' = llm eng /\ calls eng' = calls eng.
Proof.
  cbv zeta. unfold create_session, get_session. cbn [fst snd sessions llm calls].
  split; [ reflexivity | split; [ reflexivity | split; [ | split ] ] ].
  - apply lookup_insert_eq.
  - intros sid' Hne. apply lookup_insert_ne. congruence.
  - split; reflexivity.
Qed.

Lemma handles_phase u s s' : handles u s s' -> phase_step (phase s) (phase s') = true.
Proof.
  destruct 1; open_cases; sess_simpl;
    repeat match goal with
           | Hp : phase _ = _ |- _ => rewrite Hp
           end; try reflexivity.
  destruct (phase s); reflexivity.
Qed.

Lemma handles_fields u s s' :
  handles u s s' ->
  session_id s' = session_id s /\ problem s' = problem s /\
  (user_code s' = user_code s \/ (user_code s' = Some u /\ open_for_code s)).
Proof.
  destruct 1; sess_simpl; auto 6.
Qed.

Lemma turn_result_of u s r s' :
  turn_result u s r s' ->
  exists s2, handles u (Session_.add_message (py "user") (PStr u) s) s2 /\
    phase s' = phase s2 /\ session_id s' = session_id s2 /\ problem s' = problem s2 /\
    user_code s' = user_code s2 /\ guidance_state s' = guidance_state s2 /\
    followup_state s' = followup_state s2.
Proof.
  intros (s2 & Hh & ->). exists s2. split; [ exact Hh | ].
  destruct r; repeat split.
Qed.

(** X4. Whatever the input and whatever the collaborator does, a turn moves a
    session only along these edges: [WAITING_PROBLEM] stays; [WAITING_CODE]
    stays or goes to [GUIDING], [FOLLOWUP], [TEACHING] or [COMPLETED];
    [GUIDING] stays or goes to [FOLLOWUP], [TEACHING] or [COMPLETED];
    [FOLLOWUP] stays or goes to [COMPLETED]; [TEACHING] and [COMPLETED]
    stay. In particular no turn takes a session back to [WAITING_PROBLEM] or
    [WAITING_CODE]. *)
Theorem turn_follows_phase_graph sid u (eng : @CoachEngine L) s :
  sessions eng !! sid = Some s ->
  exists s',
    sessions (snd (process_input lower builtin_str prompts sid u eng)) !! sid = Some s' /\
    phase_step (phase s) (phase s') = true.
Proof.
  intros Hs.
  destruct (process_input_turn lower builtin_str prompts sid u eng s Hs) as (s' & Heq & Ht).
  exists s'. split; [ rewrite Heq; apply lookup_insert_eq | ].
  destruct (turn_result_of _ _ _ _ Ht) as (s2 & Hh & -> & _).
  exact (handles_phase _ _ _ Hh).
Qed.

(** X5. A turn never changes the identifier or the problem of the session.
    The stored code either stays as it was or becomes the input of the turn,
    and the latter only when the session was waiting for code or being
    guided with attempts left. *)
Theorem turn_keeps_problem sid u (eng : @CoachEngine L) s :
  sessions eng !! sid = Some s ->
  exists s',
    sessions (snd (process_input lower builtin_str prompts sid u eng)) !! sid = Some s' /\
    session_id s' = session_id s /\
    problem s' = problem s /\
    (user_code s' = user_code s \/ (user_code s' = Some u /\ open_for_code s)).
Proof.
  intros Hs.
  destruct (process_input_turn lower builtin_str prompts sid u eng s Hs) as (s' & Heq & Ht).
  exists s'. split; [ rewrite Heq; apply lookup_insert_eq | ].
  destruct (turn_result_of _ _ _ _ Ht) as (s2 & Hh & _ & -> & -> & -> & _).
  exact (handles_fields _ _ _ Hh).
Qed.

Lemma process_turn_calls (u : str) (w : World L) :
  post (process_turn lower builtin_str prompts u) w
    (fun _ w' => exists new, w_calls w' = w_calls w ++ new /\
                 (length new <= max_calls (phase (w_session w)))%nat).
Proof.
  wp.
  all: match goal with
       | Hp : phase (Session_.add_message _ _ _) = _ |- _ =>
         change (phase (w_session w)) with
           (phase (Session_.add_message (py "user") (PStr u) (w_session w)));
         rewrite Hp
       end.
  all: rewrite <- ?app_assoc.
  all: first [ exists []; rewrite app_nil_r; split; [ reflexivity | apply Nat.leb_le; reflexivity ]
             | eexists; split; [ reflexivity | apply Nat.leb_le; reflexivity ] ].
Qed.

(** X6. A turn only adds to the record of collaborator calls, and it makes
    at most three of them: none in [WAITING_PROBLEM] and [COMPLETED], at most
    one in [FOLLOWUP] and [TEACHING], at most three in [WAITING_CODE] and
    [GUIDING]. *)
Theorem turn_makes_few_calls sid u (eng : @CoachEngine L) s :
  sessions eng !! sid = Some s ->
  exists new,
    calls (snd (process_input lower builtin_str prompts sid u eng)) = calls eng ++ new /\
    (length new <= max_calls (phase s))%nat.
Proof.
  intros Hs.
  destruct (process_input_post lower builtin_str prompts sid u eng s _ Hs
              (process_turn_calls u (world_of eng s)))
    as (w' & (new & Hnew & Hlen) & _ & Hcalls & _).
  exists new. split; [ rewrite Hcalls; exact Hnew | exact Hlen ].
Qed.




Lemma opening_mentions (s : Session) (p : Problem) (opening : str) :
  problem s = Some p -> _generate_opening s = inr opening ->
  contains (title p) opening = true /\ contains (description p) opening = true.
Proof.
  unfold _generate_opening. intros -> Heq.
  apply (f_equal (fun r : exn + str => match r with
                                       | inr o => o
                                       | inl _ => []
                                       end)) in Heq.
  cbv beta iota in Heq. rewrite <- Heq. split.
  - do 3 apply contains_app_r. apply contains_app_l, contains_refl.
  - do 6 apply contains_app_r. apply contains_app_l, contains_refl.
Qed.

(** X2. [set_problem] on an unknown identifier raises [ValueError] and changes
    nothing. On a known session it never raises and never calls the
    collaborator: it returns the opening text, which is [_generate_opening] of
    the resulting session and contains the title and the description of the
    problem; the session gets the problem, enters [WAITING_CODE] and gains the
    opening as one assistant message. The earlier transcript, the stored code
    and both trackers are kept as they were: nothing is reset. *)
Theorem set_problem_restarts_the_phase_only sid p (eng : @CoachEngine L) :
  (sessions eng !! sid = None -> set_problem sid p eng = (inl (not_found sid), eng)) /\
  (forall s, sessions eng !! sid = Some s ->
   exists opening s',
     set_problem sid p eng =
       (inr opening,
        {| llm := llm eng; calls := calls eng;
           sessions := <[ sid := s' ]> (sessions eng) |}) /\
     _generate_opening s' = inr opening /\
     contains (title p) opening = true /\ contains (description p) opening = true /\
     phase s' = WAITING_CODE /\ problem s' = Some p /\
     messages s' = messages s ++ [ {| role := py "assistant"; content := PStr opening |} ] /\
     session_id s' = session_id s /\ user_code s' = user_code s /\
     guidance_state s' = guidance_state s /\ followup_state s' = followup_state s).
Proof.
  split.
  - intros Hs. unfold set_problem, on_session. rewrite Hs. reflexivity.
  - intros s Hs. unfold set_problem. rewrite (on_session_lookup _ _ _ _ Hs).
    eexists _, _. split; [ reflexivity | ].
    match goal with
    | |- _generate_opening ?s' = inr ?o /\ _ =>
      assert (Hgen : _generate_opening s' = inr o) by reflexivity;
      assert (Hpr : problem s' = Some p) by reflexivity
    end.
    split; [ exact Hgen | ].
    split; [ exact (proj1 (opening_mentions _ _ _ Hpr Hgen)) | ].
    split; [ exact (proj2 (opening_mentions _ _ _ Hpr Hgen)) | ].
    cbn. repeat split.
Qed.

Lemma process_turn_followup_open (u : str) (w : World L) :
  post (process_turn lower builtin_str prompts u) w
    (fun _ w' => followup_open (w_session w) -> followup_open (w_session w')).
Proof.
  unfold followup_open.
  wp.
  all: intros [Ht Hf]; (split; [ exact Ht | ]).
  all: cbn [phase user_code followup_state questions_asked total_questions
            Session_.set_phase Session_.set_messages Session_.set_user_code
            Session_.set_guidance_state Session_.set_followup_state Session_.add_message
            Session_.transition_to Session_.start_guidance Session_.start_followup
            Session_.start_teaching Session_.complete
            Session_.guidance_increment Session_.followup_add
            FollowUpState_.add_question FollowUpState_.reset].
  all: try (intros Hph; discriminate Hph).
  all: intros Hph.
  all: try solve [ exfalso; cbn [phase Session_.add_message Session_.set_messages] in *; congruence ].
  all: try solve [ rewrite Ht; split; [ reflexivity | eexists; reflexivity ] ].
  all: try solve [ exact (Hf Hph) ].
  all: try solve [ split; [ exact (proj1 (Hf Hph)) | eexists; reflexivity ] ].
  all: destruct (Hf Hph) as [Hlt Hcode]; (split; [ | exact Hcode ]).
  all: unfold FollowUpState_.is_complete in *;
       cbn [followup_state questions_asked total_questions
            Session_.set_phase Session_.set_messages Session_.set_user_code
            Session_.set_guidance_state Session_.set_followup_state Session_.add_message
            Session_.followup_add FollowUpState_.add_question] in *.
  all: lia.
Qed.

Lemma reachable_all_sessions (P : Session -> Prop) :
  (forall sid, P (Session_.new sid)) ->
  (forall s s' p, P s -> phase s' = WAITING_CODE -> problem s' = Some p ->
     followup_state s' = followup_state s -> P s') ->
  (forall u w, post (process_turn lower builtin_str prompts u) w
                 (fun _ w' => P (w_session w) -> P (w_session w'))) ->
  forall eng, reachable lower builtin_str prompts eng -> all_sessions P eng.
Proof.
  intros Hnew Hset Hturn eng Hr.
  induction Hr as [client | eng sid fresh _ IH | eng sid p _ IH | eng sid u _ IH].
  - intros sid s Hs. cbn in Hs. rewrite lookup_empty in Hs. discriminate Hs.
  - eapply all_sessions_insert; [ exact IH | | reflexivity ]. apply Hnew.
  - destruct (set_problem_sessions sid p eng)
      as [Heq | (s & s' & Hs & Heq & Hph & Hpr & _ & Hf)].
    + intros sid0 s0. rewrite Heq. apply IH.
    + eapply all_sessions_insert; [ exact IH | | exact Heq ].
      exact (Hset s s' p (IH _ _ Hs) Hph Hpr Hf).
  - destruct (sessions eng !! sid) as [s|] eqn:Hs.
    + destruct (process_input_post lower builtin_str prompts sid u eng s _ Hs
                  (Hturn u (world_of eng s))) as (w' & HP & _ & _ & Heq).
      eapply all_sessions_insert; [ exact IH | | exact Heq ].
      apply HP. exact (IH _ _ Hs).
    + rewrite (process_input_unknown _ _ _ _ _ _ Hs). exact IH.
Qed.

Lemma process_turn_problem_known (u : str) (w : World L) :
  post (process_turn lower builtin_str prompts u) w
    (fun _ w' => problem_known (w_session w) -> problem_known (w_session w')).
Proof.
  pose proof (process_turn_handles lower builtin_str prompts u w) as Hh.
  unfold post in *. intros Hk.
  destruct (turn_result_of _ _ _ _ Hh) as (s2 & Hs2 & Hph & _ & Hpr & _).
  pose proof (handles_phase _ _ _ Hs2) as Hstep.
  destruct (handles_fields _ _ _ Hs2) as (_ & Hpr2 & _).
  unfold problem_known in *. rewrite Hph, Hpr, Hpr2. sess_simpl.
  intros Hne. apply Hk. intros Hw. rewrite Hw in Hstep.
  destruct (phase s2); first [ congruence | discriminate Hstep ].
Qed.

(** X7. In every engine that [CoachEngine(llm)] and any sequence of
    [create_session], [set_problem] and [process_input] calls can reach, each
    session that has left [WAITING_PROBLEM] has a problem: the handlers that
    read [session.problem.title] never find [None] there. *)
Theorem reachable_sessions_know_their_problem (eng : @CoachEngine L) :
  reachable lower builtin_str prompts eng ->
  all_sessions (fun s => problem_known s /\
                         (phase s <> WAITING_PROBLEM -> exists t, problem_title s = inr t))
    eng.
Proof.
  intros Hr sid s Hs.
  assert (Hk : problem_known s).
  { revert sid s Hs. change (all_sessions problem_known eng). revert eng Hr.
    apply reachable_all_sessions.
    - intros sid Hne. exfalso. apply Hne. reflexivity.
    - intros s s' p _ _ Hpr _ _. rewrite Hpr. eexists. reflexivity.
    - apply process_turn_problem_known. }
  split; [ exact Hk | ].
  intros Hne. destruct (Hk Hne) as [p Hp]. unfold problem_title. rewrite Hp.
  eexists. reflexivity.
Qed.

(** X8. In every reachable engine, each session in [FOLLOWUP] has fewer
    questions asked than its total of three and holds the submitted code: so
    the check [is_complete()] at the start of [_handle_followup] never
    succeeds, and its completion summary is never returned. *)
Theorem reachable_followup_is_open (eng : @CoachEngine L) :
  reachable lower builtin_str prompts eng ->
  all_sessions (fun s => followup_open s /\
                         (phase s = FOLLOWUP ->
                          FollowUpState_.is_complete (followup_state s) = false))
    eng.
Proof.
  intros Hr sid s Hs.
  assert (Ho : followup_open s).
  { revert sid s Hs. change (all_sessions followup_open eng). revert eng Hr.
    apply reachable_all_sessions.
    - intros sid. split; [ reflexivity | discriminate ].
    - intros s s' p [Ht _] Hph _ Hf. unfold followup_open. rewrite Hf, Hph.
      split; [ exact Ht | discriminate ].
    - apply process_turn_followup_open. }
  split; [ exact Ho | ].
  intros Hph. destruct Ho as [_ Ho]. destruct (Ho Hph) as [Hlt _].
  unfold FollowUpState_.is_complete. apply Z.leb_gt. exact Hlt.
Qed.

Lemma skip_tier (u : str) :
  mentions skip_keywords (lower u) = true ->
  existsb (fun kw => contains kw (strip (lower u))) skip_keywords = true.
Proof.
  unfold mentions. intros Hm.
  rewrite (existsb_contains_strip skip_keywords) by (vm_compute; reflexivity). exact Hm.
Qed.

Lemma help_tier (u : str) :
  mentions skip_keywords (lower u) = false ->
  mentions help_keywords (lower u) = true ->
  existsb (fun kw => contains kw (strip (lower u))) skip_keywords = false /\
  existsb (fun kw => contains kw (strip (lower u))) help_keywords = true.
Proof.
  unfold mentions. intros Hs Hh.
  rewrite (existsb_contains_strip skip_keywords) by (vm_compute; reflexivity).
  rewrite (existsb_contains_strip help_keywords) by (vm_compute; reflexivity).
  split; assumption.
Qed.

(** X9. An input whose lower-cased form contains a skip keyword is handled by
    [_handle_skip], both while waiting for code and while being guided with
    attempts left, whatever else the input contains. [_handle_skip] enters
    [TEACHING] and asks for the teaching content once; when that request
    succeeds the session ends [COMPLETED] and the reply is the content between
    the fixed introduction and the fixed closing question; when it fails the
    session is left in [TEACHING]. The trackers are not touched. *)
Theorem skip_request (u : str) (w : World L) :
  mentions skip_keywords (lower u) = true ->
  _handle_waiting_code lower builtin_str prompts u w = _handle_skip prompts w /\
  (GuidanceState_.is_exhausted (guidance_state (w_session w)) = false ->
   _handle_guiding lower builtin_str prompts u w = _handle_skip prompts w) /\
  (forall (p t : str) (l' : L),
     get_teaching_prompt prompts (Session_.start_teaching (w_session w)) = inr p ->
     call p (w_llm w) = (inr t, l') ->
     _handle_skip prompts w =
       (inr (PStr (py "没问题，让我先给你讲解一下这道题：" ++ [NL; NL] ++ t ++ [NL; NL]
                   ++ py "准备好下一道题了吗？")),
        {| w_session := Session_.complete (Session_.start_teaching (w_session w));
           w_llm := l'; w_calls := w_calls w ++ [(p, None)] |})) /\
  (forall e, fst (_handle_skip prompts w) = inl e ->
     w_session (snd (_handle_skip prompts w)) = Session_.start_teaching (w_session w)).
Proof.
  intros Hm. apply skip_tier in Hm.
  split; [ | split; [ | split ] ].
  - unfold _handle_waiting_code, _recognize_intent. rewrite Hm. reflexivity.
  - intros Hex. unfold _handle_guiding, _recognize_intent. rewrite Hm.
    unfold bind at 1. unfold get_session_ at 1. cbv beta iota. rewrite Hex. reflexivity.
  - clear Hm. intros p t l' Hp Hcall. apply post_eq. wpx. split; reflexivity.
  - clear Hm. intros e. as_post. wp. 
    all: intros; first [ reflexivity | discriminate ].
Qed.

(** X10. While waiting for code, an input with a help keyword and no skip
    keyword enters [GUIDING] with the tracker reset, whatever the collaborator
    does. When the help request is answered with a mapping, the reply is its
    [reply] field (a fixed first question when the field is absent) and the
    request counts as the first attempt: [attempt_count = 1] at hint level 1.
    When the prompt builder or the call raises, the session is left in
    [GUIDING] with no attempt counted. When the answer is not a mapping, the
    attempt is counted first and then [response.get] raises
    [AttributeError]: the session is left in [GUIDING] with
    [attempt_count = 1]. *)
Theorem help_request_while_waiting (u : str) (w : World L) :
  mentions skip_keywords (lower u) = false ->
  mentions help_keywords (lower u) = true ->
  let s1 := Session_.start_guidance (w_session w) in
  let out := _handle_waiting_code lower builtin_str prompts u w in
  phase (w_session (snd out)) = GUIDING /\
  (forall (p : str) (response : Dict) (l' : L),
     get_help_request_prompt prompts s1 u = inr p ->
     call_json p (w_llm w) = (inr (PDict response), l') ->
     out =
       (inr (dict_get response (py "reply")
               (PStr (py "让我们一步步来。首先，你对这道题的第一反应是什么？"))),
        {| w_session := Session_.guidance_increment s1;
           w_llm := l'; w_calls := w_calls w ++ [(p, None)] |}) /\
     attempt_count (guidance_state (w_session (snd out))) = 1 /\
     current_hint_level (guidance_state (w_session (snd out))) = 1) /\
  (forall e, get_help_request_prompt prompts s1 u = inl e ->
     out = (inl e, {| w_session := s1; w_llm := w_llm w; w_calls := w_calls w |}) /\
     attempt_count (guidance_state (w_session (snd out))) = 0) /\
  (forall (p : str) (e : exn) (l' : L),
     get_help_request_prompt prompts s1 u = inr p ->
     call_json p (w_llm w) = (inl e, l') ->
     out = (inl e, {| w_session := s1; w_llm := l';
                      w_calls := w_calls w ++ [(p, Some e)] |}) /\
     attempt_count (guidance_state (w_session (snd out))) = 0) /\
  (forall (p : str) (v : pyval) (l' : L),
     get_help_request_prompt prompts s1 u = inr p ->
     call_json p (w_llm w) = (inr v, l') ->
     is_dict v = false ->
     out = (inl (AttributeError (no_get v)),
            {| w_session := Session_.guidance_increment s1; w_llm := l';
               w_calls := w_calls w ++ [(p, None)] |}) /\
     attempt_count (guidance_state (w_session (snd out))) = 1).
Proof.
  intros Hs Hh s1 out. destruct (help_tier u Hs Hh) as [Hs' Hh']. clear Hs Hh.
  assert (Hout : out = bind (update Session_.start_guidance)
                         (fun _ => _handle_help_request prompts u) w).
  { subst out. unfold _handle_waiting_code, _recognize_intent. rewrite Hs', Hh'.
    reflexivity. }
  clear Hs' Hh'. rewrite Hout. clear Hout out. subst s1.
  split; [ | split; [ | split; [ | split ] ] ].
  - as_post. wp; reflexivity.
  - intros p response l' Hp Hcall.
    assert (Hrun : bind (update Session_.start_guidance)
                     (fun _ => _handle_help_request prompts u) w =
       (inr (dict_get response (py "reply")
               (PStr (py "让我们一步步来。首先，你对这道题的第一反应是什么？"))),
        {| w_session := Session_.guidance_increment (Session_.start_guidance (w_session w));
           w_llm := l'; w_calls := w_calls w ++ [(p, None)] |})).
    { apply post_eq. wpx. split; reflexivity. }
    rewrite Hrun. split; [ reflexivity | split; reflexivity ].
  - intros e Hp.
    assert (Hrun : bind (update Session_.start_guidance)
                     (fun _ => _handle_help_request prompts u) w =
       (inl e, {| w_session := Session_.start_guidance (w_session w);
                  w_llm := w_llm w; w_calls := w_calls w |})).
    { apply post_eq. wpx. split; reflexivity. }
    rewrite Hrun. split; reflexivity.
  - intros p e l' Hp Hcall.
    assert (Hrun : bind (update Session_.start_guidance)
                     (fun _ => _handle_help_request prompts u) w =
       (inl e, {| w_session := Session_.start_guidance (w_session w);
                  w_llm := l'; w_calls := w_calls w ++ [(p, Some e)] |})).
    { apply post_eq. wpx. split; reflexivity. }
    rewrite Hrun. split; reflexivity.
  - intros p v l' Hp Hcall Hv.
    assert (Hrun : bind (update Session_.start_guidance)
                     (fun _ => _handle_help_request prompts u) w =
       (inl (AttributeError (no_get v)),
        {| w_session := Session_.guidance_increment (Session_.start_guidance (w_session w));
           w_llm := l'; w_calls := w_calls w ++ [(p, None)] |})).
    { apply post_eq. wpx; try discriminate Hv. split; reflexivity. }
    rewrite Hrun. split; reflexivity.
Qed.

(** X11. When no keyword tier decides, the intent is the member of
    [UserIntent] named by the [intent] field of the collaborator's answer, and
    [OTHER] when the field is absent or names no member; the session is not
    touched. While waiting for code, a recognised intent other than
    [SUBMIT_CODE], [ASK_FOR_HELP] and [SKIP_PROBLEM] makes the turn return the
    answer's [reply] field as it is. *)
Theorem unrecognised_intent_is_other (u : str) (w : World L) (p : str) (response : Dict)
    (l' : L) :
  let w1 := {| w_session := w_session w; w_llm := l';
               w_calls := w_calls w ++ [(p, None)] |} in
  let intent_str := dict_get response (py "intent") (PStr (py "other")) in
  let reply := dict_get response (py "reply") (PStr []) in
  mentions skip_keywords (lower u) = false ->
  mentions help_keywords (lower u) = false ->
  mentions code_indicators u = false ->
  get_intent_recognition_prompt prompts (w_session w) u = inr p ->
  call_json p (w_llm w) = (inr (PDict response), l') ->
  (forall i, UserIntent_of intent_str = Some i ->
     _recognize_intent lower prompts u w = (inr (i, reply), w1)) /\
  (UserIntent_of intent_str = None ->
     _recognize_intent lower prompts u w = (inr (OTHER, reply), w1)) /\
  (response !! py "intent" = None ->
     _recognize_intent lower prompts u w = (inr (OTHER, reply), w1)) /\
  (forall i, _recognize_intent lower prompts u w = (inr (i, reply), w1) ->
     i <> SUBMIT_CODE -> i <> ASK_FOR_HELP -> i <> SKIP_PROBLEM ->
     _handle_waiting_code lower builtin_str prompts u w = (inr reply, w1)).
Proof.
  intros w1 intent_str reply Hs Hh Hc Hp Hcall.
  assert (Hrun : _recognize_intent lower prompts u w =
            (inr (match UserIntent_of intent_str with
                  | Some i => i
                  | None => OTHER
                  end, reply), w1)).
  { unfold _recognize_intent. unfold mentions in Hs, Hh, Hc.
    rewrite (existsb_contains_strip skip_keywords) by (vm_compute; reflexivity).
    rewrite (existsb_contains_strip help_keywords) by (vm_compute; reflexivity).
    rewrite Hs, Hh, Hc. clear Hs Hh Hc.
    apply post_eq. wpx. split; reflexivity. }
  split; [ | split; [ | split ] ].
  - intros i Hi. rewrite Hrun, Hi. reflexivity.
  - intros Hi. rewrite Hrun, Hi. reflexivity.
  - intros Hnone. rewrite Hrun. subst intent_str. unfold dict_get. rewrite Hnone.
    reflexivity.
  - intros i Hi H1 H2 H3. unfold _handle_waiting_code, bind. rewrite Hi.
    destruct i; try reflexivity; congruence.
Qed.

(** ** Failures and progress *)








Lemma process_turn_guided_progress (u : str) (w : World L) :
  post (process_turn lower builtin_str prompts u) w
    (fun r w' =>
       phase (w_session w) = GUIDING ->
       (exists reply, r = inr reply) ->
       phase (w_session w') = GUIDING ->
       (user_code (w_session w') = Some u /\
        guidance_state (w_session w') = GuidanceState_.reset (guidance_state (w_session w)))
       \/
       (user_code (w_session w') = user_code (w_session w) /\
        GuidanceState_.is_exhausted (guidance_state (w_session w)) = false /\
        guidance_state (w_session w')
          = fst (GuidanceState_.increment_attempt (guidance_state (w_session w))))).
Proof.
  wp.
  all: intros Hg [reply0 Hr] Hg'; try discriminate Hr.
  all: cbn [w_session] in *.
  all: try (sess_simpl; congruence).
  all: first [ left; split; reflexivity
             | right; split; [ reflexivity | split; [ assumption | reflexivity ] ] ].
Qed.

(** X27. A turn in [GUIDING] that returns a reply and leaves the session
    in [GUIDING] has done one of two things: it has taken the input as a code
    submission, stored it as the session's code and restarted the guidance
    tracker; or it has counted one attempt on a tracker that was not
    exhausted and left the stored code alone. *)
Theorem guided_turn_progress sid u (eng : @CoachEngine L) s :
  sessions eng !! sid = Some s ->
  phase s = GUIDING ->
  (exists reply, fst (process_input lower builtin_str prompts sid u eng) = inr reply) ->
  exists s',
    sessions (snd (process_input lower builtin_str prompts sid u eng)) !! sid = Some s' /\
    (phase s' = GUIDING ->
       (user_code s' = Some u /\
        guidance_state s' = GuidanceState_.reset (guidance_state s))
       \/
       (user_code s' = user_code s /\
        GuidanceState_.is_exhausted (guidance_state s) = false /\
        guidance_state s' = fst (GuidanceState_.increment_attempt (guidance_state s)))).
Proof.
  intros Hs Hp Hr.
  destruct (process_input_post lower builtin_str prompts sid u eng s _ Hs
              (process_turn_guided_progress u (world_of eng s)))
    as (w' & Hc & _ & _ & Hsess).
  exists (w_session w'). split; [ rewrite Hsess; apply lookup_insert_eq | ].
  exact (Hc Hp Hr).
Qed.

(** X25. An answered follow-up question, for any number [asked] of
    questions already put with [0 < asked < total], when the evaluation
    succeeds:
    - if it carries a [next_question] that is not empty, that question is
      recorded in the tracker; when it is not the last one
      ([asked + 1 < total]) the phase stays [FOLLOWUP] and the reply is
      returned as it is; when it is the last one ([asked + 1 = total]) the
      phase becomes [COMPLETED] and the closing remark is appended to a text
      reply that contains neither of the two closing words;
    - if it carries no [next_question] (or an empty one), nothing is
      recorded, the phase stays [FOLLOWUP] and the reply is returned as it
      is. *)
Theorem followup_answer_step (sid u : str) (eng : @CoachEngine L) (s : Session)
    (p : str) (response : Dict) (l' : L) :
  let s1 := Session_.add_message (py "user") (PStr u) s in
  let asked := questions_asked (followup_state s) in
  let total := total_questions (followup_state s) in
  let last_question := match last (questions_history (followup_state s)) with
                       | Some q => q
                       | None => PStr []
                       end in
  let reply := dict_get response (py "reply") (PStr []) in
  let next_q := dict_get response (py "next_question") (PStr []) in
  let out := process_input lower builtin_str prompts sid u eng in
  sessions eng !! sid = Some s ->
  phase s = FOLLOWUP ->
  0 < asked < total ->
  get_followup_evaluation_prompt prompts s1 last_question u asked = inr p ->
  call_json p (llm eng) = (inr (PDict response), l') ->
  exists s', sessions (snd out) !! sid = Some s' /\
    (truthy next_q = true ->
       followup_state s' = FollowUpState_.add_question next_q (followup_state s) /\
       (asked + 1 < total -> phase s' = FOLLOWUP /\ fst out = inr reply) /\
       (asked + 1 = total ->
          phase s' = COMPLETED /\
          forall r : str, reply = PStr r ->
            fst out = inr (PStr (if contains (py "恭喜") r || contains (py "完成") r
                                then r else r ++ closing_remark)))) /\
    (truthy next_q = false ->
       phase s' = FOLLOWUP /\
       followup_state s' = followup_state s /\
       fst out = inr reply).
Proof.
  intros s1 asked total last_question reply next_q out Hs Hphase Hasked Hp Hcall.
  destruct (process_input_post lower builtin_str prompts sid u eng s
    (fun r w' =>
       (truthy next_q = true ->
          followup_state (w_session w')
            = FollowUpState_.add_question next_q (followup_state s) /\
          (asked + 1 < total -> phase (w_session w') = FOLLOWUP /\ r = inr reply) /\
          (asked + 1 = total ->
             phase (w_session w') = COMPLETED /\
             forall r0 : str, reply = PStr r0 ->
               r = inr (PStr (if contains (py "恭喜") r0 || contains (py "完成") r0
                              then r0 else r0 ++ closing_remark)))) /\
       (truthy next_q = false ->
          phase (w_session w') = FOLLOWUP /\
          followup_state (w_session w') = followup_state s /\
          r = inr reply)) Hs) as (w' & [Hyes Hno] & _ & _ & Hsess).
  { subst s1 asked total last_question reply next_q out. unfold world_of.
    destruct s as [sid0 pr ph ms uc g [asked total hist]].
    cbn [phase followup_state questions_asked total_questions questions_history] in *.
    subst ph.
    assert (Hopen : FollowUpState_.is_complete
                      {| questions_asked := asked; total_questions := total;
                         questions_history := hist |} = false)
      by (unfold FollowUpState_.is_complete; cbn; lia).
    assert (Hpos : (asked =? 0) = false) by lia.
    assert (Hlt : (asked <? total) = true) by lia.
    split.
    - intros Hq. as_post. wpx.
      all: split; [ reflexivity | ].
      all: unfold FollowUpState_.is_complete, FollowUpState_.add_question in *;
        cbn [questions_asked total_questions] in *.
      all: split; intros Hc.
      all: try (exfalso; lia).
      all: split; [ reflexivity | ].
      all: try reflexivity.
      all: intros r0 Hr; rewrite Hr in *; unfold py_in, py_iadd in *; simplify_eq.
      all: destruct (contains (py "恭喜") r0), (contains (py "完成") r0);
        cbn [negb orb] in *; try discriminate; reflexivity.
    - intros Hq. as_post. wpx. auto. }
  subst out.
  exists (w_session w'). split; [ rewrite Hsess; apply lookup_insert_eq | ].
  split; [ exact Hyes | exact Hno ].
Qed.

(** X26. A turn in [FOLLOWUP] before any question has been put
    ([asked = 0]): the learner's message is added to the transcript but is
    not evaluated. The turn builds the follow-up prompt for question 1, makes
    that one collaborator call, records the question of the response (the
    default question when the response has none) in the tracker and returns
    it; the phase stays [FOLLOWUP]. *)
Theorem followup_first_question_regenerated (sid u : str) (eng : @CoachEngine L)
    (s : Session) (p : str) (response : Dict) (l' : L) :
  let s1 := Session_.add_message (py "user") (PStr u) s in
  let question := dict_get response (py "question") (PStr default_followup_question) in
  let out := process_input lower builtin_str prompts sid u eng in
  sessions eng !! sid = Some s ->
  phase s = FOLLOWUP ->
  questions_asked (followup_state s) = 0 ->
  0 < total_questions (followup_state s) ->
  get_followup_prompt prompts s1 1 = inr p ->
  call_json p (llm eng) = (inr (PDict response), l') ->
  fst out = inr question /\
  calls (snd out) = calls eng ++ [(p, None)] /\
  exists s', sessions (snd out) !! sid = Some s' /\
    phase s' = FOLLOWUP /\
    followup_state s' = FollowUpState_.add_question question (followup_state s) /\
    messages s' = messages s ++ [ {| role := py "user"; content := PStr u |};
                                  {| role := py "assistant"; content := question |} ].
Proof.
  intros s1 question out Hs Hphase Hasked Htotal Hp Hcall.
  destruct (process_input_post lower builtin_str prompts sid u eng s
    (fun r w' =>
       r = inr question /\
       w_calls w' = calls eng ++ [(p, None)] /\
       phase (w_session w') = FOLLOWUP /\
       followup_state (w_session w')
         = FollowUpState_.add_question question (followup_state s) /\
       messages (w_session w')
         = messages s ++ [ {| role := py "user"; content := PStr u |};
                           {| role := py "assistant"; content := question |} ]) Hs)
    as (w' & (Hr & Hc & Hph & Hf & Hm) & _ & Hcalls & Hsess).
  { subst s1 question out. unfold world_of.
    destruct s as [sid0 pr ph ms uc g [asked total hist]].
    cbn [phase followup_state questions_asked total_questions questions_history messages] in *.
    subst ph asked.
    assert (Hopen : FollowUpState_.is_complete
                      {| questions_asked := 0; total_questions := total;
                         questions_history := hist |} = false)
      by (unfold FollowUpState_.is_complete; cbn; lia).
    change 1 with (0 + 1) in Hp.
    wpx.
    repeat split. rewrite <- app_assoc. reflexivity. }
  subst out. split; [ exact Hr | ]. split; [ rewrite Hcalls; exact Hc | ].
  exists (w_session w'). split; [ rewrite Hsess; apply lookup_insert_eq | ].
  split; [ exact Hph | split; [ exact Hf | exact Hm ] ].
Qed.

End EngineFacts.

(* ===================================================================== *)
(** * Further properties of the data model and of the prompt helpers *)
(* ===================================================================== *)

Example str_of_int_ex :
  str_of_int 0 = py "0" /\ str_of_int 42 = py "42" /\ str_of_int (-7) = py "-7".
Proof. vm_compute. repeat split. Qed.

Example slice_from_ex :
  slice_from (-2) [1; 2; 3] = [2; 3] /\ slice_from (-5) [1; 2; 3] = [1; 2; 3] /\
  slice_from 1 [1; 2; 3] = [2; 3] /\ slice_from 7 [1; 2; 3] = [].
Proof. vm_compute. repeat split. Qed.

(** X12. Starting from a reset tracker, after [n] calls of
    [increment_attempt] the attempt count is [n] and the hint level is 1 for
    [n < 3], 2 for [n = 3] and 3 from the fourth attempt on; the tracker is
    exhausted exactly when [n] has reached [max_attempts]; and a call returns
    [True] exactly when the tracker is not exhausted after it. The tracker
    itself never refuses an increment: the count goes on past the maximum. *)
Theorem hint_level_schedule (n : nat) (g : GuidanceState) :
  let g' := attempts_made n (GuidanceState_.reset g) in
  attempt_count g' = Z.of_nat n /\
  max_attempts g' = max_attempts g /\
  current_hint_level g' = (if Z.of_nat n <? 3 then 1 else if Z.of_nat n =? 3 then 2 else 3) /\
  GuidanceState_.is_exhausted g' = (max_attempts g <=? Z.of_nat n) /\
  snd (GuidanceState_.increment_attempt g') = (Z.of_nat n + 1 <? max_attempts g) /\
  snd (GuidanceState_.increment_attempt g')
    = negb (GuidanceState_.is_exhausted (fst (GuidanceState_.increment_attempt g'))).
Proof.
  cbv zeta.
  assert (Hn : attempt_count (attempts_made n (GuidanceState_.reset g)) = Z.of_nat n /\
               max_attempts (attempts_made n (GuidanceState_.reset g)) = max_attempts g /\
               current_hint_level (attempts_made n (GuidanceState_.reset g))
                 = (if Z.of_nat n <? 3 then 1 else if Z.of_nat n =? 3 then 2 else 3)).
  { induction n as [|n (IHa & IHm & IHl)]; [ repeat split | ].
    cbn [attempts_made].
    set (g0 := attempts_made n _) in *.
    unfold GuidanceState_.increment_attempt.
    cbn [fst attempt_count max_attempts current_hint_level].
    split; [ lia | split; [ exact IHm | ] ].
    rewrite IHa, IHl.
    destruct (Z.ltb_spec (Z.of_nat n) 3), (Z.eqb_spec (Z.of_nat n) 3),
      (Z.leb_spec 3 (Z.of_nat n + 1)), (Z.ltb_spec (Z.of_nat (S n)) 3),
      (Z.eqb_spec (Z.of_nat (S n)) 3); lia. }
  destruct Hn as (Ha & Hm & Hl).
  split; [ exact Ha | split; [ exact Hm | split; [ exact Hl | ] ] ].
  unfold GuidanceState_.is_exhausted, GuidanceState_.increment_attempt.
  cbn [fst snd attempt_count max_attempts].
  rewrite Ha, Hm. split; [ reflexivity | split; [ reflexivity | ] ].
  destruct (Z.ltb_spec (Z.of_nat n + 1) (max_attempts g)),
    (Z.leb_spec (max_attempts g) (Z.of_nat n + 1)); try reflexivity; lia.
Qed.

Section ViewFacts.

Variable isoformat : Message -> str.
Variable builtin_str : pyval -> str.

Lemma slice_from_last {A} (n : Z) (l : list A) :
  0 < n -> slice_from (- n) l = drop (length l - Z.to_nat n) l.
Proof.
  intros Hn. unfold slice_from.
  destruct (Z.ltb_spec (- n) 0) as [_|Hge]; [ | lia ].
  f_equal. lia.
Qed.

(** X13. [get_conversation_history(last_n)] renders a window of the transcript
    in order: with a positive [last_n] the last [min(last_n, len)] messages;
    with no [last_n], and also with [last_n = 0], the whole transcript (not an
    empty list); with a negative [last_n] the transcript without its first
    [-last_n] messages. *)
Theorem history_window (n : Z) (s : Session) :
  let whole := Message_.to_dict isoformat <$> messages s in
  let h := Session_.get_conversation_history isoformat (Some n) s in
  Session_.get_conversation_history isoformat None s = whole /\
  (n = 0 -> h = whole) /\
  (0 < n -> h = drop (length whole - Z.to_nat n) whole /\
            length h = Nat.min (Z.to_nat n) (length whole)) /\
  (n < 0 -> h = drop (Z.to_nat (- n)) whole).
Proof.
  cbv zeta. unfold Session_.get_conversation_history.
  split; [ reflexivity | split; [ | split ] ].
  - intros ->. reflexivity.
  - intros Hn. destruct (Z.eqb_spec n 0) as [->|_]; [ lia | ].
    rewrite slice_from_last by exact Hn.
    rewrite fmap_drop, !length_fmap. split; [ reflexivity | ].
    rewrite length_drop, length_fmap. lia.
  - intros Hn. destruct (Z.eqb_spec n 0) as [->|_]; [ lia | ].
    unfold slice_from. destruct (Z.ltb_spec (- n) 0) as [Hlt|_]; [ lia | ].
    rewrite fmap_drop. reflexivity.
Qed.

Ltac key_ne := let Hk := fresh in intros Hk; vm_compute in Hk; discriminate Hk.

Lemma to_dict_role (m : Message) :
  dict_item (Message_.to_dict isoformat m) (py "role") = inr (PStr (role m)).
Proof.
  unfold dict_item, Message_.to_dict. rewrite lookup_insert_eq. reflexivity.
Qed.

Lemma to_dict_content (m : Message) :
  dict_item (Message_.to_dict isoformat m) (py "content") = inr (content m).
Proof.
  unfold dict_item, Message_.to_dict.
  rewrite lookup_insert_ne by key_ne. rewrite lookup_insert_eq. reflexivity.
Qed.

Lemma conversation_line_text (m : Message) (t : str) :
  content m = PStr t ->
  exists line, conversation_line builtin_str (Message_.to_dict isoformat m) = inr line /\
    (length line <= 207)%nat.
Proof.
  intros Hc. unfold conversation_line.
  rewrite to_dict_role, to_dict_content, Hc. cbn [py_len clipped format_value].
  assert (Hrole : forall r,
            length (if eq_str r (py "user") then py "用户" else py "教练") = 2%nat)
    by (intros r; destruct (eq_str r (py "user")); reflexivity).
  destruct (Z.ltb_spec 200 (Z.of_nat (length t))) as [Hlong|Hshort];
    (eexists; split; [ reflexivity | ]);
    cbn [format_value]; rewrite !length_app, Hrole.
  - rewrite length_take.
    change (length (py ": ")) with 2%nat. change (length (py "...")) with 3%nat. lia.
  - change (length (py ": ")) with 2%nat. lia.
Qed.

Lemma conversation_lines_text (ms : list Message) :
  Forall (fun m => exists t, content m = PStr t) ms ->
  exists lines, conversation_lines builtin_str (Message_.to_dict isoformat <$> ms) = inr lines /\
    length lines = length ms /\ Forall (fun line => (length line <= 207)%nat) lines.
Proof.
  induction 1 as [|m ms [t Ht] _ (lines & IH & Hlen & Hall)]; cbn [fmap list_fmap conversation_lines].
  - exists []. repeat split. constructor.
  - destruct (conversation_line_text m t Ht) as (line & -> & Hline).
    change (list_fmap _ _ (Message_.to_dict isoformat) ms)
      with (Message_.to_dict isoformat <$> ms).
    rewrite IH. exists (line :: lines).
    split; [ reflexivity | split; [ cbn; lia | constructor; assumption ] ].
Qed.

Lemma join_length (k : nat) (lines : list str) :
  Forall (fun line => (length line <= k)%nat) lines ->
  (length (join [NL] lines) + 1 <= (k + 1) * length lines + match lines with
                                                      | [] => 1
                                                      | _ => 0
                                                      end)%nat.
Proof.
  induction 1 as [|line lines Hline _ IH]; [ cbn; lia | ].
  destruct lines as [|line' lines]; [ cbn in *; lia | ].
  change (join [NL] (line :: line' :: lines))
    with (line ++ [NL] ++ join [NL] (line' :: lines)).
  rewrite !length_app. cbn [length] in *. nia.
Qed.

(** X14. The context handed to the prompts holds the last ten messages of
    the transcript under [conversation_history]. For a transcript whose
    messages are all text, [_format_conversation] of that history never
    raises, and its result is at most 2079 characters long whatever the
    length of the transcript and of its messages (ten lines of a two-letter
    speaker, a colon and a space, and at most 200 characters of content
    followed by an ellipsis); for an empty transcript it is the placeholder. *)
Theorem prompt_history_is_bounded (s : Session) :
  text_only s ->
  Session_.get_context_for_llm isoformat s !! py "conversation_history"
    = Some (PList (PDict <$> Session_.get_conversation_history isoformat (Some 10) s)) /\
  exists out,
    _format_conversation builtin_str
      (Session_.get_conversation_history isoformat (Some 10) s) = inr out /\
    (length out <= 2079)%nat /\
    (messages s = [] -> out = py "（无历史对话）").
Proof.
  intros Htext. split.
  - unfold Session_.get_context_for_llm.
    do 7 (rewrite lookup_insert_ne by key_ne). apply lookup_singleton_eq.
  - unfold Session_.get_conversation_history.
    change (10 =? 0) with false. cbv iota zeta.
    rewrite slice_from_last by lia.
    set (ms := drop (length (messages s) - Z.to_nat 10) (messages s)).
    assert (Hms : Forall (fun m => exists t, content m = PStr t) ms)
      by (apply Forall_drop; exact Htext).
    assert (Hn : (length ms <= 10)%nat) by (subst ms; rewrite length_drop; lia).
    destruct (conversation_lines_text ms Hms) as (lines & Hlines & Hlen & Hall).
    unfold _format_conversation. rewrite Hlines.
    destruct ms as [|m ms'] eqn:Hms'.
    + exists (py "（无历史对话）"). split; [ reflexivity | split; [ vm_compute; lia | reflexivity ] ].
    + cbn [fmap list_fmap]. exists (join [NL] lines).
      split; [ reflexivity | split ].
      * pose proof (join_length 207 lines Hall) as Hj.
        destruct lines; [ discriminate Hlen | ]. lia.
      * intros Hnil. subst ms. rewrite Hnil in Hms'. discriminate Hms'.
Qed.

End ViewFacts.

(* ===================================================================== *)
(** * Further properties of the clients *)
(* ===================================================================== *)

Section ClientFacts.

Variable json_loads : str -> exn + pyval.

Lemma openai_parse_json_is_first_success (text : str) :
  OpenAIClient._parse_json json_loads text
    = match first_success json_loads (candidates_tagged_only text) with
      | inl e => inl e
      | inr (Some v) => inr v
      | inr None => inr (PDict (parse_failed_dict text))
      end.
Proof.
  unfold OpenAIClient._parse_json, candidates_tagged_only, first_success, brace_span.
  rewrite !search_is_fenced_interior. cbn [try_loads_at].
  destruct (try_loads json_loads text) as [e|[v|]]; try reflexivity.
  destruct (try_loads_at json_loads (fenced_interior Regex.fence_json text))
    as [e|[v|]]; try reflexivity.
  rewrite find_none, rfind_none, !negb_involutive.
  destruct ((0 <=? find open_brace text) && (0 <=? rfind close_brace text));
    cbn [try_loads_at]; [ | reflexivity ].
  destruct (try_loads json_loads (slice text (find open_brace text)
                                    (rfind close_brace text + 1))) as [e|[v|]];
    reflexivity.
Qed.

(** X15. [OpenAIClient._parse_json] (and [AnthropicClient._parse_json], which
    has the same body) returns the first success of parsing the whole text,
    the interior of the first block fenced with the [json] tag, and the span
    from the first opening to the last closing brace, and the fallback
    mapping otherwise: it never looks into a fenced block without the tag. It
    agrees with [QwenClient._parse_json] on every text whose first fenced
    block is not there or is rejected as not being JSON; where the two
    differ, Qwen's returns the payload of that block, or raises what
    [json.loads] raises on it, and this one goes on to the brace span. *)
Theorem openai_parse_json_skips_untagged_blocks (text : str) :
  OpenAIClient._parse_json json_loads text
    = match first_success json_loads (candidates_tagged_only text) with
      | inl e => inl e
      | inr (Some v) => inr v
      | inr None => inr (PDict (parse_failed_dict text))
      end /\
  (try_loads_at json_loads (fenced_interior Regex.fence text) = inr None ->
   OpenAIClient._parse_json json_loads text = _parse_json json_loads text) /\
  (try_loads json_loads text = inr None ->
   try_loads_at json_loads (fenced_interior Regex.fence_json text) = inr None ->
   forall r, try_loads_at json_loads (fenced_interior Regex.fence text) = r ->
   r <> inr None ->
   _parse_json json_loads text
     = match r with
       | inl e => inl e
       | inr (Some v) => inr v
       | inr None => inr (PDict (parse_failed_dict text))
       end /\
   OpenAIClient._parse_json json_loads text
     = match try_loads_at json_loads (brace_span text) with
       | inl e => inl e
       | inr (Some v') => inr v'
       | inr None => inr (PDict (parse_failed_dict text))
       end).
Proof.
  pose proof (openai_parse_json_is_first_success text) as Hopen.
  split; [ exact Hopen | ].
  rewrite Hopen, parse_json_is_normalize.
  unfold normalize, candidates, candidates_tagged_only.
  cbn [first_success try_loads_at].
  split.
  - intros Hnone. rewrite Hnone. reflexivity.
  - intros H1 H2 r Hr Hne. rewrite H1, H2, Hr. split.
    + destruct r as [e|[v|]]; [ reflexivity | reflexivity | congruence ].
    + destruct (try_loads_at json_loads (brace_span text)) as [e|[v|]]; reflexivity.
Qed.

(** X16. [QwenClient.call_json] makes one request, with a prompt that always
    mentions [JSON] or [json]: a prompt that does so already is sent as it
    is, any other with the fixed reminder appended; preparing a prompt twice
    changes nothing more. What the request raises is raised unchanged, and
    the text it returns goes through [_parse_json], whose outcome is the
    outcome of the call. *)
Theorem qwen_prompt_asks_for_json (prompt : str) :
  contains (py "JSON") (QwenClient.json_prompt prompt)
    || contains (py "json") (QwenClient.json_prompt prompt) = true /\
  QwenClient.json_prompt (QwenClient.json_prompt prompt) = QwenClient.json_prompt prompt /\
  (contains (py "JSON") prompt || contains (py "json") prompt = true ->
   QwenClient.json_prompt prompt = prompt) /\
  (contains (py "JSON") prompt || contains (py "json") prompt = false ->
   QwenClient.json_prompt prompt = prompt ++ QwenClient.json_reminder) /\
  (forall (T : Type) (call : str -> option str -> T -> (exn + str) * T)
          (system_prompt : option str) (t : T),
     QwenClient.call_json call json_loads prompt system_prompt t
       = (match fst (call (QwenClient.json_prompt prompt) system_prompt t) with
          | inl e => inl e
          | inr text => _parse_json json_loads text
          end,
          snd (call (QwenClient.json_prompt prompt) system_prompt t))).
Proof.
  assert (Hmentions : contains (py "JSON") (QwenClient.json_prompt prompt)
                      || contains (py "json") (QwenClient.json_prompt prompt) = true).
  { unfold QwenClient.json_prompt.
    destruct (contains (py "JSON") prompt) eqn:H1; [ cbn; rewrite H1; reflexivity | ].
    destruct (contains (py "json") prompt) eqn:H2;
      [ cbn; rewrite H1, H2; reflexivity | ].
    cbn [negb andb]. rewrite (contains_app_r (py "JSON")); [ reflexivity | ].
    vm_compute. reflexivity. }
  split; [ exact Hmentions | split; [ | split; [ | split ] ] ].
  - set (q := QwenClient.json_prompt prompt) in *. unfold QwenClient.json_prompt.
    apply orb_true_iff in Hmentions as [-> | ->]; [ reflexivity | ].
    rewrite andb_false_r. reflexivity.
  - intros Hm. unfold QwenClient.json_prompt.
    apply orb_true_iff in Hm as [-> | ->]; [ reflexivity | ].
    rewrite andb_false_r. reflexivity.
  - intros Hm. unfold QwenClient.json_prompt.
    apply orb_false_iff in Hm as [-> ->]. reflexivity.
  - intros T call system_prompt t. unfold QwenClient.call_json.
    destruct (call (QwenClient.json_prompt prompt) system_prompt t) as [r t'].
    reflexivity.
Qed.

End ClientFacts.

Section Extraction.

Variable json_loads : str -> exn + pyval.

Lemma contains_char_cons (b c : N) (s : str) :
  contains [b] (c :: s) = (b =? c)%N || contains [b] s.
Proof. rewrite contains_cons. cbn [starts_with]. rewrite andb_true_r. reflexivity. Qed.

Lemma contains_char_app (b : N) (s1 s2 : str) :
  contains [b] (s1 ++ s2) = contains [b] s1 || contains [b] s2.
Proof.
  induction s1 as [|c s1 IH]; [ reflexivity | ].
  cbn [app]. rewrite !contains_char_cons, IH, orb_assoc. reflexivity.
Qed.

Lemma spaces_have_no_backtick (ws : str) :
  forallb is_space ws = true -> contains backtick ws = false.
Proof.
  unfold backtick. induction ws as [|c ws IH]; [ reflexivity | ].
  cbn [forallb]. intros [Hc Hws]%andb_true_iff.
  rewrite contains_char_cons, (IH Hws), orb_false_r.
  destruct (N.eqb_spec 96 c) as [<-|_]; [ vm_compute in Hc; discriminate Hc | reflexivity ].
Qed.

Lemma after_skip (b : N) (o pre rest : str) :
  contains [b] pre = false -> after (b :: o) (pre ++ (b :: o) ++ rest) = Some rest.
Proof.
  induction pre as [|c pre IH].
  - intros _. cbn [app after].
    replace (starts_with (b :: o) (b :: o ++ rest)) with true
      by (symmetry; apply starts_with_iff; exists rest; reflexivity).
    f_equal. apply (drop_app_length (b :: o)).
  - rewrite contains_char_cons. intros [Hb Hpre]%orb_false_iff.
    cbn [app after starts_with]. rewrite Hb. cbn [andb]. exact (IH Hpre).
Qed.

Lemma before_skip (b : N) (o pre rest : str) :
  contains [b] pre = false -> before (b :: o) (pre ++ (b :: o) ++ rest) = Some pre.
Proof.
  induction pre as [|c pre IH].
  - intros _. cbn [app before].
    replace (starts_with (b :: o) (b :: o ++ rest)) with true
      by (symmetry; apply starts_with_iff; exists rest; reflexivity).
    reflexivity.
  - rewrite contains_char_cons. intros [Hb Hpre]%orb_false_iff.
    change ((c :: pre) ++ (b :: o) ++ rest) with (c :: (pre ++ (b :: o) ++ rest)).
    cbn [before starts_with]. rewrite Hb. cbn [andb]. rewrite (IH Hpre). reflexivity.
Qed.

Lemma lstrip_spaces_app (ws t : str) :
  forallb is_space ws = true -> lstrip (ws ++ t) = lstrip t.
Proof.
  induction ws as [|c ws IH]; [ reflexivity | ].
  cbn [forallb app lstrip]. intros [-> Hws]%andb_true_iff. exact (IH Hws).
Qed.

Lemma lstrip_solid (t : str) : head_solid t = true -> lstrip t = t.
Proof.
  destruct t as [|c t]; [ reflexivity | ].
  cbn. intros Hc. apply negb_true_iff in Hc. rewrite Hc. reflexivity.
Qed.

Lemma rstrip_spaces_app (t ws : str) :
  head_solid (rev t) = true -> forallb is_space ws = true -> rstrip (t ++ ws) = t.
Proof.
  intros Ht Hws. unfold rstrip. rewrite rev_app_distr.
  rewrite lstrip_spaces_app by (rewrite forallb_rev; exact Hws).
  rewrite (lstrip_solid _ Ht). apply rev_involutive.
Qed.

Lemma fenced_block_interior (b : N) (o pre ws1 payload ws2 post : str) :
  contains [b] pre = false ->
  forallb is_space ws1 = true -> forallb is_space ws2 = true ->
  head_solid payload = true -> head_solid (rev payload) = true ->
  contains backtick payload = false ->
  fenced_interior (b :: o)
    (pre ++ (b :: o) ++ ws1 ++ payload ++ ws2 ++ Regex.fence ++ post) = Some payload.
Proof.
  intros Hpre Hws1 Hws2 Hhead Hlast Hpay. unfold fenced_interior.
  rewrite (after_skip b o pre _ Hpre). cbn [mbind option_bind].
  rewrite (lstrip_spaces_app _ _ Hws1).
  assert (Hin : contains backtick (payload ++ ws2) = false).
  { unfold backtick in *. rewrite contains_char_app, Hpay.
    exact (spaces_have_no_backtick _ Hws2). }
  destruct payload as [|c payload].
  - cbn [app]. rewrite (lstrip_spaces_app _ _ Hws2).
    rewrite lstrip_solid by reflexivity. reflexivity.
  - rewrite lstrip_solid by exact Hhead.
    rewrite (app_assoc (c :: payload) ws2).
    unfold Regex.fence, backtick in *.
    rewrite (before_skip 96 [96; 96]%N _ post Hin).
    cbn [fmap option_fmap option_map].
    rewrite (rstrip_spaces_app _ _ Hlast Hws2). reflexivity.
Qed.

(** X17. A payload wrapped in a fenced block, tagged [json] or not, with white
    space around it inside the fences and any prose before and after, is
    recovered exactly, provided the prose before the block and the payload
    contain no backtick and the payload neither starts nor ends with white
    space. When the whole text is rejected as not being JSON, [_parse_json]
    of all three clients returns the decoded payload of a tagged block, and
    [QwenClient._parse_json] that of an untagged block unless the search for
    a tagged block finds something that parses or makes [json.loads]
    raise. *)
Theorem fenced_payload_is_recovered (pre ws1 payload ws2 post : str) (v : pyval) :
  let tagged := pre ++ Regex.fence_json ++ ws1 ++ payload ++ ws2 ++ Regex.fence ++ post in
  let plain := pre ++ Regex.fence ++ ws1 ++ payload ++ ws2 ++ Regex.fence ++ post in
  contains backtick pre = false ->
  contains backtick payload = false ->
  forallb is_space ws1 = true -> forallb is_space ws2 = true ->
  head_solid payload = true -> head_solid (rev payload) = true ->
  json_loads payload = inr v ->
  fenced_interior Regex.fence_json tagged = Some payload /\
  fenced_interior Regex.fence plain = Some payload /\
  (try_loads json_loads tagged = inr None ->
   _parse_json json_loads tagged = inr v /\
   OpenAIClient._parse_json json_loads tagged = inr v) /\
  (try_loads json_loads plain = inr None ->
   try_loads_at json_loads (fenced_interior Regex.fence_json plain) = inr None ->
   _parse_json json_loads plain = inr v).
Proof.
  intros tagged plain Hpre Hpay Hws1 Hws2 Hhead Hlast Hv.
  assert (Ht : fenced_interior Regex.fence_json tagged = Some payload)
    by (apply (fenced_block_interior 96 (skipn 1 Regex.fence_json)); assumption).
  assert (Hp : fenced_interior Regex.fence plain = Some payload)
    by (apply (fenced_block_interior 96 [96; 96]%N); assumption).
  assert (Hpayload : try_loads json_loads payload = inr (Some v))
    by (unfold try_loads; rewrite Hv; reflexivity).
  split; [ exact Ht | split; [ exact Hp | split ] ].
  - intros Hnone. split.
    + rewrite parse_json_is_normalize. unfold normalize, candidates.
      cbn [first_success try_loads_at]. rewrite Hnone, Ht.
      cbn [try_loads_at]. rewrite Hpayload. reflexivity.
    + unfold OpenAIClient._parse_json. cbv zeta.
      rewrite Hnone, search_is_fenced_interior, Ht.
      cbn [try_loads_at]. rewrite Hpayload. reflexivity.
  - intros Hnone Hj. rewrite parse_json_is_normalize. unfold normalize, candidates.
    unfold first_success. rewrite Hj, Hp. cbn [try_loads_at]. rewrite Hnone, Hpayload.
    reflexivity.
Qed.

Lemma find_skip (b : N) (pre rest : str) :
  contains [b] pre = false -> find [b] (pre ++ b :: rest) = Z.of_nat (length pre).
Proof.
  induction pre as [|c pre IH].
  - intros _. cbn [app find starts_with]. rewrite N.eqb_refl. reflexivity.
  - rewrite contains_char_cons. intros [Hb Hpre]%orb_false_iff.
    change ((c :: pre) ++ b :: rest) with (c :: (pre ++ b :: rest)).
    cbn [find starts_with]. rewrite Hb. cbn [andb]. rewrite (IH Hpre).
    cbv zeta. destruct (Z.ltb_spec (Z.of_nat (length pre)) 0); cbn [length]; lia.
Qed.

Lemma rfind_absent (b : N) (s : str) : contains [b] s = false -> rfind [b] s = -1.
Proof.
  induction s as [|c s IH]; [ reflexivity | ].
  rewrite contains_char_cons. intros [Hb Hs]%orb_false_iff.
  cbn [rfind starts_with]. rewrite (IH Hs), Hb. reflexivity.
Qed.

Lemma rfind_skip (b : N) (l post : str) :
  contains [b] post = false -> rfind [b] (l ++ b :: post) = Z.of_nat (length l).
Proof.
  intros Hpost. induction l as [|c l IH].
  - cbn [app rfind starts_with]. rewrite (rfind_absent _ _ Hpost), N.eqb_refl. reflexivity.
  - change ((c :: l) ++ b :: post) with (c :: (l ++ b :: post)).
    cbn [rfind]. rewrite IH. cbv zeta.
    destruct (Z.leb_spec 0 (Z.of_nat (length l))); cbn [length]; lia.
Qed.

Lemma brace_span_braces (pre body post : str) :
  contains [123%N] pre = false -> contains [125%N] post = false ->
  brace_span (pre ++ 123%N :: body ++ 125%N :: post) = Some (123%N :: body ++ [125%N]).
Proof.
  intros Hpre Hpost. unfold brace_span, open_brace, close_brace.
  rewrite (find_skip 123 pre _ Hpre).
  replace (pre ++ 123%N :: body ++ 125%N :: post)
    with ((pre ++ 123%N :: body) ++ 125%N :: post)
    by (rewrite <- app_assoc; reflexivity).
  rewrite (rfind_skip 125 _ post Hpost). cbv zeta.
  replace ((0 <=? Z.of_nat (length pre)) && (0 <=? Z.of_nat (length (pre ++ 123%N :: body))))
    with true by (symmetry; apply andb_true_iff; split; apply Z.leb_le; lia).
  f_equal. unfold slice. rewrite Nat2Z.id, <- app_assoc, drop_app_length.
  rewrite length_app. cbn [length].
  replace (Z.to_nat (Z.of_nat (length pre + S (length body)) + 1 - Z.of_nat (length pre)))
    with (length (123%N :: body ++ [125%N]))
    by (cbn [length]; rewrite length_app; cbn [length]; lia).
  replace ((123%N :: body) ++ 125%N :: post) with ((123%N :: body ++ [125%N]) ++ post)
    by (cbn [app]; rewrite <- app_assoc; reflexivity).
  apply take_app_length.
Qed.

(** X18. A payload in braces with prose around it, no opening brace before it
    and no closing brace after it, is the span that the last step of
    [_parse_json] extracts; when the text contains no fence and is rejected
    as not being JSON itself, [_parse_json] of all three clients returns the
    decoded payload. *)
Theorem braced_payload_is_recovered (pre body post : str) (v : pyval) :
  let payload := open_brace ++ body ++ close_brace in
  let text := pre ++ payload ++ post in
  contains open_brace pre = false ->
  contains close_brace post = false ->
  brace_span text = Some payload /\
  (contains Regex.fence text = false ->
   try_loads json_loads text = inr None ->
   json_loads payload = inr v ->
   _parse_json json_loads text = inr v /\
   OpenAIClient._parse_json json_loads text = inr v).
Proof.
  intros payload text Hpre Hpost.
  assert (Hspan : brace_span text = Some payload).
  { subst text payload. unfold open_brace, close_brace in *.
    transitivity (brace_span (pre ++ 123%N :: body ++ 125%N :: post)).
    - f_equal. rewrite <- !app_assoc. reflexivity.
    - apply brace_span_braces; assumption. }
  split; [ exact Hspan | ].
  intros Hfence Hnone Hv.
  assert (Hpayload : try_loads json_loads payload = inr (Some v))
    by (unfold try_loads; rewrite Hv; reflexivity).
  assert (Hno : forall opener, fenced_interior (Regex.fence ++ opener) text = None).
  { intros opener. unfold fenced_interior.
    destruct (after (Regex.fence ++ opener) text) as [rest|] eqn:Ha; [ | reflexivity ].
    cbn [mbind option_bind].
    destruct (after_is_drop _ _ _ Ha) as [k ->].
    destruct (before Regex.fence (lstrip _)) as [b|] eqn:Hb; [ | reflexivity ].
    exfalso.
    assert (Hc : contains Regex.fence (lstrip (drop (k + length (Regex.fence ++ opener)) text))
                 = true).
    { destruct (contains Regex.fence (lstrip (drop (k + length (Regex.fence ++ opener)) text)))
        eqn:Hc; [ reflexivity | ].
      apply before_none_iff in Hc. rewrite Hc in Hb. discriminate Hb. }
    rewrite (contains_lstrip _ _ fence_head_solid) in Hc.
    apply contains_drop in Hc. rewrite Hc in Hfence. discriminate Hfence. }
  pose proof (Hno []) as Hplain. rewrite app_nil_r in Hplain.
  pose proof (Hno (py "json")) as Htag.
  change (Regex.fence ++ py "json") with Regex.fence_json in Htag.
  split.
  - rewrite parse_json_is_normalize. unfold normalize, candidates.
    cbn [first_success try_loads_at]. rewrite Hnone, Htag, Hplain, Hspan.
    cbn [try_loads_at]. rewrite Hpayload. reflexivity.
  - rewrite openai_parse_json_is_first_success.
    unfold candidates_tagged_only. cbn [first_success try_loads_at].
    rewrite Hnone, Htag, Hspan. cbn [try_loads_at]. rewrite Hpayload. reflexivity.
Qed.

End Extraction.

(* ===================================================================== *)
(** * Further properties of the problem library *)
(* ===================================================================== *)

Section LibraryFacts.

Variable lower : str -> str.




(** X20. [get_problem_by_title] returns the first problem, in the order in
    which the library holds them, whose lower-cased title contains the
    lower-cased query; it returns [None] exactly when no title does; and a
    query that lower-cases to the empty string selects the first problem of
    the library. *)
Theorem title_search_returns_first_match (query : str) (lib : ProblemLibrary.t) :
  (forall p, ProblemLibrary.get_problem_by_title lower query lib = Some p ->
     exists before_ key after_,
       lib = before_ ++ (key, p) :: after_ /\
       contains (lower query) (lower (title p)) = true /\
       Forall (fun kp => contains (lower query) (lower (title (snd kp))) = false) before_) /\
  (ProblemLibrary.get_problem_by_title lower query lib = None <->
     Forall (fun kp => contains (lower query) (lower (title (snd kp))) = false) lib) /\
  (lower query = [] ->
     ProblemLibrary.get_problem_by_title lower query lib = snd <$> head lib).
Proof.
  unfold ProblemLibrary.get_problem_by_title.
  split; [ | split ].
  - induction lib as [|[k q] lib IH]; intros p; cbn [List.find snd]; [ discriminate | ].
    destruct (contains (lower query) (lower (title q))) eqn:Hq.
    + intros [= <-]. exists [], k, lib. repeat split; [ exact Hq | constructor ].
    + intros Hf. destruct (IH p Hf) as (b & key & a & -> & Hp & Hb).
      exists ((k, q) :: b), key, a. repeat split; [ exact Hp | constructor; assumption ].
  - induction lib as [|[k q] lib IH]; cbn [List.find snd].
    + split; [ constructor | reflexivity ].
    + destruct (contains (lower query) (lower (title q))) eqn:Hq.
      * split; [ discriminate | ]. intros Hall. inversion Hall as [|? ? Hh _]; subst.
        cbn [snd] in Hh. congruence.
      * rewrite IH. split; [ intros; constructor; assumption | ].
        intros Hall. inversion Hall; assumption.
  - intros ->. destruct lib as [|[k q] lib]; [ reflexivity | ].
    cbn [List.find snd]. rewrite contains_empty. reflexivity.
Qed.

End LibraryFacts.

(* ===================================================================== *)
(** * Further properties of the mock client *)
(* ===================================================================== *)

Section MockFacts.

Variable lower : str -> str.

Lemma find_set_hit (key prompt : str) (r : pyval) (d : odict pyval) :
  contains (lower key) (lower prompt) = true ->
  Forall (fun kr => fst kr = key \/ contains (lower (fst kr)) (lower prompt) = false) d ->
  List.find (fun kr => contains (lower (fst kr)) (lower prompt)) (odict_set key r d)
    = Some (key, r).
Proof.
  intros Hkey. induction 1 as [|[k v] d Hk _ IH]; cbn [odict_set List.find fst].
  - rewrite Hkey. reflexivity.
  - unfold str_eqb. destruct (decide (k = key)) as [->|Hne].
    + rewrite bool_decide_eq_true_2 by reflexivity. cbn [List.find fst].
      rewrite Hkey. reflexivity.
    + rewrite bool_decide_eq_false_2 by exact Hne. cbn [List.find fst].
      destruct Hk as [Hk|Hk]; [ contradiction | ]. cbn [fst] in Hk. rewrite Hk. exact IH.
Qed.

Lemma find_set_miss (key prompt : str) (r : pyval) (d : odict pyval) :
  contains (lower key) (lower prompt) = false ->
  List.find (fun kr => contains (lower (fst kr)) (lower prompt)) (odict_set key r d)
    = List.find (fun kr => contains (lower (fst kr)) (lower prompt)) d.
Proof.
  intros Hkey. induction d as [|[k v] d IH]; cbn [odict_set List.find fst].
  - rewrite Hkey. reflexivity.
  - unfold str_eqb. destruct (decide (k = key)) as [->|Hne].
    + rewrite bool_decide_eq_true_2 by reflexivity. cbn [List.find fst].
      rewrite Hkey. reflexivity.
    + rewrite bool_decide_eq_false_2 by exact Hne. cbn [List.find fst].
      destruct (contains (lower k) (lower prompt)); [ reflexivity | exact IH ].
Qed.

(** X21. A custom response of the mock client answers every prompt whose
    lower-cased text contains its lower-cased key, unless an entry set
    earlier matches too: after [set_response(key, r)] such a prompt gets [r]
    when no other key matches it, a prompt that the key does not match gets
    what it got before, and in general the first matching entry in insertion
    order wins, before any default. *)
Theorem mock_custom_response_round_trip (m : MockLLMClient.t) (key prompt : str)
    (r : pyval) :
  (contains (lower key) (lower prompt) = true ->
   Forall (fun kr => fst kr = key \/ contains (lower (fst kr)) (lower prompt) = false)
     (MockLLMClient.responses m) ->
   MockLLMClient._get_mock_response lower (MockLLMClient.set_response key r m) prompt = r) /\
  (contains (lower key) (lower prompt) = false ->
   MockLLMClient._get_mock_response lower (MockLLMClient.set_response key r m) prompt
     = MockLLMClient._get_mock_response lower m prompt) /\
  (forall v, List.find (fun kr => contains (lower (fst kr)) (lower prompt)) (MockLLMClient.responses m)
               = Some v ->
   MockLLMClient._get_mock_response lower m prompt = snd v).
Proof.
  split; [ | split ].
  - intros Hkey Hall. unfold MockLLMClient._get_mock_response, MockLLMClient.set_response. cbn [MockLLMClient.responses].
    rewrite (find_set_hit _ _ _ _ Hkey Hall). reflexivity.
  - intros Hkey. unfold MockLLMClient._get_mock_response, MockLLMClient.set_response. cbn [MockLLMClient.responses].
    rewrite (find_set_miss _ _ _ _ Hkey). reflexivity.
  - intros [k v] Hfind. unfold MockLLMClient._get_mock_response. rewrite Hfind. reflexivity.
Qed.

(** X22. Every prompt that contains the system instruction of the prompt
    library mentions teaching. So, when no custom
    response matches, the mock client answers it with a code evaluation, a
    follow-up evaluation, the follow-up question or the teaching text, and
    never with its default guidance, help or intent response, which are
    looked up only after the teaching one. *)
Theorem mock_defaults_on_library_prompts (m : MockLLMClient.t) (before_ after_ : str) :
  let prompt := before_ ++ _build_system_instruction ++ after_ in
  Forall (fun kr => contains (lower (fst kr)) (lower prompt) = false) (MockLLMClient.responses m) ->
  In (MockLLMClient._get_mock_response lower m prompt) teaching_or_earlier /\
  Forall (fun v => ~ In v teaching_or_earlier) after_teaching.
Proof.
  intros prompt Hnone.
  assert (Hteach : contains (py "教学") prompt = true).
  { subst prompt. apply contains_app_r, contains_app_l. vm_compute; reflexivity. }
  clearbody prompt.
  split.
  - unfold MockLLMClient._get_mock_response.
    replace (List.find _ (MockLLMClient.responses m)) with (@None (str * pyval)).
    2:{ symmetry. clear Hteach. induction Hnone as [|[k v] d Hk _ IH]; [ reflexivity | ].
        cbn [List.find fst] in *. rewrite Hk. exact IH. }
    (cbv zeta; rewrite Hteach; cbn [orb]).
    (unfold teaching_or_earlier; cbn [fmap list_fmap In]).
    repeat match goal with
           | |- context [ MockLLMClient.default_response ?k ] =>
             let d := fresh "d" in set (d := MockLLMClient.default_response k); clearbody d
           end.
    (repeat match goal with
           | |- context [ if ?b then _ else _ ] => destruct b
           end).
    all: auto 10.
  - unfold after_teaching, teaching_or_earlier. cbn [fmap list_fmap].
    repeat constructor; intros Hin; cbn [In] in Hin;
      repeat match type of Hin with
             | _ \/ _ => destruct Hin as [Hin|Hin]
             end; try contradiction;
      apply (f_equal (fun v => match v with
                               | PDict d => Some (bool_decide (is_Some (d !! py "evaluation")),
                                                  bool_decide (is_Some (d !! py "answer_quality")),
                                                  bool_decide (is_Some (d !! py "question")))
                               | _ => None
                               end)) in Hin;
      vm_compute in Hin; discriminate Hin.
Qed.

Variable json_dumps : Dict -> str.
Variable json_loads : str -> exn + pyval.

(** X23. [MockLLMClient.call_json] records the call (prompt and system
    prompt) at the end of the history and leaves the custom responses alone,
    whatever comes out. A [dict] response is dumped and parsed back; a text
    response that parses is returned decoded, one that is rejected as not
    being JSON is wrapped as [{"reply": text}], and one on which
    [json.loads] raises another exception makes the call raise it; a
    response that is neither a [dict] nor text makes [json.loads] raise
    [TypeError]. *)
Theorem mock_call_json_outcomes (m : MockLLMClient.t) (prompt : str)
    (system_prompt : option str) :
  let r := MockLLMClient._get_mock_response lower m prompt in
  let out := MockLLMClient.call_json lower json_dumps json_loads prompt system_prompt m in
  MockLLMClient.call_history (snd out) = MockLLMClient.call_history m ++ [(prompt, system_prompt)] /\
  MockLLMClient.responses (snd out) = MockLLMClient.responses m /\
  (forall d v, r = PDict d -> json_loads (json_dumps d) = inr v -> fst out = inr v) /\
  (forall text v, r = PStr text -> json_loads text = inr v -> fst out = inr v) /\
  (forall text e, r = PStr text -> json_loads text = inl e ->
     fst out = if is_JSONDecodeError e then inr (PDict {[ py "reply" := PStr text ]})
               else inl e) /\
  ((forall d, r <> PDict d) -> (forall text, r <> PStr text) ->
     exists msg, fst out = inl (TypeError msg)).
Proof.
  cbv zeta. unfold MockLLMClient.call_json, MockLLMClient.call. cbv zeta.
  change (MockLLMClient._get_mock_response lower
            {| MockLLMClient.responses := MockLLMClient.responses m;
               MockLLMClient.call_history := MockLLMClient.call_history m ++ [(prompt, system_prompt)] |} prompt)
    with (MockLLMClient._get_mock_response lower m prompt).
  cbn [fst snd MockLLMClient.call_history MockLLMClient.responses].
  split; [ reflexivity | split; [ reflexivity | ] ].
  unfold try_loads.
  destruct (MockLLMClient._get_mock_response lower m prompt) as [| | | |text|l|d];
    (split; [ | split; [ | split ] ]).
  all: first
    [ solve [ intros ? ? [= <-] ->; reflexivity ]
    | solve [ intros ? ? [= <-] ->; destruct (is_JSONDecodeError _); reflexivity ]
    | solve [ intros Hd Ht;
              first [ exfalso; exact (Hd _ eq_refl)
                    | exfalso; exact (Ht _ eq_refl)
                    | eexists; reflexivity ] ] ].
Qed.

End MockFacts.

(* ===================================================================== *)
(** * Worked instances *)
(* ===================================================================== *)

(** ** Where two claims fail as stated *)

(** C1, as stated, fails: with [asked = 2] of [3] and an evaluation that is
    [good] and carries no [next_question], the reply comes back unchanged,
    the tracker still says [2] and the phase is still [FOLLOWUP]. *)
Lemma no_next_question_keeps_followup_open :
  let out := stub_process_input (py "s1") (py "It is O(n).")
               (engine_with [Json good_answer]
                  (session_in FOLLOWUP GuidanceState_.new two_asked)) in
  fst out = inr (PStr (py "Good.")) /\
  (phase <$> sessions (snd out) !! py "s1") = Some FOLLOWUP /\
  (followup_state <$> sessions (snd out) !! py "s1") = Some two_asked /\
  ~ ((phase <$> sessions (snd out) !! py "s1") = Some COMPLETED).
Proof.
  cbv zeta. split; [ | split; [ | split ] ]; vm_compute; try reflexivity.
  discriminate.
Qed.

(** C2, as stated, fails: the collaborator call of a [TEACHING] turn raises,
    the exception reaches the caller, and the transcript has nevertheless
    grown by the user's message. *)
Lemma failed_turn_commits_user_message :
  let s := session_in TEACHING GuidanceState_.new FollowUpState_.new in
  let out := stub_process_input (py "s1") (py "why?") (engine_with [Fails timeout_error] s) in
  fst out = inl timeout_error /\
  (messages <$> sessions (snd out) !! py "s1")
    = Some [ {| role := py "user"; content := PStr (py "why?") |} ] /\
  ~ ((messages <$> sessions (snd out) !! py "s1") = Some (messages s)).
Proof.
  cbv zeta. split; [ vm_compute; reflexivity | split; [ vm_compute; reflexivity | ] ].
  vm_compute. discriminate.
Qed.

(** ** Instances of the theorems that have hypotheses *)

Lemma followup_answer_instance :
  exists s',
    sessions (snd (stub_process_input (py "s1") (py "It is O(n).")
                     (engine_with [Json good_answer_next]
                        (session_in FOLLOWUP GuidanceState_.new two_asked)))) !! py "s1"
      = Some s' /\
    phase s' = COMPLETED /\ questions_asked (followup_state s') = 3.
Proof.
  destruct (followup_answer_at_two_of_three ascii_lower (fun _ => []) stub_prompts
              (py "s1") (py "It is O(n).")
              (engine_with [Json good_answer_next]
                 (session_in FOLLOWUP GuidanceState_.new two_asked))
              (session_in FOLLOWUP GuidanceState_.new two_asked)
              (py "followup-eval:两数之和 (Two Sum)") good_answer_next [])
    as (s' & Hs' & Hyes & _).
  - vm_compute. reflexivity.
  - reflexivity.
  - reflexivity.
  - reflexivity.
  - vm_compute. reflexivity.
  - reflexivity.
  - exists s'. split; [ exact Hs' | ].
    destruct Hyes as (Hp & _ & Ha & _); [ vm_compute; reflexivity | ].
    split; assumption.
Defined.

Lemma rejected_code_instance :
  let w := {| w_session := session_in GUIDING
                             {| attempt_count := 3; max_attempts := 5;
                                current_hint_level := 2;
                                topics_covered := [py "hash map"] |}
                             FollowUpState_.new;
              w_llm := [Json {[ py "evaluation" := PStr (py "partial");
                                py "reply" := PStr (py "Not yet.") ]}];
              w_calls := [] |} in
  let out := _evaluate_and_respond (fun _ => []) stub_prompts (py "def f(): pass") w in
  fst out = inr (PStr (py "Not yet.")) /\
  phase (w_session (snd out)) = GUIDING /\
  guidance_state (w_session (snd out))
    = {| attempt_count := 0; max_attempts := 5; current_hint_level := 1;
         topics_covered := [] |}.
Proof.
  intros w out.
  destruct (rejected_code_enters_guidance (fun _ => []) stub_prompts
              (py "def f(): pass") w (py "evaluate:两数之和 (Two Sum)")
              {[ py "evaluation" := PStr (py "partial"); py "reply" := PStr (py "Not yet.") ]}
              [])
    as (Hout & Hphase & _ & Hreset & _).
  - vm_compute. reflexivity.
  - reflexivity.
  - vm_compute. discriminate.
  - split; [ | split; [ exact Hphase | exact Hreset ] ].
    subst out. rewrite Hout. vm_compute. reflexivity.
Defined.

Lemma correct_code_instance :
  fst (_evaluate_and_respond (fun _ => []) stub_prompts (py "def f(): pass")
         {| w_session := session_in WAITING_CODE GuidanceState_.new FollowUpState_.new;
            w_llm := [ Json {[ py "evaluation" := PStr (py "correct");
                               py "reply" := PStr (py "Correct!") ]};
                       Json {[ py "question" := PStr (py "Why O(n)?") ]} ];
            w_calls := [] |})
    = inr (PStr (py "Correct!" ++ [NL; NL] ++ py "Why O(n)?")).
Proof.
  refine (proj2 (proj2 (proj2 (proj2 (proj2 (correct_code_enters_followup (fun _ => [])
            stub_prompts (py "def f(): pass") _ (py "evaluate:两数之和 (Two Sum)")
            {[ py "evaluation" := PStr (py "correct"); py "reply" := PStr (py "Correct!") ]}
            [ Json {[ py "question" := PStr (py "Why O(n)?") ]} ] _ _ _))
            (py "followup:两数之和 (Two Sum)")
            {[ py "question" := PStr (py "Why O(n)?") ]} [] _ _)))
            (py "Correct!") (py "Why O(n)?") _ _).
  - vm_compute. reflexivity.
  - reflexivity.
  - vm_compute. reflexivity.
  - vm_compute. reflexivity.
  - reflexivity.
  - vm_compute. reflexivity.
  - vm_compute. reflexivity.
Defined.

Lemma absorbing_instance :
  exists s',
    sessions (snd (stub_process_input (py "s1") (py "one more question")
                     (engine_with [Text (py "Sure.")]
                        (session_in TEACHING GuidanceState_.new FollowUpState_.new))))
      !! py "s1" = Some s' /\
    phase s' = TEACHING.
Proof.
  destruct (absorbing_phases ascii_lower (fun _ => []) stub_prompts
              (py "s1") (py "one more question")
              (engine_with [Text (py "Sure.")]
                 (session_in TEACHING GuidanceState_.new FollowUpState_.new))
              (session_in TEACHING GuidanceState_.new FollowUpState_.new))
    as (s' & Hs' & Hp & _).
  - vm_compute. reflexivity.
  - left. reflexivity.
  - exists s'. split; [ exact Hs' | exact Hp ].
Defined.

Lemma all_sessions_singleton (P : Session -> Prop) (script : list canned) (s : Session) :
  P s -> all_sessions P (engine_with script s).
Proof.
  intros Hs sid s0. unfold engine_with. cbn [sessions].
  intros [_ <-]%lookup_singleton_Some. exact Hs.
Defined.

Lemma guidance_invariant_instance :
  exists s',
    sessions (snd (stub_process_input (py "s1") (py "two loops")
                     (engine_with
                        [ Json {[ py "intent" := PStr (py "answer_question") ]};
                          Json {[ py "user_on_right_track" := PBool false;
                                  py "reply" := PStr (py "Think again.") ]} ]
                        (session_in GUIDING
                           {| attempt_count := 2; max_attempts := 5;
                              current_hint_level := 1; topics_covered := [] |}
                           FollowUpState_.new)))) !! py "s1" = Some s' /\
    attempt_count (guidance_state s') = 3 /\
    current_hint_level (guidance_state s') = 2.
Proof.
  set (g := {| attempt_count := 2; max_attempts := 5; current_hint_level := 1;
               topics_covered := [] |}).
  set (script := [ Json {[ py "intent" := PStr (py "answer_question") ]};
                   Json {[ py "user_on_right_track" := PBool false;
                           py "reply" := PStr (py "Think again.") ]} ]).
  destruct (guidance_tracker_invariant ascii_lower (fun _ => []) stub_prompts
              (engine_with script (session_in GUIDING g FollowUpState_.new)))
    as (_ & _ & _ & _ & _ & Hcount & _).
  - apply all_sessions_singleton. unfold guidance_inv. cbn. lia.
  - destruct (Hcount (py "s1") (py "two loops") (session_in GUIDING g FollowUpState_.new)
                ANSWER_QUESTION (PStr [])
                {| w_session := Session_.add_message (py "user") (PStr (py "two loops"))
                                  (session_in GUIDING g FollowUpState_.new);
                   w_llm := [ Json {[ py "user_on_right_track" := PBool false;
                                      py "reply" := PStr (py "Think again.") ]} ];
                   w_calls := [ (py "intent:两数之和 (Two Sum)", None) ] |}
                (py "guide:两数之和 (Two Sum)")
                {[ py "user_on_right_track" := PBool false;
                   py "reply" := PStr (py "Think again.") ]} [])
      as (s' & Hs' & Hattempts & Hlevel & _).
    + vm_compute. reflexivity.
    + reflexivity.
    + reflexivity.
    + vm_compute. reflexivity.
    + discriminate.
    + discriminate.
    + vm_compute. reflexivity.
    + reflexivity.
    + exists s'. split; [ exact Hs' | split; [ exact Hattempts | exact Hlevel ] ].
Defined.

Lemma followup_invariant_instance :
  all_sessions (fun s => followup_inv (followup_state s))
    (snd (stub_process_input (py "s1") (py "It is O(n).")
            (engine_with [Json good_answer_next]
               (session_in FOLLOWUP GuidanceState_.new two_asked)))).
Proof.
  refine (proj1 (proj2 (proj2 (followup_tracker_invariant ascii_lower (fun _ => [])
            stub_prompts _ _))) _ _).
  apply all_sessions_singleton. unfold followup_inv. cbn. lia.
Defined.

(** ** Instances of the other theorems *)

Lemma keyword_tiers_instance :
  fst (_recognize_intent ascii_lower stub_prompts (py "Please SKIP this one")
         {| w_session := session_in WAITING_CODE GuidanceState_.new FollowUpState_.new;
            w_llm := [];
            w_calls := [] |})
    = inr (SKIP_PROBLEM, PStr []).
Proof.
  rewrite (proj1 (keyword_tiers ascii_lower stub_prompts (py "Please SKIP this one")
                    {| w_session := session_in WAITING_CODE GuidanceState_.new
                                      FollowUpState_.new;
                       w_llm := [];
                       w_calls := [] |})).
  - reflexivity.
  - vm_compute. reflexivity.
Defined.

Lemma parse_json_instance :
  _parse_json tiny_loads (py "Here you are: ```json {} ``` Anything else?") = inr (PDict ∅) /\
  _parse_json tiny_loads deep_text = inl recursion_error.
Proof.
  split.
  - apply (proj1 (proj2 (proj2 (parse_json_first_success tiny_loads
                           (py "Here you are: ```json {} ``` Anything else?"))))).
    vm_compute. reflexivity.
  - apply (proj1 (proj2 (proj2 (proj2 (proj2 (parse_json_first_success tiny_loads
                                                deep_text)))))).
    + vm_compute. reflexivity.
    + reflexivity.
Defined.

Lemma failure_propagates_instance :
  let out := stub_process_input (py "s1") (py "def f(): pass")
               (engine_with [ Json {[ py "evaluation" := PStr (py "correct") ]};
                              Fails timeout_error ]
                  (session_in WAITING_CODE GuidanceState_.new two_asked)) in
  fst out = inl timeout_error /\
  sessions (snd out) !! py "s1"
    = Some {| session_id := py "s1"; problem := Some TWO_SUM; phase := FOLLOWUP;
              messages := [ {| role := py "user"; content := PStr (py "def f(): pass") |} ];
              user_code := Some (py "def f(): pass");
              guidance_state := GuidanceState_.new;
              followup_state := FollowUpState_.new |}.
Proof.
  set (s := session_in WAITING_CODE GuidanceState_.new two_asked).
  set (script := [ Json {[ py "evaluation" := PStr (py "correct") ]}; Fails timeout_error ]).
  destruct (proj1 (proj2 (proj2 (failure_propagates_user_message_kept ascii_lower
                                   (fun _ => []) stub_prompts (py "s1") (py "def f(): pass")
                                   (engine_with script s))))
              s SUBMIT_CODE (PStr [])
              {| w_session := Session_.add_message (py "user") (PStr (py "def f(): pass")) s;
                 w_llm := script; w_calls := [] |})
    as (_ & Hkept & _).
  - vm_compute. reflexivity.
  - left. reflexivity.
  - vm_compute. reflexivity.
  - exact (Hkept (py "evaluate:两数之和 (Two Sum)")
                 {[ py "evaluation" := PStr (py "correct") ]} [Fails timeout_error]
                 (py "followup:两数之和 (Two Sum)") timeout_error []
                 eq_refl eq_refl eq_refl eq_refl eq_refl eq_refl).
Defined.

Lemma guiding_turn_instance :
  _handle_guiding ascii_lower (fun _ => []) stub_prompts (py "no idea")
    {| w_session := session_in GUIDING
                      {| attempt_count := 4; max_attempts := 5; current_hint_level := 3;
                         topics_covered := [] |} FollowUpState_.new;
       w_llm := [ Json {[ py "intent" := PStr (py "answer_question") ]};
                  Json {[ py "user_on_right_track" := PBool false ]};
                  Text (py "Here is the solution.") ];
       w_calls := [] |}
  = (inr (PStr (py "Here is the solution.")),
     {| w_session := session_in TEACHING
                       {| attempt_count := 5; max_attempts := 5; current_hint_level := 3;
                          topics_covered := [] |} FollowUpState_.new;
        w_llm := [];
        w_calls := [ (py "intent:两数之和 (Two Sum)", None);
                     (py "guide:两数之和 (Two Sum)", None);
                     (py "teach:两数之和 (Two Sum)", None) ] |}).
Proof.
  refine (proj2 (proj2 (proj2 (proj2 (guiding_turn ascii_lower (fun _ => []) stub_prompts
            (py "no idea") _)
            ANSWER_QUESTION (PStr [])
            {| w_session := session_in GUIDING
                 {| attempt_count := 4; max_attempts := 5; current_hint_level := 3;
                    topics_covered := [] |} FollowUpState_.new;
               w_llm := [ Json {[ py "user_on_right_track" := PBool false ]};
                          Text (py "Here is the solution.") ];
               w_calls := [ (py "intent:两数之和 (Two Sum)", None) ] |}
            (py "guide:两数之和 (Two Sum)")
            {[ py "user_on_right_track" := PBool false ]}
            [ Text (py "Here is the solution.") ] _ _ _ _ _ _)) _ _)
            (py "teach:两数之和 (Two Sum)") (py "Here is the solution.") [] _ _).
  - reflexivity.
  - vm_compute. reflexivity.
  - discriminate.
  - discriminate.
  - vm_compute. reflexivity.
  - reflexivity.
  - vm_compute. reflexivity.
  - reflexivity.
  - vm_compute. reflexivity.
  - reflexivity.
Defined.

(** ** Payloads *)

(** A payload in an untagged fence is found by the second search; in a fence
    with another tag the interior starts with the tag, does not parse, and the
    brace span finds the payload. *)
Example untagged_fence_payload :
  fenced_interior Regex.fence_json (py "Result: ``` {} ``` Bye") = None /\
  fenced_interior Regex.fence (py "Result: ``` {} ``` Bye") = Some (py "{}") /\
  _parse_json tiny_loads (py "Result: ``` {} ``` Bye") = inr (PDict ∅).
Proof. split; [ | split ]; vm_compute; reflexivity. Qed.

Example other_tag_payload :
  fenced_interior Regex.fence (py "```js {} ```") = Some (py "js {}") /\
  brace_span (py "```js {} ```") = Some (py "{}") /\
  _parse_json tiny_loads (py "```js {} ```") = inr (PDict ∅).
Proof. split; [ | split ]; vm_compute; reflexivity. Qed.

(** With a closing brace before the opening one the span is empty and the
    text falls through to the fallback. *)
Example braces_out_of_order :
  brace_span (py "} and {") = Some [] /\
  _parse_json tiny_loads (py "} and {") =
    inr (PDict {[ py "reply" := PStr (py "} and {");
                  py "error" := PStr (py "json_parse_failed") ]}).
Proof. split; vm_compute; reflexivity. Qed.

(** ** Dialogues *)

(** Assigning "Two Sum" to a new session: the opening names the problem and
    the session waits for code. *)
Example opening_names_the_problem :
  let eng := snd (create_session (py "s1") [] (empty_engine [])) in
  let out := set_problem (py "s1") TWO_SUM eng in
  match fst out with
  | inr opening => contains (title TWO_SUM) opening
  | inl _ => false
  end = true /\
  (phase <$> sessions (snd out) !! py "s1") = Some WAITING_CODE.
Proof. cbv zeta. split; vm_compute; reflexivity. Qed.

(** Code judged correct: the session enters [FOLLOWUP] and the reply ends
    with the generated question. *)
Example correct_code_dialogue :
  let out := stub_process_input (py "s1") (py "def two_sum(nums, target): seen = {}")
               (engine_with [ Json {[ py "evaluation" := PStr (py "correct");
                                      py "reply" := PStr (py "Correct!") ]};
                              Json {[ py "question" := PStr (py "Why O(n)?") ]} ]
                  (session_in WAITING_CODE GuidanceState_.new FollowUpState_.new)) in
  fst out = inr (PStr (py "Correct!" ++ [NL; NL] ++ py "Why O(n)?")) /\
  (phase <$> sessions (snd out) !! py "s1") = Some FOLLOWUP.
Proof. cbv zeta. split; vm_compute; reflexivity. Qed.

(** A skip while waiting for code: a short explanation, then [COMPLETED]. *)
Example skip_dialogue :
  let out := stub_process_input (py "s1") (py "skip")
               (engine_with [ Text (py "Use a hash map.") ]
                  (session_in WAITING_CODE GuidanceState_.new FollowUpState_.new)) in
  contains (py "Use a hash map.") (reply_text (fst out)) = true /\
  (phase <$> sessions (snd out) !! py "s1") = Some COMPLETED.
Proof. cbv zeta. split; vm_compute; reflexivity. Qed.

(** A help request followed by guided turns that never get on the right
    track: the help turn counts as the first attempt, the fourth guided turn
    is the fifth, and its reply is the teaching content. *)
Example guidance_runs_out :
  let off_track := Json {[ py "user_on_right_track" := PBool false;
                           py "reply" := PStr (py "Think again.") ]} in
  let answering := Json {[ py "intent" := PStr (py "answer_question") ]} in
  let out := stub_turns (py "s1")
               [ py "I am stuck, give me a hint";
                 py "two loops"; py "sorting"; py "recursion"; py "no idea" ]
               (engine_with
                  [ Json {[ py "reply" := PStr (py "What do you look up?") ]};
                    answering; off_track; answering; off_track; answering; off_track;
                    answering; off_track; Text (py "Here is the solution.") ]
                  (session_in WAITING_CODE GuidanceState_.new FollowUpState_.new)) in
  List.map reply_text (fst out)
    = [ py "What do you look up?"; py "Think again."; py "Think again."; py "Think again.";
        py "Here is the solution." ] /\
  (phase <$> sessions (snd out) !! py "s1") = Some TEACHING /\
  (attempt_count ∘ guidance_state <$> sessions (snd out) !! py "s1") = Some 5.
Proof. cbv zeta. split; [ | split ]; vm_compute; reflexivity. Qed.

(** ** Instances of the further properties *)

Lemma set_problem_instance :
  exists opening s',
    set_problem (py "s1") TWO_SUM
      (engine_with [] (session_in FOLLOWUP GuidanceState_.new two_asked))
    = (inr opening,
       {| llm := []; calls := [];
          sessions := <[ py "s1" := s' ]>
                        {[ py "s1" := session_in FOLLOWUP GuidanceState_.new two_asked ]} |}) /\
    phase s' = WAITING_CODE /\ followup_state s' = two_asked.
Proof.
  destruct (proj2 (set_problem_restarts_the_phase_only (py "s1") TWO_SUM
                     (engine_with [] (session_in FOLLOWUP GuidanceState_.new two_asked)))
              (session_in FOLLOWUP GuidanceState_.new two_asked))
    as (opening & s' & Hrun & _ & _ & _ & Hph & _ & _ & _ & _ & _ & Hf).
  - vm_compute. reflexivity.
  - exists opening, s'. split; [ exact Hrun | split; [ exact Hph | exact Hf ] ].
Defined.


Lemma phase_graph_instance :
  exists s',
    sessions (snd (stub_process_input (py "s1") (py "skip")
                     (engine_with [Text (py "Use a hash map.")]
                        (session_in WAITING_CODE GuidanceState_.new FollowUpState_.new))))
      !! py "s1" = Some s' /\
    phase_step WAITING_CODE (phase s') = true.
Proof.
  refine (turn_follows_phase_graph ascii_lower (fun _ => []) stub_prompts
            (py "s1") (py "skip")
            (engine_with [Text (py "Use a hash map.")]
               (session_in WAITING_CODE GuidanceState_.new FollowUpState_.new))
            (session_in WAITING_CODE GuidanceState_.new FollowUpState_.new) _).
  vm_compute. reflexivity.
Defined.

Lemma keeps_problem_instance :
  exists s',
    sessions (snd (stub_process_input (py "s1") (py "def f(): pass")
                     (engine_with [Json {[ py "evaluation" := PStr (py "partial") ]}]
                        (session_in WAITING_CODE GuidanceState_.new FollowUpState_.new))))
      !! py "s1" = Some s' /\
    problem s' = Some TWO_SUM.
Proof.
  destruct (turn_keeps_problem ascii_lower (fun _ => []) stub_prompts
              (py "s1") (py "def f(): pass")
              (engine_with [Json {[ py "evaluation" := PStr (py "partial") ]}]
                 (session_in WAITING_CODE GuidanceState_.new FollowUpState_.new))
              (session_in WAITING_CODE GuidanceState_.new FollowUpState_.new))
    as (s' & Hs' & _ & Hp & _).
  - vm_compute. reflexivity.
  - exists s'. split; [ exact Hs' | exact Hp ].
Defined.

Lemma few_calls_instance :
  exists new,
    calls (snd (stub_process_input (py "s1") (py "thanks")
                  (engine_with [] (session_in COMPLETED GuidanceState_.new
                                     FollowUpState_.new))))
      = [] ++ new /\
    (length new <= 0)%nat.
Proof.
  refine (turn_makes_few_calls ascii_lower (fun _ => []) stub_prompts
            (py "s1") (py "thanks")
            (engine_with [] (session_in COMPLETED GuidanceState_.new FollowUpState_.new))
            (session_in COMPLETED GuidanceState_.new FollowUpState_.new) _).
  vm_compute. reflexivity.
Defined.

Lemma reachable_problem_instance :
  all_sessions
    (fun s => problem_known s /\
              (phase s <> WAITING_PROBLEM ->
               exists t, problem_title s = inr t))
    (snd (set_problem (py "s1") TWO_SUM
            (snd (create_session (py "s1") [] (empty_engine []))))).
Proof.
  apply (reachable_sessions_know_their_problem ascii_lower (fun _ => []) stub_prompts).
  apply R_set_problem, R_create_session. unfold empty_engine. apply R_init.
Defined.

Lemma reachable_followup_instance :
  all_sessions
    (fun s => followup_open s /\
              (phase s = FOLLOWUP ->
               FollowUpState_.is_complete (followup_state s) = false))
    (snd (stub_process_input (py "s1") (py "def f(): pass")
            (snd (set_problem (py "s1") TWO_SUM
                    (snd (create_session (py "s1") []
                            (empty_engine
                               [ Json {[ py "evaluation" := PStr (py "correct") ]};
                                 Json {[ py "question" := PStr (py "Why O(n)?") ]} ]))))))).
Proof.
  apply (reachable_followup_is_open ascii_lower (fun _ => []) stub_prompts).
  apply R_process_input, R_set_problem, R_create_session. unfold empty_engine.
  apply R_init.
Defined.

Lemma skip_request_instance :
  _handle_waiting_code ascii_lower (fun _ => []) stub_prompts (py "def f(): pass # skip")
    {| w_session := session_in WAITING_CODE GuidanceState_.new FollowUpState_.new;
       w_llm := [Text (py "Use a hash map.")];
       w_calls := [] |}
  = _handle_skip stub_prompts
      {| w_session := session_in WAITING_CODE GuidanceState_.new FollowUpState_.new;
         w_llm := [Text (py "Use a hash map.")];
         w_calls := [] |}.
Proof.
  refine (proj1 (skip_request ascii_lower (fun _ => []) stub_prompts
                   (py "def f(): pass # skip") _ _)).
  vm_compute. reflexivity.
Defined.

Lemma help_request_instance :
  let out := _handle_waiting_code ascii_lower (fun _ => []) stub_prompts (py "Any hint?")
               {| w_session := session_in WAITING_CODE GuidanceState_.new FollowUpState_.new;
                  w_llm := [Decoded (PList [])];
                  w_calls := [] |} in
  fst out = inl (AttributeError (py "'list' object has no attribute 'get'")) /\
  phase (w_session (snd out)) = GUIDING /\
  attempt_count (guidance_state (w_session (snd out))) = 1.
Proof.
  intros out.
  destruct (help_request_while_waiting ascii_lower (fun _ => []) stub_prompts
              (py "Any hint?")
              {| w_session := session_in WAITING_CODE GuidanceState_.new FollowUpState_.new;
                 w_llm := [Decoded (PList [])];
                 w_calls := [] |})
    as (Hphase & _ & _ & _ & Hnot).
  - vm_compute. reflexivity.
  - vm_compute. reflexivity.
  - destruct (Hnot (py "help:两数之和 (Two Sum)") (PList []) [])
      as [Hout Hcount].
    + vm_compute. reflexivity.
    + reflexivity.
    + reflexivity.
    + split; [ | split; [ exact Hphase | exact Hcount ] ].
      subst out. rewrite Hout. vm_compute. reflexivity.
Defined.

Lemma unrecognised_intent_instance :
  _recognize_intent ascii_lower stub_prompts (py "I like trains")
    {| w_session := session_in WAITING_CODE GuidanceState_.new FollowUpState_.new;
       w_llm := [Json {[ py "intent" := PStr (py "small_talk");
                         py "reply" := PStr (py "Back to the problem?") ]}];
       w_calls := [] |}
  = (inr (OTHER, PStr (py "Back to the problem?")),
     {| w_session := session_in WAITING_CODE GuidanceState_.new FollowUpState_.new;
        w_llm := [];
        w_calls := [(py "intent:两数之和 (Two Sum)", None)] |}).
Proof.
  refine (proj1 (proj2 (unrecognised_intent_is_other ascii_lower (fun _ => []) stub_prompts
            (py "I like trains") _ (py "intent:两数之和 (Two Sum)")
            {[ py "intent" := PStr (py "small_talk");
               py "reply" := PStr (py "Back to the problem?") ]} [] _ _ _ _ _)) _).
  - vm_compute. reflexivity.
  - vm_compute. reflexivity.
  - vm_compute. reflexivity.
  - vm_compute. reflexivity.
  - reflexivity.
  - vm_compute. reflexivity.
Defined.

Lemma history_window_instance :
  length (Session_.get_conversation_history (fun _ => []) (Some 2)
            (Session_.add_message (py "assistant") (PStr (py "c"))
               (Session_.add_message (py "user") (PStr (py "b"))
                  (Session_.add_message (py "assistant") (PStr (py "a"))
                     (Session_.new (py "s1")))))) = 2%nat.
Proof.
  refine (eq_trans (proj2 (proj1 (proj2 (proj2 (history_window (fun _ => []) 2 _))) _)) _).
  - reflexivity.
  - reflexivity.
Defined.

Lemma prompt_history_instance :
  exists out,
    _format_conversation (fun _ => [])
      (Session_.get_conversation_history (fun _ => []) (Some 10)
         (Session_.add_message (py "assistant") (PStr (py "Hi."))
            (Session_.add_message (py "user") (PStr (py "Hello")) (Session_.new (py "s1")))))
      = inr out /\
    (length out <= 2079)%nat.
Proof.
  assert (Htext : text_only
                    (Session_.add_message (py "assistant") (PStr (py "Hi."))
                       (Session_.add_message (py "user") (PStr (py "Hello"))
                          (Session_.new (py "s1")))))
    by (repeat constructor; eexists; reflexivity).
  destruct (proj2 (prompt_history_is_bounded (fun _ => []) (fun _ => []) _ Htext))
    as (out & Hout & Hlen & _).
  exists out. split; [ exact Hout | exact Hlen ].
Defined.

Lemma openai_parse_json_instance :
  OpenAIClient._parse_json tiny_loads (py "hello") = _parse_json tiny_loads (py "hello").
Proof.
  apply (proj1 (proj2 (openai_parse_json_skips_untagged_blocks tiny_loads (py "hello")))).
  vm_compute. reflexivity.
Defined.

Lemma qwen_prompt_instance :
  QwenClient.json_prompt (py "Evaluate this code.")
    = py "Evaluate this code." ++ QwenClient.json_reminder.
Proof.
  apply (proj1 (proj2 (proj2 (proj2 (qwen_prompt_asks_for_json tiny_loads
                                       (py "Evaluate this code.")))))).
  vm_compute. reflexivity.
Defined.

Lemma fenced_payload_instance :
  fenced_interior Regex.fence_json
    (py "Here you are: " ++ Regex.fence_json ++ [NL] ++ py "{}" ++ [NL] ++ Regex.fence
     ++ py " Anything else?")
  = Some (py "{}").
Proof.
  refine (proj1 (fenced_payload_is_recovered tiny_loads (py "Here you are: ") [NL] (py "{}")
                   [NL] (py " Anything else?") (PDict ∅) _ _ _ _ _ _ _)).
  all: vm_compute; reflexivity.
Defined.

Lemma braced_payload_instance :
  brace_span (py "Result: " ++ (open_brace ++ [] ++ close_brace) ++ py " done")
    = Some (open_brace ++ [] ++ close_brace).
Proof.
  refine (proj1 (braced_payload_is_recovered tiny_loads (py "Result: ") [] (py " done")
                   (PDict ∅) _ _)).
  all: vm_compute; reflexivity.
Defined.


Lemma title_search_instance :
  ProblemLibrary.get_problem_by_title ascii_lower []
    (ProblemLibrary.add_problem ascii_lower TWO_SUM []) = Some TWO_SUM.
Proof.
  refine (eq_trans (proj2 (proj2 (title_search_returns_first_match ascii_lower []
                                    (ProblemLibrary.add_problem ascii_lower TWO_SUM []))) _) _).
  - reflexivity.
  - reflexivity.
Defined.

Lemma mock_custom_response_instance :
  MockLLMClient._get_mock_response ascii_lower
    (MockLLMClient.set_response (py "评估代码") (PStr (py "fine")) (MockLLMClient.new []))
    (py "【你的任务 - 严格评估代码】")
  = PStr (py "fine").
Proof.
  apply (proj1 (mock_custom_response_round_trip ascii_lower (MockLLMClient.new [])
                  (py "评估代码") (py "【你的任务 - 严格评估代码】") (PStr (py "fine")))).
  - vm_compute. reflexivity.
  - constructor.
Defined.

Lemma mock_defaults_instance :
  In (MockLLMClient._get_mock_response ascii_lower (MockLLMClient.new [])
        ([] ++ _build_system_instruction ++ py "【引导状态】"))
     teaching_or_earlier.
Proof.
  refine (proj1 (mock_defaults_on_library_prompts ascii_lower (MockLLMClient.new [])
                   [] (py "【引导状态】") _)).
  constructor.
Defined.

Lemma mock_call_json_instance :
  fst (MockLLMClient.call_json ascii_lower (fun _ => []) tiny_loads (py "教学") None
         (MockLLMClient.new []))
  = inr (PDict {[ py "reply" := MockLLMClient.teaching ]}).
Proof.
  destruct (mock_call_json_outcomes ascii_lower (fun _ => []) tiny_loads
              (MockLLMClient.new []) (py "教学") None)
    as (_ & _ & _ & _ & Hwrap & _).
  refine (eq_trans (Hwrap _ decode_error _ _) _).
  - vm_compute. reflexivity.
  - vm_compute. reflexivity.
  - reflexivity.
Defined.


Lemma followup_step_instance :
  exists s',
    sessions (snd (stub_process_input (py "s1") (py "It is O(n).")
                     (engine_with [Json good_answer_next]
                        (session_in FOLLOWUP GuidanceState_.new one_asked)))) !! py "s1"
      = Some s' /\
    phase s' = FOLLOWUP /\
    followup_state s'
      = FollowUpState_.add_question (PStr (py "And the space?")) one_asked /\
    fst (stub_process_input (py "s1") (py "It is O(n).")
           (engine_with [Json good_answer_next]
              (session_in FOLLOWUP GuidanceState_.new one_asked)))
      = inr (PStr (py "Good.")).
Proof.
  destruct (followup_answer_step ascii_lower (fun _ => []) stub_prompts
              (py "s1") (py "It is O(n).")
              (engine_with [Json good_answer_next]
                 (session_in FOLLOWUP GuidanceState_.new one_asked))
              (session_in FOLLOWUP GuidanceState_.new one_asked)
              (py "followup-eval:两数之和 (Two Sum)") good_answer_next [])
    as (s' & Hs' & Hyes & _).
  - vm_compute. reflexivity.
  - reflexivity.
  - vm_compute. split; reflexivity.
  - vm_compute. reflexivity.
  - reflexivity.
  - exists s'. split; [ exact Hs' | ].
    destruct Hyes as (Hf & Hmore & _); [ vm_compute; reflexivity | ].
    destruct Hmore as [Hp Hr]; [ vm_compute; reflexivity | ].
    split; [ exact Hp | split; [ exact Hf | exact Hr ] ].
Defined.

Lemma followup_first_question_instance :
  fst (stub_process_input (py "s1") (py "ready")
         (engine_with [Json {[ py "question" := PStr (py "Why O(n)?") ]}]
            (session_in FOLLOWUP GuidanceState_.new FollowUpState_.new)))
  = inr (PStr (py "Why O(n)?")).
Proof.
  refine (proj1 (followup_first_question_regenerated ascii_lower (fun _ => []) stub_prompts
            (py "s1") (py "ready")
            (engine_with [Json {[ py "question" := PStr (py "Why O(n)?") ]}]
               (session_in FOLLOWUP GuidanceState_.new FollowUpState_.new))
            (session_in FOLLOWUP GuidanceState_.new FollowUpState_.new)
            (py "followup:两数之和 (Two Sum)")
            {[ py "question" := PStr (py "Why O(n)?") ]} [] _ _ _ _ _ _)).
  - vm_compute. reflexivity.
  - reflexivity.
  - reflexivity.
  - reflexivity.
  - vm_compute. reflexivity.
  - reflexivity.
Defined.

Lemma guided_progress_instance :
  exists s',
    sessions (snd (stub_process_input (py "s1") (py "hmm")
                     (engine_with [Text (py "other"); Text (py "Think of a hash map.")]
                        (session_in GUIDING GuidanceState_.new FollowUpState_.new))))
      !! py "s1" = Some s' /\
    attempt_count (guidance_state s') = 1.
Proof.
  destruct (guided_turn_progress ascii_lower (fun _ => []) stub_prompts
              (py "s1") (py "hmm")
              (engine_with [Text (py "other"); Text (py "Think of a hash map.")]
                 (session_in GUIDING GuidanceState_.new FollowUpState_.new))
              (session_in GUIDING GuidanceState_.new FollowUpState_.new))
    as (s' & Hs' & Hstep).
  - vm_compute. reflexivity.
  - reflexivity.
  - eexists. vm_compute. reflexivity.
  - exists s'. split; [ exact Hs' | ].
    assert (Hp : (phase <$> Some s') = Some GUIDING)
      by (rewrite <- Hs'; vm_compute; reflexivity).
    assert (Hc : (user_code <$> Some s') = Some None)
      by (rewrite <- Hs'; vm_compute; reflexivity).
    injection Hp as Hp. injection Hc as Hc.
    destruct (Hstep Hp) as [[Hcode _] | (_ & _ & Hg)].
    + rewrite Hcode in Hc. discriminate Hc.
    + rewrite Hg. reflexivity.
Defined.
